(** * dailydose-be: checkout, discount, stock and error-envelope rules

    A shallow embedding of the order, discount, cart and wishlist
    controllers of the storefront backend, together with the shipping
    helpers of [types/order.types.ts], the payment constants, the
    central error handler, the slug helpers, the authentication
    middleware and the Google callback of the auth controller, followed
    by the properties of the checkout arithmetic,
    of the discount rules, of cancellation, of the error envelope, of
    the cart and wishlist endpoints, of slugs and of authentication.

    Modelling conventions.
    - A JavaScript [number] that holds money is an IEEE 754 binary64 value,
      a [float]: sums, products, quotients and comparisons are those of
      the machine, rounding included.  A Prisma [Decimal] column stands
      for the number that [Number(...)] reads from it, and a number
      written to such a column is kept as it is; the scale of the columns
      is declared in the Prisma schema, outside these sources.  Integer
      columns ([stockQuantity], [quantity], [usedCount], ids) are [Z].
    - A string is the sequence of the bytes of its UTF-8 encoding, on which
      equality and [includes] agree with those of JavaScript.
      [toLowerCase], [toUpperCase] and [trim] depend on the Unicode
      tables of the runtime: the handlers take them from the interface
      [JsStrings], which fixes them on ASCII text only, and what is
      proved of a handler holds for every implementation of it.
      [AsciiStrings] implements them for ASCII text; it runs the
      examples, and the slug helpers, whose character classes [\w] and
      [\s] are read on ASCII text, are written with it.
    - An optional or nullable field is an [option]; JavaScript truthiness is
      written out ([truthyStr], [truthyNum], [truthyInt]).  A required
      string field of a request body is a [string], the empty string
      standing for a missing one (both are falsy).  A nullable [Decimal]
      column comes back from Prisma as an object, which is truthy whenever
      it is not null.
    - Dates are [Z] timestamps and the current time is an argument.
    - The database is an explicit record of tables; a handler is a function
      from the state to a result and a new state.  A relation named by
      [include] is an inner join.  Every Prisma call is one statement; the
      state counts how many statements the database still answers, so that
      any statement can be the one that fails.  [prisma.$transaction]
      restores the tables when its body raises.
    - A handler runs from its first statement to its answer with no other
      request in between.  The server may overlap asynchronous handlers
      at every [await]; such overlaps are not modelled, and a statement
      about several requests is about requests served one at a time.
    - The order number string of [generateOrderNumber] is left out of the
      order row; its query is kept as a read. *)

From Stdlib Require Import ZArith QArith DecimalString DecimalZ String Ascii List Lia.
From Stdlib Require Import PrimFloat FloatOps SpecFloat.
From Stdlib Require FloatAxioms Uint63.
From stdpp Require Import base option list gmap strings.

Local Open Scope Z_scope.
Set Warnings "-inexact-float".

(* ================================================================== *)
(** ** JavaScript string helpers *)
(* ================================================================== *)

(** The three methods on ASCII text. *)
Module AsciiStrings.

(** A string of ASCII characters: every byte is below 128. *)
Fixpoint isAscii (s : string) : bool :=
  match s with
  | EmptyString => true
  | String c s' => (N_of_ascii c <? 128)%N && isAscii s'
  end.

Definition isUpper (c : ascii) : bool :=
  let n := N_of_ascii c in (65 <=? n)%N && (n <=? 90)%N.

Definition isLower (c : ascii) : bool :=
  let n := N_of_ascii c in (97 <=? n)%N && (n <=? 122)%N.

Definition lowerChar (c : ascii) : ascii :=
  if isUpper c then ascii_of_N (N_of_ascii c + 32) else c.

Definition upperChar (c : ascii) : ascii :=
  if isLower c then ascii_of_N (N_of_ascii c - 32) else c.

(** [s.toLowerCase()] *)
Fixpoint toLowerCase (s : string) : string :=
  match s with
  | EmptyString => EmptyString
  | String c s' => String (lowerChar c) (toLowerCase s')
  end.

(** [s.toUpperCase()] *)
Fixpoint toUpperCase (s : string) : string :=
  match s with
  | EmptyString => EmptyString
  | String c s' => String (upperChar c) (toUpperCase s')
  end.

(** White space removed by [trim]: TAB, LF, VT, FF, CR and SPACE. *)
Definition isSpace (c : ascii) : bool :=
  let n := N_of_ascii c in
  ((9 <=? n)%N && (n <=? 13)%N) || (n =? 32)%N.

Fixpoint trimStart (s : string) : string :=
  match s with
  | EmptyString => EmptyString
  | String c s' => if isSpace c then trimStart s' else s
  end.

Fixpoint trimEnd (s : string) : string :=
  match s with
  | EmptyString => EmptyString
  | String c s' =>
      match trimEnd s' with
      | EmptyString => if isSpace c then EmptyString else String c EmptyString
      | r => String c r
      end
  end.

(** [s.trim()] *)
Definition trim (s : string) : string := trimEnd (trimStart s).

End AsciiStrings.

(** The string methods whose result depends on the Unicode tables of
    the runtime.  On a string of ASCII characters the tables leave no
    choice: only the letters A-Z and a-z change case, and the white
    space is TAB, LF, VT, FF, CR and SPACE. *)
Class JsStrings : Type := {
  (** [s.toLowerCase()] *)
  toLowerCase : string -> string;
  (** [s.toUpperCase()] *)
  toUpperCase : string -> string;
  (** [s.trim()] *)
  trim : string -> string;
  toLowerCase_ascii :
    forall s, AsciiStrings.isAscii s = true ->
              toLowerCase s = AsciiStrings.toLowerCase s;
  toUpperCase_ascii :
    forall s, AsciiStrings.isAscii s = true ->
              toUpperCase s = AsciiStrings.toUpperCase s;
  trim_ascii :
    forall s, AsciiStrings.isAscii s = true -> trim s = AsciiStrings.trim s
}.

(** The implementation that treats every string as ASCII text. *)
Definition asciiStrings : JsStrings :=
  {| toLowerCase := AsciiStrings.toLowerCase;
     toUpperCase := AsciiStrings.toUpperCase;
     trim := AsciiStrings.trim;
     toLowerCase_ascii := fun _ _ => eq_refl;
     toUpperCase_ascii := fun _ _ => eq_refl;
     trim_ascii := fun _ _ => eq_refl |}.

Module JsString.

(** [s.includes(sub)]: [sub] occurs in [s] at some offset. *)
Fixpoint includes (s sub : string) : bool :=
  String.prefix sub s ||
  match s with
  | EmptyString => false
  | String _ s' => includes s' sub
  end.

(** [xs.includes(x)] on an array of strings. *)
Definition arrayIncludes (xs : list string) (x : string) : bool :=
  existsb (String.eqb x) xs.

(** A string is falsy exactly when it is empty. *)
Definition nonEmpty (s : string) : bool :=
  match s with EmptyString => false | String _ _ => true end.

(** Truthiness of an optional string: present and not empty. *)
Definition truthyStr (o : option string) : bool :=
  match o with Some s => nonEmpty s | None => false end.

(** [String(n)] for an integer. *)
Definition ofZ (n : Z) : string := NilZero.string_of_int (Z.to_int n).

(** The double-quote character used inside interpolated messages. *)
Definition dquote : string := String (ascii_of_N 34) EmptyString.

End JsString.

Import JsString.

(* ================================================================== *)
(** ** Numbers *)
(* ================================================================== *)

(** The number of an integer, as in [price * item.quantity]. *)
Definition ofInt (z : Z) : float :=
  if z <? 0 then PrimFloat.opp (PrimFloat.of_uint63 (Uint63.of_Z (- z)))
  else PrimFloat.of_uint63 (Uint63.of_Z z).

(** [Number.isNaN(x)] *)
Definition isNaN (x : float) : bool := negb (x =? x)%float.

(** [a > b] *)
Definition numGt (a b : float) : bool := (b <? a)%float.

(** [a >= b] *)
Definition numGe (a b : float) : bool := (b <=? a)%float.

(** [a < b] *)
Definition numLt (a b : float) : bool := (a <? b)%float.

(** [a <= b] *)
Definition numLe (a b : float) : bool := (a <=? b)%float.

(** [Math.round(x)]: the integer nearest to [x], a half going up; a
    number with no fractional bits, an infinity and NaN are returned as
    they are, and what rounds to zero keeps the sign of [x].  With
    [x = (-1)^s * m * 2^e] and [e < 0] the result is
    [floor ((2 * x + 1) / 2)], computed on the integers. *)
Definition mathRound (x : float) : float :=
  match Prim2SF x with
  | S754_finite s m e =>
      if 0 <=? e then x
      else
        let sm := if s then Z.neg m else Z.pos m in
        let n := (2 * sm + 2 ^ (- e)) / 2 ^ (- e + 1) in
        if n =? 0 then (if s then (-0)%float else 0%float) else ofInt n
  | _ => x
  end.

(** Truthiness of an optional number: present, not zero and not NaN. *)
Definition truthyNum (o : option float) : bool :=
  match o with
  | Some x => negb (x =? 0)%float && negb (isNaN x)
  | None => false
  end.

(** Truthiness of an optional integer (ids, [usageLimit]). *)
Definition truthyInt (o : option Z) : bool :=
  match o with Some n => negb (n =? 0) | None => false end.

(* ================================================================== *)
(** ** types/order.types.ts: shipping configuration *)
(* ================================================================== *)

Module OrderTypes.

Definition KATHMANDU_VALLEY_CITIES : list string :=
  [ "kathmandu"; "lalitpur"; "bhaktapur"; "kirtipur";
    "madhyapur thimi"; "thimi" ].

Definition INSIDE_VALLEY : float := 100.
Definition OUTSIDE_VALLEY : float := 200.
Definition FREE_SHIPPING_THRESHOLD : float := 2000.

(** [isInsideValley(city)] *)
Definition isInsideValley {JS : JsStrings} (city : string) : bool :=
  let normalizedCity := trim (toLowerCase city) in
  existsb (fun valleyCity =>
             includes normalizedCity valleyCity
             || includes valleyCity normalizedCity)
          KATHMANDU_VALLEY_CITIES.

(** [calculateShippingCost(city, subtotal)] *)
Definition calculateShippingCost {JS : JsStrings} (city : string)
    (subtotal : float) : float :=
  if numGe subtotal FREE_SHIPPING_THRESHOLD then 0
  else if isInsideValley city then INSIDE_VALLEY else OUTSIDE_VALLEY.

End OrderTypes.

(* ================================================================== *)
(** ** constants/payment.constants.ts *)
(* ================================================================== *)

Module PaymentConstants.

Definition COD : string := "cod".
Definition ESEWA : string := "esewa".
Definition KHALTI : string := "khalti".
Definition BANK_TRANSFER : string := "bank_transfer".

(** [Object.values(PAYMENT_METHODS)] *)
Definition PAYMENT_METHODS : list string :=
  [COD; ESEWA; KHALTI; BANK_TRANSFER].

Definition ONLINE_PAYMENT_METHODS : list string :=
  [ESEWA; KHALTI; BANK_TRANSFER].

Definition requiresTransactionNumber (paymentMethod : string) : bool :=
  arrayIncludes ONLINE_PAYMENT_METHODS paymentMethod.

End PaymentConstants.

(* ================================================================== *)
(** ** utils/customError.util.ts and middleware/errorHandler.middleware.ts *)
(* ================================================================== *)

(** JSON values as sent by [res.json]. *)
#[local] Unset Elimination Schemes.
Inductive Json : Type :=
| JNull
| JBool (b : bool)
| JNumber (x : float)
| JString (s : string)
| JArray (xs : list Json)
| JObject (fields : list (string * Json)).
#[local] Set Elimination Schemes.

Module Errors.

(** A thrown JavaScript error object.  [statusCode] and [errors] are
    absent on a plain [Error]; [stack] keeps the header line of the
    stack trace. *)
Record JsError : Type := mkJsError {
  message : string;
  statusCode : option Z;
  errors : option Json;
  stack : string
}.

(** [new Error(message)] *)
Definition Error (msg : string) : JsError :=
  {| message := msg; statusCode := None; errors := None;
     stack := "Error: " +:+ msg |}.

(** [class CustomError extends Error] *)
Definition CustomError (msg : string) (code : Z) (errs : option Json)
  : JsError :=
  {| message := msg; statusCode := Some code; errors := errs;
     stack := "Error: " +:+ msg |}.

(** A default parameter value applies when the argument is [undefined]. *)
Definition orDefault (dflt : string) (arg : option string) : string :=
  match arg with Some s => s | None => dflt end.

Definition BadRequestError (msg : option string) (errs : option Json) :=
  CustomError (orDefault "Bad Request" msg) 400 errs.

Definition UnauthorizedError (msg : option string) :=
  CustomError (orDefault "Unauthorized" msg) 401 None.

Definition ForbiddenError (msg : option string) :=
  CustomError (orDefault "Forbidden" msg) 403 None.

Definition NotFoundError (msg : option string) :=
  CustomError (orDefault "Resource not found" msg) 404 None.

Definition ConflictError (msg : option string) :=
  CustomError (orDefault "Conflict" msg) 409 None.

Definition ValidationError (msg : option string) (errs : option Json) :=
  CustomError (orDefault "Validation failed" msg) 422 errs.

Definition InternalServerError (msg : option string) :=
  CustomError (orDefault "Internal Server Error" msg) 500 None.

(** The errors built by one of the seven subclasses of [CustomError]. *)
Inductive Typed : JsError -> Prop :=
| TypedBadRequest m e : Typed (BadRequestError m e)
| TypedUnauthorized m : Typed (UnauthorizedError m)
| TypedForbidden m : Typed (ForbiddenError m)
| TypedNotFound m : Typed (NotFoundError m)
| TypedConflict m : Typed (ConflictError m)
| TypedValidation m e : Typed (ValidationError m e)
| TypedInternalServer m : Typed (InternalServerError m).

(** The status codes of the typed errors. *)
Definition STATUS_CODES : list Z := [400; 401; 403; 404; 409; 422; 500].

(** What [res.status(code).json(body)] sends. *)
Record HttpResponse : Type := mkHttpResponse {
  res_status : Z;
  res_body : Json
}.

(** [errorHandler(err, req, res, next)]; [development] is
    [process.env.NODE_ENV === "development"]. *)
Definition errorHandler (development : bool) (err : JsError) : HttpResponse :=
  let statusCode :=
    match statusCode err with
    | Some c => if c =? 0 then 500 else c
    | None => 500
    end in
  let message :=
    if nonEmpty (message err) then message err
    else "Internal Server Error" in
  {| res_status := statusCode;
     res_body :=
       JObject
         ([ ("status", JString "error"); ("message", JString message) ]
          ++ (if development
              then ("stack", JString (stack err))
                   :: match errors err with
                      | Some j => [ ("errors", j) ]
                      | None => []
                      end
              else [])) |}.

(** [notFoundHandler(req, res)] *)
Definition notFoundHandler (originalUrl : string) : HttpResponse :=
  {| res_status := 404;
     res_body :=
       JObject [ ("status", JString "error");
                 ("message",
                  JString ("Route " +:+ originalUrl +:+ " not found")) ] |}.

(** [ResponseUtil.success(res, data, message, statusCode)] *)
Definition success (data : Json) (msg : string) (code : Z) : HttpResponse :=
  {| res_status := code;
     res_body :=
       JObject [ ("status", JString "success");
                 ("message", JString msg);
                 ("data", data) ] |}.

End Errors.

Import Errors.

(** The outcome of a handler: the data it sends, or the error it passes to
    [next]. *)
Inductive Result (A : Type) : Type :=
| Ok (a : A)
| Err (e : JsError).

Arguments Ok {A} a.
Arguments Err {A} e.

(* ================================================================== *)
(** ** The database *)
(* ================================================================== *)

Record ProductImage : Type := mkProductImage {
  img_imageUrl : string;
  img_isPrimary : bool
}.

Record Product : Type := mkProduct {
  p_name : string;
  p_sku : option string;
  p_price : float;
  p_stockQuantity : Z;
  p_lowStockThreshold : Z;
  p_isActive : bool;
  p_images : list ProductImage
}.

Record Discount : Type := mkDiscount {
  d_name : string;
  d_code : string;
  d_type : string;
  d_value : float;
  d_minPurchaseAmount : option float;
  d_maxDiscountAmount : option float;
  d_startDate : Z;
  d_endDate : Z;
  d_isActive : bool;
  d_usageLimit : option Z;
  d_usedCount : Z
}.

Record CartItem : Type := mkCartItem {
  ci_id : Z;
  ci_userId : Z;
  ci_productId : Z;
  ci_quantity : Z
}.

Record WishlistItem : Type := mkWishlistItem {
  wi_id : Z;
  wi_userId : Z;
  wi_productId : Z
}.

Record Order : Type := mkOrder {
  o_userId : Z;
  o_status : string;
  o_subtotal : float;
  o_shippingCost : float;
  o_tax : float;
  o_discount : float;
  o_total : float;
  o_shippingFullName : string;
  o_shippingPhone : string;
  o_shippingAddressLine1 : string;
  o_shippingAddressLine2 : option string;
  o_shippingLandmark : option string;
  o_shippingCity : string;
  o_shippingProvince : option string;
  o_shippingPostalCode : string;
  o_shippingCountry : string;
  o_paymentMethod : string;
  o_paymentStatus : string;
  o_transactionNumber : option string;
  o_discountId : option Z;
  o_discountCode : option string;
  o_customerNote : option string;
  o_adminNote : option string
}.

Record OrderItem : Type := mkOrderItem {
  oi_orderId : Z;
  oi_productId : Z;
  oi_productName : string;
  oi_productSku : option string;
  oi_productImage : option string;
  oi_price : float;
  oi_quantity : Z;
  oi_subtotal : float
}.

(** The tables the handlers touch.  Products, discounts and orders are
    keyed by their primary key; the two counters are the sequences behind
    the autoincrement ids.  The order number string picked by
    [generateOrderNumber] is not part of the order row here. *)
Record DB : Type := mkDB {
  products : gmap Z Product;
  discounts : gmap Z Discount;
  orders : gmap Z Order;
  orderItems : list OrderItem;
  cartItems : list CartItem;
  wishlistItems : list WishlistItem;
  nextOrderId : Z;
  nextCartItemId : Z
}.

Definition set_products (f : gmap Z Product -> gmap Z Product) (d : DB) : DB :=
  mkDB (f (products d)) (discounts d) (orders d) (orderItems d) (cartItems d)
       (wishlistItems d) (nextOrderId d) (nextCartItemId d).

Definition set_discounts (f : gmap Z Discount -> gmap Z Discount) (d : DB) : DB :=
  mkDB (products d) (f (discounts d)) (orders d) (orderItems d) (cartItems d)
       (wishlistItems d) (nextOrderId d) (nextCartItemId d).

Definition set_orders (f : gmap Z Order -> gmap Z Order) (d : DB) : DB :=
  mkDB (products d) (discounts d) (f (orders d)) (orderItems d) (cartItems d)
       (wishlistItems d) (nextOrderId d) (nextCartItemId d).

Definition set_orderItems (f : list OrderItem -> list OrderItem) (d : DB) : DB :=
  mkDB (products d) (discounts d) (orders d) (f (orderItems d)) (cartItems d)
       (wishlistItems d) (nextOrderId d) (nextCartItemId d).

Definition set_cartItems (f : list CartItem -> list CartItem) (d : DB) : DB :=
  mkDB (products d) (discounts d) (orders d) (orderItems d) (f (cartItems d))
       (wishlistItems d) (nextOrderId d) (nextCartItemId d).

Definition set_wishlistItems (f : list WishlistItem -> list WishlistItem)
    (d : DB) : DB :=
  mkDB (products d) (discounts d) (orders d) (orderItems d) (cartItems d)
       (f (wishlistItems d)) (nextOrderId d) (nextCartItemId d).

Definition set_nextOrderId (n : Z) (d : DB) : DB :=
  mkDB (products d) (discounts d) (orders d) (orderItems d) (cartItems d)
       (wishlistItems d) n (nextCartItemId d).

Definition set_nextCartItemId (n : Z) (d : DB) : DB :=
  mkDB (products d) (discounts d) (orders d) (orderItems d) (cartItems d)
       (wishlistItems d) (nextOrderId d) n.

Definition set_stockQuantity (f : Z -> Z) (p : Product) : Product :=
  mkProduct (p_name p) (p_sku p) (p_price p) (f (p_stockQuantity p))
            (p_lowStockThreshold p) (p_isActive p) (p_images p).

Definition set_usedCount (f : Z -> Z) (d : Discount) : Discount :=
  mkDiscount (d_name d) (d_code d) (d_type d) (d_value d)
             (d_minPurchaseAmount d) (d_maxDiscountAmount d) (d_startDate d)
             (d_endDate d) (d_isActive d) (d_usageLimit d) (f (d_usedCount d)).

Definition set_quantity (q : Z) (c : CartItem) : CartItem :=
  mkCartItem (ci_id c) (ci_userId c) (ci_productId c) q.

Definition set_status (st : string) (note : option string) (o : Order) : Order :=
  mkOrder (o_userId o) st (o_subtotal o) (o_shippingCost o) (o_tax o)
          (o_discount o) (o_total o) (o_shippingFullName o) (o_shippingPhone o)
          (o_shippingAddressLine1 o) (o_shippingAddressLine2 o)
          (o_shippingLandmark o) (o_shippingCity o) (o_shippingProvince o)
          (o_shippingPostalCode o) (o_shippingCountry o) (o_paymentMethod o)
          (o_paymentStatus o) (o_transactionNumber o) (o_discountId o)
          (o_discountCode o) (o_customerNote o) note.

Definition set_paymentStatus (ps : string) (note : option string) (o : Order)
  : Order :=
  mkOrder (o_userId o) (o_status o) (o_subtotal o) (o_shippingCost o) (o_tax o)
          (o_discount o) (o_total o) (o_shippingFullName o) (o_shippingPhone o)
          (o_shippingAddressLine1 o) (o_shippingAddressLine2 o)
          (o_shippingLandmark o) (o_shippingCity o) (o_shippingProvince o)
          (o_shippingPostalCode o) (o_shippingCountry o) (o_paymentMethod o)
          ps (o_transactionNumber o) (o_discountId o)
          (o_discountCode o) (o_customerNote o) note.

(* ================================================================== *)
(** ** Handlers as state-passing computations *)
(* ================================================================== *)

(** The state a handler runs in: the tables, and how many more database
    statements succeed before the database stops answering ([None]: it
    never does). *)
Record St : Type := mkSt {
  st_db : DB;
  st_budget : option nat
}.

Definition M (A : Type) : Type := St -> Result A * St.

Definition ret {A} (a : A) : M A := fun st => (Ok a, st).

Definition throw {A} (e : JsError) : M A := fun st => (Err e, st).

Definition bind {A B} (m : M A) (k : A -> M B) : M B :=
  fun st =>
    match m st with
    | (Ok a, st') => k a st'
    | (Err e, st') => (Err e, st')
    end.

#[global] Instance M_ret : MRet M := @ret.
#[global] Instance M_bind : MBind M := fun A B k m => bind m k.

(** [if (c) throw e] *)
Definition throwIf (c : bool) (e : JsError) : M unit :=
  if c then throw e else ret tt.

(** [for (const x of xs) { body }] *)
Fixpoint forEach {A} (xs : list A) (body : A -> M unit) : M unit :=
  match xs with
  | [] => ret tt
  | x :: xs' => body x;; forEach xs' body
  end.

(** The error Prisma raises when the database cannot be reached; like
    every Prisma error it carries no [statusCode]. *)
Definition databaseUnavailable : JsError :=
  Error "Can't reach database server".

(** The error of an [update] or [delete] whose row does not exist. *)
Definition recordNotFound : JsError :=
  Error "Record to update not found.".

(** The error of a [create] that breaks a unique constraint. *)
Definition uniqueConstraintFailed : JsError :=
  Error "Unique constraint failed".

(** The error of a [create] whose foreign key names no row. *)
Definition foreignKeyFailed : JsError :=
  Error "Foreign key constraint failed".

(** The errors of the Prisma client. *)
Inductive PrismaError : JsError -> Prop :=
| PrismaUnavailable : PrismaError databaseUnavailable
| PrismaRecordNotFound : PrismaError recordNotFound
| PrismaUniqueConstraint : PrismaError uniqueConstraintFailed
| PrismaForeignKey : PrismaError foreignKeyFailed.

(** One database statement. *)
Definition stmt {A} (f : DB -> Result (A * DB)) : M A :=
  fun st =>
    match st_budget st with
    | Some O => (Err databaseUnavailable, st)
    | b =>
        let b' := Nat.pred <$> b in
        match f (st_db st) with
        | Ok (a, d') => (Ok a, mkSt d' b')
        | Err e => (Err e, mkSt (st_db st) b')
        end
    end.

(** A statement that only reads. *)
Definition query {A} (f : DB -> A) : M A :=
  stmt (fun d => Ok (f d, d)).

(** [prisma.$transaction(async (tx) => body)]: when the body raises, the
    tables are as they were before it started. *)
Definition transaction {A} (body : M A) : M A :=
  fun st =>
    match body st with
    | (Ok a, st') => (Ok a, st')
    | (Err e, st') => (Err e, mkSt (st_db st) (st_budget st'))
    end.

(** *** The Prisma calls used by the handlers *)

Module Prisma.

(** [images: { where: { isPrimary: true }, take: 1 }] *)
Definition primaryImages (p : Product) : list ProductImage :=
  take 1 (List.filter img_isPrimary (p_images p)).

(** The cart rows of a user, each joined with its product. *)
Definition cartOf (d : DB) (userId : Z) : list (CartItem * Product) :=
  omap (fun ci => p ← products d !! ci_productId ci; Some (ci, p))
       (List.filter (fun ci => ci_userId ci =? userId) (cartItems d)).

(** [cartItem.findMany({ where: { userId }, include: { product } })] *)
Definition cartItem_findMany (userId : Z) : M (list (CartItem * Product)) :=
  query (fun d => cartOf d userId).

(** [cartItem.findUnique({ where: { userId_productId } })] *)
Definition cartItem_findUnique (userId productId : Z) : M (option CartItem) :=
  query (fun d =>
    List.find (fun ci => (ci_userId ci =? userId)
                         && (ci_productId ci =? productId))
              (cartItems d)).

(** [cartItem.findUnique({ where: { id }, include: { product: true } })] *)
Definition cartItem_findUnique_withProduct (id : Z)
  : M (option (CartItem * Product)) :=
  query (fun d =>
    ci ← List.find (fun ci => ci_id ci =? id) (cartItems d);
    p ← products d !! ci_productId ci;
    Some (ci, p)).

(** [cartItem.update({ where: { id }, data: { quantity } })] *)
Definition cartItem_update (id quantity : Z) : M CartItem :=
  stmt (fun d =>
    match List.find (fun ci => ci_id ci =? id) (cartItems d) with
    | Some ci =>
        Ok (set_quantity quantity ci,
            set_cartItems
              (map (fun c => if ci_id c =? id
                             then set_quantity quantity c else c)) d)
    | None => Err recordNotFound
    end).

(** [cartItem.create({ data: { userId, productId, quantity } })] *)
Definition cartItem_create (userId productId quantity : Z) : M CartItem :=
  stmt (fun d =>
    if existsb (fun ci => (ci_userId ci =? userId)
                          && (ci_productId ci =? productId))
               (cartItems d)
    then Err uniqueConstraintFailed
    else
      let ci := mkCartItem (nextCartItemId d) userId productId quantity in
      Ok (ci, set_nextCartItemId (nextCartItemId d + 1)
                (set_cartItems (fun cs => cs ++ [ci]) d))).

(** [cartItem.deleteMany({ where: { userId } })] *)
Definition cartItem_deleteMany (userId : Z) : M unit :=
  stmt (fun d =>
    Ok (tt, set_cartItems
              (List.filter (fun ci => negb (ci_userId ci =? userId))) d)).

(** [wishlistItem.findUnique({ where: { id }, include: { product } })] *)
Definition wishlistItem_findUnique (id : Z)
  : M (option (WishlistItem * Product)) :=
  query (fun d =>
    wi ← List.find (fun wi => wi_id wi =? id) (wishlistItems d);
    p ← products d !! wi_productId wi;
    Some (wi, p)).

(** [wishlistItem.delete({ where: { id } })] *)
Definition wishlistItem_delete (id : Z) : M unit :=
  stmt (fun d =>
    if existsb (fun wi => wi_id wi =? id) (wishlistItems d)
    then Ok (tt, set_wishlistItems
                   (List.filter (fun wi => negb (wi_id wi =? id))) d)
    else Err recordNotFound).

(** [product.findUnique({ where: { id } })] *)
Definition product_findUnique (id : Z) : M (option Product) :=
  query (fun d => products d !! id).

(** [product.update({ where: { id }, data: { stockQuantity: { decrement } } })] *)
Definition product_decrementStock (id amount : Z) : M unit :=
  stmt (fun d =>
    match products d !! id with
    | Some _ =>
        Ok (tt, set_products
                  (alter (set_stockQuantity (fun s => s - amount)) id) d)
    | None => Err recordNotFound
    end).

(** [product.update({ where: { id }, data: { stockQuantity: { increment } } })] *)
Definition product_incrementStock (id amount : Z) : M unit :=
  stmt (fun d =>
    match products d !! id with
    | Some _ =>
        Ok (tt, set_products
                  (alter (set_stockQuantity (fun s => s + amount)) id) d)
    | None => Err recordNotFound
    end).

(** [discount.findUnique({ where: { code } })]; the row comes with its
    primary key. *)
Definition discountByCode (d : DB) (code : string) : option (Z * Discount) :=
  List.find (fun kv => String.eqb (d_code kv.2) code)
            (map_to_list (discounts d)).

Definition discount_findUnique (code : string) : M (option (Z * Discount)) :=
  query (fun d => discountByCode d code).

(** [discount.update({ where: { id }, data: { usedCount: { increment: 1 } } })] *)
Definition discount_incrementUsedCount (id : Z) : M unit :=
  stmt (fun d =>
    match discounts d !! id with
    | Some _ =>
        Ok (tt, set_discounts (alter (set_usedCount (fun n => n + 1)) id) d)
    | None => Err recordNotFound
    end).

(** [discount.update({ where: { id }, data: { usedCount: { decrement: 1 } } })] *)
Definition discount_decrementUsedCount (id : Z) : M unit :=
  stmt (fun d =>
    match discounts d !! id with
    | Some _ =>
        Ok (tt, set_discounts (alter (set_usedCount (fun n => n - 1)) id) d)
    | None => Err recordNotFound
    end).

(** [order.create({ data })]; answers the id of the new row. *)
Definition order_create (o : Order) : M Z :=
  stmt (fun d =>
    let id := nextOrderId d in
    match orders d !! id with
    | Some _ => Err uniqueConstraintFailed
    | None =>
        Ok (id, set_nextOrderId (id + 1) (set_orders (insert id o) d))
    end).

(** [orderItem.create({ data })]; the order it names must exist. *)
Definition orderItem_create (it : OrderItem) : M unit :=
  stmt (fun d =>
    match orders d !! oi_orderId it with
    | Some _ => Ok (tt, set_orderItems (fun its => its ++ [it]) d)
    | None => Err foreignKeyFailed
    end).

(** The [items] relation of an order. *)
Definition itemsOf (d : DB) (orderId : Z) : list OrderItem :=
  List.filter (fun it => oi_orderId it =? orderId) (orderItems d).

(** [order.findUnique({ where: { id }, include: { items: true } })] *)
Definition order_findUnique (id : Z) : M (option (Order * list OrderItem)) :=
  query (fun d => o ← orders d !! id; Some (o, itemsOf d id)).

(** [order.update({ where: { id }, data: { status, adminNote } })] *)
Definition order_update (id : Z) (status : string) (adminNote : option string)
  : M unit :=
  stmt (fun d =>
    match orders d !! id with
    | Some _ => Ok (tt, set_orders (alter (set_status status adminNote) id) d)
    | None => Err recordNotFound
    end).

(** An order as the order endpoints send it. *)
Record OrderView : Type := mkOrderView {
  ov_id : Z;
  ov_order : Order;
  ov_items : list OrderItem;
  ov_appliedDiscount : option Discount
}.

(** [order.findUnique({ where: { id },
      include: { items: true, appliedDiscount: true } })] *)
Definition orderView (d : DB) (id : Z) : option OrderView :=
  o ← orders d !! id;
  Some (mkOrderView id o (itemsOf d id)
          (did ← o_discountId o; discounts d !! did)).

Definition order_findUnique_full (id : Z) : M (option OrderView) :=
  query (fun d => orderView d id).

(** The query of [generateOrderNumber]; it only reads the orders. *)
Definition order_findFirst_lastOfYear : M unit :=
  query (fun _ => tt).

(** [order.findUnique({ where: { id } })] *)
Definition order_findUnique_plain (id : Z) : M (option Order) :=
  query (fun d => orders d !! id).

(** [order.update({ where: { id }, data: { paymentStatus, adminNote },
      include: { items: true } })]; answers the updated row with its
    items. *)
Definition order_updatePaymentStatus (id : Z) (paymentStatus : string)
    (adminNote : option string) : M (Order * list OrderItem) :=
  stmt (fun d =>
    match orders d !! id with
    | Some o =>
        Ok ((set_paymentStatus paymentStatus adminNote o, itemsOf d id),
            set_orders (alter (set_paymentStatus paymentStatus adminNote) id) d)
    | None => Err recordNotFound
    end).

(** [cartItem.findUnique({ where: { id } })] *)
Definition cartItem_findUnique_byId (id : Z) : M (option CartItem) :=
  query (fun d => List.find (fun ci => ci_id ci =? id) (cartItems d)).

(** [cartItem.delete({ where: { id } })] *)
Definition cartItem_delete (id : Z) : M unit :=
  stmt (fun d =>
    if existsb (fun ci => ci_id ci =? id) (cartItems d)
    then Ok (tt, set_cartItems
                   (List.filter (fun ci => negb (ci_id ci =? id))) d)
    else Err recordNotFound).

(** [wishlistItem.findUnique({ where: { id } })] *)
Definition wishlistItem_findUnique_byId (id : Z) : M (option WishlistItem) :=
  query (fun d => List.find (fun wi => wi_id wi =? id) (wishlistItems d)).

(** [wishlistItem.deleteMany({ where: { userId } })] *)
Definition wishlistItem_deleteMany (userId : Z) : M unit :=
  stmt (fun d =>
    Ok (tt, set_wishlistItems
              (List.filter (fun wi => negb (wi_userId wi =? userId))) d)).

End Prisma.

Import Prisma.

(** [a || b] on optional strings. *)
Definition orElse (a b : option string) : option string :=
  if truthyStr a then a else b.

(** [xs.join(sep)] *)
Definition join (sep : string) (xs : list string) : string :=
  String.concat sep xs.

(** The three-way stock label. *)
Definition IN_STOCK : string := "in_stock".
Definition LOW_STOCK : string := "low_stock".
Definition OUT_OF_STOCK : string := "out_of_stock".

(* ================================================================== *)
(** ** controllers/product.controller.ts: ProductController *)
(* ================================================================== *)

Module ProductController.

(** The [stockStatus] computed by [transformProductResponse]. *)
Definition transformProductResponse_stockStatus (product : Product) : string :=
  if p_stockQuantity product =? 0 then OUT_OF_STOCK
  else if p_stockQuantity product <=? p_lowStockThreshold product
       then LOW_STOCK
       else IN_STOCK.

End ProductController.

(* ================================================================== *)
(** ** controllers/cart.controller.ts: CartController *)
(* ================================================================== *)

Module CartController.

Record AddToCartRequest : Type := mkAddToCartRequest {
  atc_productId : option Z;
  atc_quantity : option Z
}.

(** [addToCart] *)
Definition addToCart (userId : Z) (body : AddToCartRequest) : M CartItem :=
  let quantity := default 1 (atc_quantity body) in
  throwIf (negb (truthyInt (atc_productId body)))
          (BadRequestError (Some "Product ID is required") None);;
  let productId := default 0 (atc_productId body) in
  throwIf (quantity <? 1)
          (BadRequestError (Some "Quantity must be at least 1") None);;
  product ← product_findUnique productId;
  match product with
  | None => throw (NotFoundError (Some "Product not found or unavailable"))
  | Some product =>
      throwIf (negb (p_isActive product))
              (NotFoundError (Some "Product not found or unavailable"));;
      throwIf (p_stockQuantity product <? quantity)
              (BadRequestError
                 (Some ("Only " +:+ ofZ (p_stockQuantity product)
                        +:+ " units available in stock")) None);;
      existingCartItem ← cartItem_findUnique userId productId;
      match existingCartItem with
      | Some existingCartItem =>
          let newQuantity := ci_quantity existingCartItem + quantity in
          throwIf (p_stockQuantity product <? newQuantity)
                  (BadRequestError
                     (Some ("Cannot add more. Only "
                            +:+ ofZ (p_stockQuantity product)
                            +:+ " units available")) None);;
          cartItem_update (ci_id existingCartItem) newQuantity
      | None => cartItem_create userId productId quantity
      end
  end.

(** [updateCartItem]; [quantity] is the field of the request body. *)
Definition updateCartItem (userId : Z) (cartItemId : Z) (quantity : option Z)
  : M CartItem :=
  throwIf (negb (truthyInt quantity) || (default 0 quantity <? 1))
          (BadRequestError (Some "Valid quantity is required") None);;
  let quantity := default 0 quantity in
  cartItem ← cartItem_findUnique_withProduct cartItemId;
  match cartItem with
  | None => throw (NotFoundError (Some "Cart item not found"))
  | Some (cartItem, product) =>
      throwIf (negb (ci_userId cartItem =? userId))
              (NotFoundError (Some "Cart item not found"));;
      throwIf (p_stockQuantity product <? quantity)
              (BadRequestError
                 (Some ("Only " +:+ ofZ (p_stockQuantity product)
                        +:+ " units available in stock")) None);;
      cartItem_update cartItemId quantity
  end.

(** The [stockStatus] computed for each item by [getCart]. *)
Definition getCart_stockStatus (product : Product) : string :=
  if p_stockQuantity product =? 0 then OUT_OF_STOCK
  else if p_stockQuantity product <=? p_lowStockThreshold product
       then LOW_STOCK
       else IN_STOCK.

Record CartSummary : Type := mkCartSummary {
  cs_items : list (CartItem * Product * string);
  cs_totalItems : Z;
  cs_subtotal : float;
  cs_estimatedTotal : float
}.

(** [getCart]; the newest item comes first. *)
Definition getCart (userId : Z) : M CartSummary :=
  cartItems ← cartItem_findMany userId;
  let cartItems := rev cartItems in
  let subtotal :=
    fold_left (fun acc item =>
                 (acc + p_price item.2 * ofInt (ci_quantity item.1))%float)
              cartItems 0%float in
  let totalItems :=
    fold_left (fun acc item => acc + ci_quantity item.1) cartItems 0 in
  let itemsWithStockStatus :=
    map (fun item => (item, getCart_stockStatus item.2)) cartItems in
  mret (mkCartSummary itemsWithStockStatus totalItems subtotal subtotal).

(** [removeFromCart] *)
Definition removeFromCart (userId : Z) (cartItemId : Z) : M unit :=
  cartItem ← cartItem_findUnique_byId cartItemId;
  throwIf (match cartItem with
           | None => true
           | Some cartItem => negb (ci_userId cartItem =? userId)
           end)
          (NotFoundError (Some "Cart item not found"));;
  cartItem_delete cartItemId.

(** [clearCart] *)
Definition clearCart (userId : Z) : M unit :=
  cartItem_deleteMany userId.

End CartController.

(* ================================================================== *)
(** ** controllers/wishlist.controller.ts: WishlistController *)
(* ================================================================== *)

Module WishlistController.

(** The [stockStatus] computed for each item by [getWishlist]. *)
Definition getWishlist_stockStatus (product : Product) : string :=
  if p_stockQuantity product =? 0 then OUT_OF_STOCK
  else if p_stockQuantity product <=? p_lowStockThreshold product
       then LOW_STOCK
       else IN_STOCK.

(** [moveToCart]; [quantity] is the optional field of the request body. *)
Definition moveToCart (userId : Z) (wishlistItemId : Z) (quantity : option Z)
  : M CartItem :=
  let quantity := default 1 quantity in
  wishlistItem ← wishlistItem_findUnique wishlistItemId;
  match wishlistItem with
  | None => throw (NotFoundError (Some "Wishlist item not found"))
  | Some (wishlistItem, product) =>
      throwIf (negb (wi_userId wishlistItem =? userId))
              (NotFoundError (Some "Wishlist item not found"));;
      throwIf (p_stockQuantity product <? quantity)
              (BadRequestError (Some "Product out of stock") None);;
      transaction (
        existingCartItem ←
          cartItem_findUnique userId (wi_productId wishlistItem);
        cartItem ←
          match existingCartItem with
          | Some existingCartItem =>
              cartItem_update (ci_id existingCartItem)
                              (ci_quantity existingCartItem + quantity)
          | None =>
              cartItem_create userId (wi_productId wishlistItem) quantity
          end;
        wishlistItem_delete wishlistItemId;;
        mret cartItem)
  end.

(** [removeFromWishlist] *)
Definition removeFromWishlist (userId : Z) (wishlistItemId : Z) : M unit :=
  wishlistItem ← wishlistItem_findUnique_byId wishlistItemId;
  throwIf (match wishlistItem with
           | None => true
           | Some wishlistItem => negb (wi_userId wishlistItem =? userId)
           end)
          (NotFoundError (Some "Wishlist item not found"));;
  wishlistItem_delete wishlistItemId.

(** [clearWishlist] *)
Definition clearWishlist (userId : Z) : M unit :=
  wishlistItem_deleteMany userId.

End WishlistController.

(* ================================================================== *)
(** ** controllers/discount.controller.ts: DiscountController *)
(* ================================================================== *)

Module DiscountController.

Record ApplyDiscountRequest : Type := mkApplyDiscountRequest {
  adr_code : option string;
  adr_cartSubtotal : option float
}.

Record DiscountInfo : Type := mkDiscountInfo {
  di_id : Z;
  di_name : string;
  di_code : string;
  di_type : string;
  di_value : float;
  di_discountAmount : float
}.

(** The data of the response: [{ valid: false, message }] or
    [{ valid: true, discount }]. *)
Inductive ValidateResponse : Type :=
| Invalid (message : string)
| Valid (discount : DiscountInfo).

Section ValidateCode.

Context {JS : JsStrings}.

(** How a [Decimal] column prints inside a template string. *)
Variable decimalToString : float -> string.

(** [validateCode] *)
Definition validateCode (now : Z) (body : ApplyDiscountRequest)
  : M ValidateResponse :=
  throwIf (negb (truthyStr (adr_code body)))
          (BadRequestError (Some "Discount code is required") None);;
  let code := default EmptyString (adr_code body) in
  throwIf (negb (truthyNum (adr_cartSubtotal body))
           || numLe (default 0%float (adr_cartSubtotal body)) 0)
          (BadRequestError (Some "Valid cart subtotal is required") None);;
  let cartSubtotal := default 0%float (adr_cartSubtotal body) in
  discount ← discount_findUnique (toUpperCase code);
  match discount with
  | None => mret (Invalid "Invalid discount code")
  | Some (id, discount) =>
      if negb (d_isActive discount)
      then mret (Invalid "This discount code is no longer active")
      else if (now <? d_startDate discount) || (d_endDate discount <? now)
      then mret (Invalid "This discount code has expired")
      else if truthyInt (d_usageLimit discount)
              && (default 0 (d_usageLimit discount) <=? d_usedCount discount)
      then mret (Invalid "This discount code has reached its usage limit")
      else if match d_minPurchaseAmount discount with
              | Some minPurchaseAmount => numLt cartSubtotal minPurchaseAmount
              | None => false
              end
      then mret (Invalid
                   ("Minimum purchase amount of Rs "
                    +:+ decimalToString
                          (default 0%float (d_minPurchaseAmount discount))
                    +:+ " required"))
      else
        let discountAmount :=
          if String.eqb (d_type discount) "percentage"
          then (cartSubtotal * d_value discount / 100)%float
          else d_value discount in
        let discountAmount :=
          match d_maxDiscountAmount discount with
          | Some maxDiscountAmount =>
              if numGt discountAmount maxDiscountAmount
              then maxDiscountAmount else discountAmount
          | None => discountAmount
          end in
        let discountAmount :=
          if numGt discountAmount cartSubtotal
          then cartSubtotal else discountAmount in
        mret (Valid
                (mkDiscountInfo id (d_name discount) (d_code discount)
                   (d_type discount) (d_value discount)
                   (mathRound (discountAmount * 100) / 100)%float))
  end.

End ValidateCode.

End DiscountController.

(* ================================================================== *)
(** ** controllers/order.controller.ts: OrderController *)
(* ================================================================== *)

Module OrderController.

Import OrderTypes PaymentConstants.

Record ShippingInfo : Type := mkShippingInfo {
  fullName : string;
  phone : string;
  addressLine1 : string;
  addressLine2 : option string;
  landmark : option string;
  city : string;
  province : option string;
  postalCode : string;
  country : option string
}.

Record CheckoutRequest : Type := mkCheckoutRequest {
  shippingInfo : option ShippingInfo;
  paymentMethod : string;
  transactionNumber : option string;
  customerNote : option string;
  discountCode : option string
}.

(** The first [if] of [checkout]: every required field is present. *)
Definition shippingInfoComplete (shippingInfo : option ShippingInfo) : bool :=
  match shippingInfo with
  | None => false
  | Some si =>
      nonEmpty (fullName si) && nonEmpty (phone si)
      && nonEmpty (addressLine1 si) && nonEmpty (city si)
      && nonEmpty (postalCode si)
  end.

(** The body of the stock validation loop. *)
Definition validateStock (item : CartItem * Product) : M unit :=
  throwIf (negb (p_isActive item.2))
          (BadRequestError
             (Some ("Product " +:+ dquote +:+ p_name item.2 +:+ dquote
                    +:+ " is no longer available")) None);;
  throwIf (p_stockQuantity item.2 <? ci_quantity item.1)
          (BadRequestError
             (Some ("Insufficient stock for " +:+ dquote +:+ p_name item.2
                    +:+ dquote +:+ ". Only "
                    +:+ ofZ (p_stockQuantity item.2) +:+ " available."))
             None).

(** [subtotal] after the [forEach] over the cart. *)
Definition subtotalOf (cartItems : list (CartItem * Product)) : float :=
  fold_left (fun subtotal item =>
               (subtotal + p_price item.2 * ofInt (ci_quantity item.1))%float)
            cartItems 0%float.

(** [shippingCost], computed inline by [checkout]. *)
Definition shippingCostOf {JS : JsStrings} (shippingCity : string)
    (subtotal : float) : float :=
  if numGe subtotal FREE_SHIPPING_THRESHOLD then 0%float
  else
    let city := trim (toLowerCase shippingCity) in
    let valleyCities :=
      [ "kathmandu"; "lalitpur"; "bhaktapur"; "kirtipur";
        "madhyapur thimi"; "thimi" ] in
    let isInsideValley :=
      existsb (fun valleyCity =>
                 includes city valleyCity || includes valleyCity city)
              valleyCities in
    if isInsideValley then INSIDE_VALLEY else OUTSIDE_VALLEY.

(** [isValid] for a discount row found by its code. *)
Definition isValid (now : Z) (subtotal : float) (discountRecord : Discount)
  : bool :=
  d_isActive discountRecord
  && (d_startDate discountRecord <=? now)
  && (now <=? d_endDate discountRecord)
  && (negb (truthyInt (d_usageLimit discountRecord))
      || (d_usedCount discountRecord
          <? default 0 (d_usageLimit discountRecord)))
  && match d_minPurchaseAmount discountRecord with
     | None => true
     | Some minPurchaseAmount => numGe subtotal minPurchaseAmount
     end.

(** [discount] for a valid discount row. *)
Definition discountOf (subtotal : float) (discountRecord : Discount) : float :=
  let discount :=
    if String.eqb (d_type discountRecord) "percentage"
    then (subtotal * d_value discountRecord / 100)%float
    else d_value discountRecord in
  let discount :=
    match d_maxDiscountAmount discountRecord with
    | Some maxDiscountAmount =>
        if numGt discount maxDiscountAmount
        then maxDiscountAmount else discount
    | None => discount
    end in
  if numGt discount subtotal then subtotal else discount.

(** [discount], [discountId] and [discountCodeUsed] after the
    [if (discountCode)] block. *)
Definition applyDiscount {JS : JsStrings} (now : Z) (subtotal : float)
    (discountCode : option string)
  : M (float * option Z * option string) :=
  if truthyStr discountCode then
    discountRecord ←
      discount_findUnique (toUpperCase (default EmptyString discountCode));
    match discountRecord with
    | Some (id, discountRecord) =>
        if isValid now subtotal discountRecord
        then mret (discountOf subtotal discountRecord,
                   Some id, Some (d_code discountRecord))
        else mret (0%float, None, None)
    | None => mret (0%float, None, None)
    end
  else mret (0%float, None, None).

(** [item.product.images[0]?.imageUrl || null] *)
Definition productImageOf (product : Product) : option string :=
  match head (primaryImages product) with
  | Some img =>
      if nonEmpty (img_imageUrl img) then Some (img_imageUrl img) else None
  | None => None
  end.

(** The row written by [tx.orderItem.create] for one cart item. *)
Definition orderItemOf (orderId : Z) (item : CartItem * Product) : OrderItem :=
  {| oi_orderId := orderId;
     oi_productId := ci_productId item.1;
     oi_productName := p_name item.2;
     oi_productSku := p_sku item.2;
     oi_productImage := productImageOf item.2;
     oi_price := p_price item.2;
     oi_quantity := ci_quantity item.1;
     oi_subtotal := (p_price item.2 * ofInt (ci_quantity item.1))%float |}.

(** The [data] of [tx.order.create]. *)
Definition orderData (userId : Z) (body : CheckoutRequest)
    (shippingInfo : ShippingInfo)
    (subtotal shippingCost tax discount total : float)
    (discountId : option Z) (discountCodeUsed : option string) : Order :=
  {| o_userId := userId;
     o_status := "pending";
     o_subtotal := subtotal;
     o_shippingCost := shippingCost;
     o_tax := tax;
     o_discount := discount;
     o_total := total;
     o_shippingFullName := fullName shippingInfo;
     o_shippingPhone := phone shippingInfo;
     o_shippingAddressLine1 := addressLine1 shippingInfo;
     o_shippingAddressLine2 := addressLine2 shippingInfo;
     o_shippingLandmark := landmark shippingInfo;
     o_shippingCity := city shippingInfo;
     o_shippingProvince := province shippingInfo;
     o_shippingPostalCode := postalCode shippingInfo;
     o_shippingCountry :=
       if truthyStr (country shippingInfo)
       then default EmptyString (country shippingInfo)
       else "Nepal";
     o_paymentMethod := paymentMethod body;
     o_paymentStatus := "pending";
     o_transactionNumber :=
       if String.eqb (paymentMethod body) COD then None
       else transactionNumber body;
     o_discountId := discountId;
     o_discountCode := discountCodeUsed;
     o_customerNote := customerNote body;
     o_adminNote := None |}.

(** [checkout] for the authenticated user [userId] at time [now]. *)
Definition checkout {JS : JsStrings} (now : Z) (userId : Z)
    (body : CheckoutRequest) : M (option OrderView) :=
  let paymentMethod := paymentMethod body in
  let transactionNumber := transactionNumber body in
  match shippingInfo body with
  | None =>
      throw (BadRequestError
               (Some "Full name, phone, address, city, and postal code are required")
               None)
  | Some shippingInfo =>
      throwIf (negb (shippingInfoComplete (Some shippingInfo)))
              (BadRequestError
                 (Some "Full name, phone, address, city, and postal code are required")
                 None);;
      throwIf (negb (nonEmpty paymentMethod))
              (BadRequestError (Some "Payment method is required") None);;
      let validPaymentMethods := PAYMENT_METHODS in
      throwIf (negb (arrayIncludes validPaymentMethods paymentMethod))
              (BadRequestError
                 (Some ("Invalid payment method. Must be one of: "
                        +:+ join ", " validPaymentMethods)) None);;
      throwIf (requiresTransactionNumber paymentMethod
               && (negb (truthyStr transactionNumber)
                   || negb (nonEmpty
                              (trim (default EmptyString transactionNumber)))))
              (BadRequestError
                 (Some "Transaction number is required for online payments (eSewa, Khalti, Bank Transfer)")
                 None);;
      cartItems ← cartItem_findMany userId;
      throwIf (Nat.eqb (length cartItems) 0)
              (BadRequestError
                 (Some "Cart is empty. Add items before checkout.") None);;
      forEach cartItems validateStock;;
      let subtotal := subtotalOf cartItems in
      let shippingCost := shippingCostOf (city shippingInfo) subtotal in
      '(discount, discountId, discountCodeUsed) ←
        applyDiscount now subtotal (discountCode body);
      let tax := 0%float in
      let total := (subtotal + shippingCost + tax - discount)%float in
      order_findFirst_lastOfYear;;
      transaction (
        newOrderId ←
          order_create
            (orderData userId body shippingInfo subtotal shippingCost tax
                       discount total discountId discountCodeUsed);
        forEach cartItems (fun item =>
          orderItem_create (orderItemOf newOrderId item);;
          product_decrementStock (ci_productId item.1) (ci_quantity item.1));;
        cartItem_deleteMany userId;;
        (if truthyInt discountId
         then discount_incrementUsedCount (default 0 discountId)
         else mret tt);;
        order_findUnique_full newOrderId)
  end.

Record UpdateOrderStatusRequest : Type := mkUpdateOrderStatusRequest {
  status : string;
  adminNote : option string
}.

Definition CANCELLED : string := "cancelled".

Definition validStatuses : list string :=
  [ "pending"; "confirmed"; "processing"; "shipped"; "delivered";
    "cancelled" ].

(** [updateOrderStatus] for the order [orderId]. *)
Definition updateOrderStatus (orderId : Z) (body : UpdateOrderStatusRequest)
  : M (option OrderView) :=
  let status := status body in
  let adminNote := adminNote body in
  throwIf (negb (nonEmpty status))
          (BadRequestError (Some "Status is required") None);;
  throwIf (negb (arrayIncludes validStatuses status))
          (BadRequestError
             (Some ("Invalid status. Must be one of: "
                    +:+ join ", " validStatuses)) None);;
  existingOrder ← order_findUnique orderId;
  match existingOrder with
  | None => throw (NotFoundError (Some "Order not found"))
  | Some (existingOrder, items) =>
      throwIf (String.eqb (o_status existingOrder) CANCELLED
               && String.eqb status CANCELLED)
              (BadRequestError (Some "Order is already cancelled") None);;
      (if String.eqb status CANCELLED
          && negb (String.eqb (o_status existingOrder) CANCELLED)
       then
         transaction (
           forEach items (fun item =>
             product_incrementStock (oi_productId item) (oi_quantity item));;
           (if truthyInt (o_discountId existingOrder)
            then discount_decrementUsedCount
                   (default 0 (o_discountId existingOrder))
            else mret tt);;
           order_update orderId status
                        (orElse adminNote (o_adminNote existingOrder)))
       else
         order_update orderId status
                      (orElse adminNote (o_adminNote existingOrder)));;
      order_findUnique_full orderId
  end.

Record UpdatePaymentStatusRequest : Type := mkUpdatePaymentStatusRequest {
  ups_paymentStatus : string;
  ups_adminNote : option string
}.

(** [updatePaymentStatus] for the order [orderId]. *)
Definition updatePaymentStatus (orderId : Z) (body : UpdatePaymentStatusRequest)
  : M (Order * list OrderItem) :=
  let paymentStatus := ups_paymentStatus body in
  let adminNote := ups_adminNote body in
  throwIf (negb (nonEmpty paymentStatus))
          (BadRequestError (Some "Payment status is required") None);;
  let validStatuses := [ "pending"; "paid"; "failed" ] in
  throwIf (negb (arrayIncludes validStatuses paymentStatus))
          (BadRequestError
             (Some ("Invalid payment status. Must be one of: "
                    +:+ join ", " validStatuses)) None);;
  existingOrder ← order_findUnique_plain orderId;
  match existingOrder with
  | None => throw (NotFoundError (Some "Order not found"))
  | Some existingOrder =>
      order_updatePaymentStatus orderId paymentStatus
        (orElse adminNote (o_adminNote existingOrder))
  end.

End OrderController.

(* ================================================================== *)
(** ** utils/slug.util.ts: SlugUtil *)
(* ================================================================== *)

Module SlugUtil.

Import AsciiStrings.

Definition isDigit (c : ascii) : bool :=
  let n := N_of_ascii c in (48 <=? n)%N && (n <=? 57)%N.

Definition isHyphen (c : ascii) : bool := (N_of_ascii c =? 45)%N.

Definition isUnderscore (c : ascii) : bool := (N_of_ascii c =? 95)%N.

(** The class [\w]: letters, digits and the underscore. *)
Definition isWord (c : ascii) : bool :=
  isUpper c || isLower c || isDigit c || isUnderscore c.

(** [s.replace(/[^\w\s-]/g, empty)]: every character outside the three
    classes is dropped. *)
Fixpoint removeSpecial (s : string) : string :=
  match s with
  | EmptyString => EmptyString
  | String c s' =>
      if isWord c || isSpace c || isHyphen c
      then String c (removeSpecial s')
      else removeSpecial s'
  end.

(** The class [[\s_-]]. *)
Definition isSeparator (c : ascii) : bool :=
  isSpace c || isUnderscore c || isHyphen c.

(** [s.replace(/[\s_-]+/g, "-")]: every maximal run of separators becomes
    one hyphen.  [inRun] tells that the previous character belonged to
    the run being replaced. *)
Fixpoint hyphenateFrom (inRun : bool) (s : string) : string :=
  match s with
  | EmptyString => EmptyString
  | String c s' =>
      if isSeparator c
      then if inRun then hyphenateFrom true s'
           else String "-" (hyphenateFrom true s')
      else String c (hyphenateFrom false s')
  end.

Definition hyphenate (s : string) : string := hyphenateFrom false s.

(** The alternative [^-+] of the last replacement. *)
Fixpoint stripLeading (s : string) : string :=
  match s with
  | EmptyString => EmptyString
  | String c s' => if isHyphen c then stripLeading s' else s
  end.

(** The alternative [-+$] of the last replacement. *)
Fixpoint stripTrailing (s : string) : string :=
  match s with
  | EmptyString => EmptyString
  | String c s' =>
      match stripTrailing s' with
      | EmptyString => if isHyphen c then EmptyString else String c EmptyString
      | r => String c r
      end
  end.

(** [generateSlug(text)] *)
Definition generateSlug (text : string) : string :=
  stripTrailing
    (stripLeading
       (hyphenate
          (removeSpecial
             (AsciiStrings.trim (AsciiStrings.toLowerCase text))))).

(** The class [[a-z0-9]]. *)
Definition isSlugChar (c : ascii) : bool := isLower c || isDigit c.

(** Matching the rest of a string against [/^[a-z0-9]+(?:-[a-z0-9]+)*$/];
    [afterChar] tells that the previous character was one of [[a-z0-9]],
    the only place where the match may end or a hyphen may follow. *)
Fixpoint isValidSlugFrom (afterChar : bool) (s : string) : bool :=
  match s with
  | EmptyString => afterChar
  | String c s' =>
      if isSlugChar c then isValidSlugFrom true s'
      else if isHyphen c then afterChar && isValidSlugFrom false s'
      else false
  end.

(** [isValidSlug(slug)] *)
Definition isValidSlug (slug : string) : bool := isValidSlugFrom false slug.

(** The [while] loop of [makeUniqueSlug], run for at most [fuel] more
    iterations after the current test; [None] when the fuel runs out
    first. *)
Fixpoint makeUniqueSlug_loop (fuel : nat) (baseSlug : string)
    (existingSlugs : list string) (slug : string) (counter : Z)
  : option string :=
  if arrayIncludes existingSlugs slug
  then match fuel with
       | O => None
       | S fuel' =>
           makeUniqueSlug_loop fuel' baseSlug existingSlugs
             (baseSlug +:+ "-" +:+ ofZ counter) (counter + 1)
       end
  else Some slug.

(** [makeUniqueSlug(baseSlug, existingSlugs)], with as many iterations as
    there are existing slugs. *)
Definition makeUniqueSlug (baseSlug : string) (existingSlugs : list string)
  : option string :=
  makeUniqueSlug_loop (length existingSlugs) baseSlug existingSlugs baseSlug 1.

End SlugUtil.

(* ================================================================== *)
(** ** middleware/auth.middleware.ts and services/auth.service.ts *)
(* ================================================================== *)

Module AuthMiddleware.

Record JwtPayload : Type := mkJwtPayload {
  userId : Z;
  email : string;
  role : string
}.

(** [s.split(sep)] for a separator of one character. *)
Fixpoint split (sep : ascii) (s : string) : list string :=
  match s with
  | EmptyString => [EmptyString]
  | String c s' =>
      if Ascii.eqb c sep then EmptyString :: split sep s'
      else match split sep s' with
           | piece :: pieces => String c piece :: pieces
           | [] => [String c EmptyString]
           end
  end.

Section Authenticate.

(** [config.jwtSecret] *)
Variable jwtSecret : option string.

(** [jwt.verify(token, secret)]: the decoded claims, or the error it
    throws. *)
Variable jwt_verify : string -> string -> Result JwtPayload.

(** [AuthService.verifyToken(token)] *)
Definition verifyToken (token : string) : Result JwtPayload :=
  if negb (truthyStr jwtSecret)
  then Err (Error "JWT_SECRET is not defined")
  else
    match jwt_verify token (default EmptyString jwtSecret) with
    | Ok decoded =>
        Ok (mkJwtPayload (userId decoded) (email decoded) (role decoded))
    | Err e => Err e
    end.

(** The body of the [try] block of [authenticate]; [authorization] is
    [req.headers.authorization]. *)
Definition authenticate_try (authorization : option string)
  : Result JwtPayload :=
  match authorization with
  | None => Err (UnauthorizedError (Some "No token provided. Please login."))
  | Some authHeader =>
      if negb (nonEmpty authHeader)
         || negb (String.prefix "Bearer " authHeader)
      then Err (UnauthorizedError (Some "No token provided. Please login."))
      else
        match nth_error (split " " authHeader) 1 with
        | Some token => verifyToken token
        | None => Err (Error "token is undefined")
        end
  end.

(** [authenticate]: what it attaches to the request, or the error it
    passes to [next]. *)
Definition authenticate (authorization : option string) : Result JwtPayload :=
  match authenticate_try authorization with
  | Ok decoded => Ok decoded
  | Err _ =>
      Err (UnauthorizedError
             (Some "Invalid or expired token. Please login again."))
  end.

(** [isAdmin]; [jwtPayload] is what the request carries. *)
Definition isAdmin (jwtPayload : option JwtPayload) : Result unit :=
  match jwtPayload with
  | None => Err (UnauthorizedError (Some "User not authenticated"))
  | Some jwtPayload =>
      if negb (String.eqb (role jwtPayload) "admin")
      then Err (ForbiddenError
                  (Some "Access denied. Admin privileges required."))
      else Ok tt
  end.

(** [isEmailVerified] *)
Definition isEmailVerified (jwtPayload : option JwtPayload) : Result unit :=
  match jwtPayload with
  | None => Err (UnauthorizedError (Some "User not authenticated"))
  | Some _ => Ok tt
  end.

(** The chain [authenticate, isAdmin] in front of the admin routes: the
    payload the handler sees, or the error that ends the chain. *)
Definition authenticateAdmin (authorization : option string)
  : Result JwtPayload :=
  match authenticate authorization with
  | Ok jwtPayload =>
      match isAdmin (Some jwtPayload) with
      | Ok _ => Ok jwtPayload
      | Err e => Err e
      end
  | Err e => Err e
  end.

End Authenticate.

End AuthMiddleware.

(* ================================================================== *)
(** ** services/auth.service.ts and controllers/auth.controller.ts *)
(* ================================================================== *)

Module AuthController.

Import AuthMiddleware.

(** The user that Passport attaches to the request. *)
Record User : Type := mkUser {
  u_id : Z;
  u_email : string;
  u_role : string
}.

Section GoogleCallback.

(** [config.jwtSecret] *)
Variable jwtSecret : option string.

(** [jwt.sign(payload, secret, options)] *)
Variable jwt_sign : JwtPayload -> string -> string.

(** [config.clientUrl], as it prints inside a template string. *)
Variable clientUrl : string.

(** [AuthService.generateToken(payload)] *)
Definition generateToken (payload : JwtPayload) : Result string :=
  if negb (truthyStr jwtSecret)
  then Err (Error "JWT_SECRET is not defined")
  else
    Ok (jwt_sign
          (mkJwtPayload (userId payload) (email payload) (role payload))
          (default EmptyString jwtSecret)).

(** [googleCallback]: the URL it redirects to, or the error it passes
    to [next]; [user] is [req.user]. *)
Definition googleCallback (user : option User) : Result string :=
  match user with
  | None => Err (UnauthorizedError (Some "Google authentication failed"))
  | Some user =>
      match generateToken
              (mkJwtPayload (u_id user) (u_email user) (u_role user)) with
      | Ok token =>
          Ok (clientUrl +:+ "/auth/google/success?token=" +:+ token)
      | Err e => Err e
      end
  end.

End GoogleCallback.

End AuthController.

(* ================================================================== *)
(** * Vocabulary of the statements *)
(* ================================================================== *)

Import OrderTypes OrderController.

(** ** Strings and cities *)

(** [sub] occurs somewhere inside [s]. *)
Definition substringOf (sub s : string) : Prop :=
  exists pre post, s = pre +:+ sub +:+ post.

(** A string made only of the ASCII white space characters. *)
Fixpoint allSpace (s : string) : bool :=
  match s with
  | EmptyString => true
  | String c s' => AsciiStrings.isSpace c && allSpace s'
  end.

(** The normal form of a city name that the valley test compares. *)
Definition normalizedCity {JS : JsStrings} (city : string) : string :=
  trim (toLowerCase city).

(** The valley test in words: the normalised city contains a valley name,
    or a valley name contains the normalised city. *)
Definition matchesValley {JS : JsStrings} (city : string) : Prop :=
  exists valleyCity,
    In valleyCity KATHMANDU_VALLEY_CITIES /\
    (substringOf valleyCity (normalizedCity city)
     \/ substringOf (normalizedCity city) valleyCity).

(** ** Handlers *)

(** A computation that never changes the tables. *)
Definition readOnly {A} (m : M A) : Prop :=
  forall st r st', m st = (r, st') -> st_db st' = st_db st.

(** A computation that leaves the tables as they were whenever it raises. *)
Definition atomic {A} (m : M A) : Prop :=
  forall st e st', m st = (Err e, st') -> st_db st' = st_db st.

(** The request body that cancels an order. *)
Definition cancelRequest (adminNote : option string) : UpdateOrderStatusRequest :=
  mkUpdateOrderStatusRequest CANCELLED adminNote.

(** The transaction of [updateOrderStatus] for a cancellation. *)
Definition cancelTransaction (orderId : Z) (existingOrder : Order)
    (items : list OrderItem) (adminNote : option string) : M unit :=
  transaction (
    forEach items (fun item =>
      product_incrementStock (oi_productId item) (oi_quantity item));;
    (if truthyInt (o_discountId existingOrder)
     then discount_decrementUsedCount (default 0 (o_discountId existingOrder))
     else mret tt);;
    order_update orderId CANCELLED
                 (orElse adminNote (o_adminNote existingOrder))).


(** ** Closed forms of the handlers' effects *)

(** The request passes the validation at the head of [checkout]. *)
Definition requestAccepted {JS : JsStrings} (body : CheckoutRequest) : bool :=
  shippingInfoComplete (shippingInfo body)
  && nonEmpty (paymentMethod body)
  && arrayIncludes PaymentConstants.PAYMENT_METHODS (paymentMethod body)
  && negb (PaymentConstants.requiresTransactionNumber (paymentMethod body)
           && (negb (truthyStr (transactionNumber body))
               || negb (nonEmpty
                          (trim (default EmptyString
                                         (transactionNumber body)))))).

(** One cart item passes the stock validation loop. *)
Definition itemAccepted (item : CartItem * Product) : bool :=
  p_isActive item.2 && negb (p_stockQuantity item.2 <? ci_quantity item.1).

(** The cart is not empty and every item passes the validation loop. *)
Definition cartAccepted (items : list (CartItem * Product)) : bool :=
  negb (Nat.eqb (length items) 0) && forallb itemAccepted items.

(** What [applyDiscount] answers on the tables [d]. *)
Definition discountPlan {JS : JsStrings} (d : DB) (now : Z) (subtotal : float)
    (discountCode : option string) : float * option Z * option string :=
  if truthyStr discountCode then
    match discountByCode d (toUpperCase (default EmptyString discountCode)) with
    | Some (id, discountRecord) =>
        if isValid now subtotal discountRecord
        then (discountOf subtotal discountRecord,
              Some id, Some (d_code discountRecord))
        else (0%float, None, None)
    | None => (0%float, None, None)
    end
  else (0%float, None, None).

(** The order row [checkout] writes on the tables [d]. *)
Definition plannedOrder {JS : JsStrings} (d : DB) (now userId : Z)
    (body : CheckoutRequest) (si : ShippingInfo) : Order :=
  let items := cartOf d userId in
  let subtotal := subtotalOf items in
  let shippingCost := shippingCostOf (city si) subtotal in
  let plan := discountPlan d now subtotal (discountCode body) in
  orderData userId body si subtotal shippingCost 0%float plan.1.1
            (subtotal + shippingCost + 0 - plan.1.1)%float plan.1.2 plan.2.

(** Stock after the decrements of the checkout transaction. *)
Definition decrementAll (items : list (CartItem * Product))
    (ps : gmap Z Product) : gmap Z Product :=
  fold_left (fun ps item =>
               alter (set_stockQuantity (fun s => s - ci_quantity item.1))
                     (ci_productId item.1) ps)
            items ps.

(** Stock after the increments of the cancellation transaction. *)
Definition incrementAll (items : list OrderItem)
    (ps : gmap Z Product) : gmap Z Product :=
  fold_left (fun ps item =>
               alter (set_stockQuantity (fun s => s + oi_quantity item))
                     (oi_productId item) ps)
            items ps.

(** The tables after a checkout that wrote the order row [o]. *)
Definition checkoutDb (d : DB) (userId : Z) (o : Order) : DB :=
  let items := cartOf d userId in
  let oid := nextOrderId d in
  mkDB (decrementAll items (products d))
       (if truthyInt (o_discountId o)
        then alter (set_usedCount (fun n => n + 1))
                   (default 0 (o_discountId o)) (discounts d)
        else discounts d)
       (<[oid := o]> (orders d))
       (orderItems d ++ map (orderItemOf oid) items)
       (List.filter (fun ci => negb (ci_userId ci =? userId)) (cartItems d))
       (wishlistItems d) (oid + 1) (nextCartItemId d).

(** The tables after the cancellation of the order [orderId]. *)
Definition cancelDb (d : DB) (orderId : Z) (o : Order)
    (adminNote : option string) : DB :=
  mkDB (incrementAll (itemsOf d orderId) (products d))
       (if truthyInt (o_discountId o)
        then alter (set_usedCount (fun n => n - 1))
                   (default 0 (o_discountId o)) (discounts d)
        else discounts d)
       (alter (set_status CANCELLED (orElse adminNote (o_adminNote o)))
              orderId (orders d))
       (orderItems d) (cartItems d) (wishlistItems d)
       (nextOrderId d) (nextCartItemId d).

(** ** Quantities *)

(** Units of the product [pid] in a cart. *)
Definition cartQuantity (items : list (CartItem * Product)) (pid : Z) : Z :=
  fold_right (fun item acc =>
                if ci_productId item.1 =? pid
                then ci_quantity item.1 + acc else acc)
             0 items.

(** Units of the product [pid] in the items of an order. *)
Definition orderedQuantity (items : list OrderItem) (pid : Z) : Z :=
  fold_right (fun item acc =>
                if oi_productId item =? pid
                then oi_quantity item + acc else acc)
             0 items.

(** Going through the cart from its first row, each item's unit price
    times quantity is added to the running sum [acc]; every product and
    every sum is rounded to the nearest double. *)
Fixpoint addItems (acc : float) (items : list (CartItem * Product)) : float :=
  match items with
  | [] => acc
  | item :: items' =>
      addItems (acc + p_price item.2 * ofInt (ci_quantity item.1))%float items'
  end.

(** The sum over the cart of unit price times quantity, added up from 0
    in the order of the cart rows. *)
Definition cartTotal (items : list (CartItem * Product)) : float :=
  addItems 0%float items.

(** The rational number that a finite double stands for. *)
Definition exactValue (x : float) : option Q :=
  match Prim2SF x with
  | S754_zero _ => Some 0%Q
  | S754_finite s m e =>
      let sm := if s then Z.neg m else Z.pos m in
      Some (if 0 <=? e then inject_Z (sm * 2 ^ e)
            else Qmake sm (Z.to_pos (2 ^ (- e))))
  | _ => None
  end.

(** ** A small shop, used to run the handlers on concrete tables *)

Module Sample.

Definition soap : Product :=
  mkProduct "Neem Soap" (Some "NS-1") 33.33 5 5 true
            [mkProductImage "soap.png" true].

Definition syrup : Product :=
  mkProduct "Cough Syrup" None 150 10 3 true [].

Definition save10 : Discount :=
  mkDiscount "Ten percent off" "SAVE10" "percentage" 10 None None
             0 1000 true None 0.

Definition expired : Discount :=
  mkDiscount "Old offer" "OLD" "fixed" 50 None None 0 10 true None 0.

Definition monitor : Product :=
  mkProduct "Blood Pressure Monitor" None 2500 4 1 true [].

(** User 100 has two soaps and one syrup in the cart, user 200 one
    monitor. *)
Definition db : DB :=
  mkDB (<[1 := soap]> (<[2 := syrup]> (<[3 := monitor]> ∅)))
       (<[7 := save10]> (<[8 := expired]> ∅))
       ∅ []
       [mkCartItem 1 100 1 2; mkCartItem 2 100 2 1; mkCartItem 3 200 3 1]
       [] 1 4.

Definition address (city : string) : ShippingInfo :=
  mkShippingInfo "Asha Rai" "9800000000" "Ward 4" None None city None
                 "44600" None.

Definition request (city : string) (code : option string) : CheckoutRequest :=
  mkCheckoutRequest (Some (address city)) "cod" None None code.

Definition now : Z := 500.

End Sample.

(** ** Discount rules in words *)

Import DiscountController.

(** The validity conditions of a discount row at time [now] for a cart
    subtotal.  A usage limit of 0 is JavaScript-falsy and counts as no
    limit. *)
Definition discountApplicable (now : Z) (subtotal : float) (r : Discount)
  : Prop :=
  d_isActive r = true
  /\ d_startDate r <= now <= d_endDate r
  /\ (forall limit, d_usageLimit r = Some limit -> limit <> 0 ->
                    d_usedCount r < limit)
  /\ (forall m, d_minPurchaseAmount r = Some m -> numGe subtotal m = true).

(** The validity conditions as the validate-code endpoint tests them:
    the last one is that the subtotal is not below the minimum. *)
Definition discountAcceptable (now : Z) (subtotal : float) (r : Discount)
  : Prop :=
  d_isActive r = true
  /\ d_startDate r <= now <= d_endDate r
  /\ (forall limit, d_usageLimit r = Some limit -> limit <> 0 ->
                    d_usedCount r < limit)
  /\ (forall m, d_minPurchaseAmount r = Some m -> numLt subtotal m = false).

(** A number of the real line or an infinity, not NaN. *)
Definition isNumber (x : float) : Prop := isNaN x = false.

(** The minimum purchase amount of a discount row, when it is set, is a
    number.  A [Decimal] column never holds NaN. *)
Definition minimumIsNumber (r : Discount) : Prop :=
  forall m, d_minPurchaseAmount r = Some m -> isNumber m.

(** [x] clamped down to [cap]: [cap] when [x] is above it, else [x]. *)
Definition clampDown (cap x : float) : float :=
  if numGt x cap then cap else x.

(** Clamping down to an optional cap. *)
Definition clampTo (cap : option float) (x : float) : float :=
  match cap with Some c => clampDown c x | None => x end.

(** The discount amount: the percentage of the subtotal or the fixed
    value, clamped down to the cap and then to the subtotal. *)
Definition discountAmount (subtotal : float) (r : Discount) : float :=
  clampDown subtotal
            (clampTo (d_maxDiscountAmount r)
                     (if String.eqb (d_type r) "percentage"
                      then (subtotal * d_value r / 100)%float
                      else d_value r)).

(** The amount in hundredths, rounded by [Math.round], over 100: the
    product, the rounding and the quotient are those of the doubles. *)
Definition roundToCents (x : float) : float :=
  (mathRound (x * 100) / 100)%float.

(** The checkout request with its discount code left out. *)
Definition withoutDiscountCode (body : CheckoutRequest) : CheckoutRequest :=
  mkCheckoutRequest (shippingInfo body) (paymentMethod body)
                    (transactionNumber body) (customerNote body) None.

(** ** Integrity of the tables *)

(** The foreign key of the order items: every item belongs to an order. *)
Definition foreignKeysHold (d : DB) : Prop :=
  forall item, In item (orderItems d) -> is_Some (orders d !! oi_orderId item).

(** ** Errors a handler may raise *)

(** Every error the computation raises is one of the typed errors or one
    of the errors of the Prisma client. *)
Definition raisesTypedOrPrisma {A} (m : M A) : Prop :=
  forall st e st',
    m st = (Err e, st') -> Typed e \/ PrismaError e.

(** The envelope of an error response, with the fields that only the
    development mode adds. *)
Definition errorEnvelope (msg : string) (extras : list (string * Json)) : Json :=
  JObject (("status", JString "error") :: ("message", JString msg) :: extras).

(** ** Stock labels *)

(** The three places that derive the stock label. *)
Definition stockStatusSites : list (Product -> string) :=
  [ ProductController.transformProductResponse_stockStatus;
    CartController.getCart_stockStatus;
    WishlistController.getWishlist_stockStatus ].

(** A product whose stock has gone below zero. *)
Definition oversold : Product :=
  mkProduct "Neem Soap" None 33.33 (-1) 5 true [].

(** ** Stock that never goes below zero *)

(** Every product has a stock of at least zero. *)
Definition stockNonNegative (d : DB) : Prop :=
  map_Forall (fun _ p => 0 <= p_stockQuantity p) (products d).

Module Oversell.

(** One product with five units in stock, on the wish list of user 300. *)
Definition thermometer : Product :=
  mkProduct "Thermometer" None 100 5 2 true [].

Definition shelf : DB :=
  mkDB (<[1 := thermometer]> ∅) ∅ ∅ [] [] [mkWishlistItem 1 300 1] 1 1.

(** User 300 moves the wish to the cart with a quantity of -5 and checks
    out; user 400 then buys the ten units in stock. *)
Definition setup : M (option OrderView) :=
  WishlistController.moveToCart 300 1 (Some (-5));;
  checkout (JS := asciiStrings) Sample.now 300 (Sample.request "Pokhara" None);;
  CartController.addToCart 400
    (CartController.mkAddToCartRequest (Some 1) (Some 10));;
  checkout (JS := asciiStrings) Sample.now 400 (Sample.request "Pokhara" None).

End Oversell.

(** The cart key [userId_productId]: a user's cart names a product once. *)
Definition cartKeysUnique (d : DB) : Prop :=
  NoDup (map (fun ci => (ci_userId ci, ci_productId ci)) (cartItems d)).

(** What the validated cart endpoints keep true: no cart row and no order
    item has a quantity below zero. *)
Definition quantitiesNonNegative (d : DB) : Prop :=
  (forall ci, In ci (cartItems d) -> 0 <= ci_quantity ci)
  /\ (forall item, In item (orderItems d) -> 0 <= oi_quantity item).

Definition shopInvariant (d : DB) : Prop :=
  stockNonNegative d /\ cartKeysUnique d /\ quantitiesNonNegative d.

(** A checkout or a cancellation request. *)
Inductive Operation : Type :=
| Checkout (now userId : Z) (body : CheckoutRequest)
| Cancellation (orderId : Z) (adminNote : option string).

(** The state after one request has been served from its first statement
    to its answer, whatever it answered, with no other handler running
    in between. *)
Definition serve {JS : JsStrings} (op : Operation) (st : St) : St :=
  match op with
  | Checkout now userId body => (checkout now userId body st).2
  | Cancellation orderId adminNote =>
      (updateOrderStatus orderId (cancelRequest adminNote) st).2
  end.

(** The state after the requests have been served one at a time, each
    answered before the next one starts.  The handlers are asynchronous
    and the server may overlap them at every [await]; this is the
    execution in which it does not. *)
Definition serveInTurn {JS : JsStrings} (ops : list Operation) (st : St) : St :=
  fold_left (fun st op => serve op st) ops st.

(** A computation that keeps a property of the tables, whatever it
    answers. *)
Definition keeps (P : DB -> Prop) {A} (m : M A) : Prop :=
  forall st r st', P (st_db st) -> m st = (r, st') -> P (st_db st').

(** ** Orders that were placed *)

(** The sample shop after user 100 has checked out with the code SAVE10:
    order 1 is pending and holds two soaps and one syrup. *)
Module Placed.

Definition db : DB :=
  Eval vm_compute in
  st_db (checkout (JS := asciiStrings) Sample.now 100
                  (Sample.request "Pokhara" (Some "save10"))
                  (mkSt Sample.db None)).2.

End Placed.

(** The request body that sets an order to [status]. *)
Definition statusRequest (status : string) (adminNote : option string)
  : UpdateOrderStatusRequest :=
  mkUpdateOrderStatusRequest status adminNote.

(** Cancel, set back to [status], cancel again. *)
Definition cancelReopenCancel (orderId : Z) (status : string)
  : M (option OrderView) :=
  updateOrderStatus orderId (cancelRequest None);;
  updateOrderStatus orderId (statusRequest status None);;
  updateOrderStatus orderId (cancelRequest None).

(** ** Order items and discount counters *)

(** Going through the order items from the first, each item's subtotal
    is added to the running sum [acc], every sum rounded to the nearest
    double. *)
Fixpoint addSubtotals (acc : float) (items : list OrderItem) : float :=
  match items with
  | [] => acc
  | item :: items' => addSubtotals (acc + oi_subtotal item)%float items'
  end.

(** The sum of the subtotals of order items, added up from 0 in the
    order of the rows. *)
Definition itemsTotal (items : list OrderItem) : float :=
  addSubtotals 0%float items.

(** No discount with a usage limit has been used more often than the
    limit allows.  A limit of 0 counts as no limit. *)
Definition usageWithinLimit (d : DB) : Prop :=
  forall id r limit,
    discounts d !! id = Some r ->
    d_usageLimit r = Some limit -> limit <> 0 ->
    d_usedCount r <= limit.

(** The sample shop with one more discount, which may be used once. *)
Module Limited.

Definition once : Discount :=
  mkDiscount "One time offer" "ONCE" "fixed" 50 None None 0 1000 true
             (Some 1) 0.

Definition db : DB := set_discounts (<[9 := once]>) Sample.db.

(** Users 100 and 200 check out with the code, one after the other. *)
Definition rush : list Operation :=
  [ Checkout Sample.now 100 (Sample.request "Pokhara" (Some "once"));
    Checkout Sample.now 200 (Sample.request "Pokhara" (Some "once")) ].

End Limited.

(** The sample shop with a discount whose usage limit is 0 and which
    has been used five times. *)
Module ZeroLimit.

Definition spent : Discount :=
  mkDiscount "Spent offer" "SPENT" "fixed" 50 None None 0 1000 true
             (Some 0) 5.

Definition db : DB := set_discounts (<[9 := spent]>) Sample.db.

End ZeroLimit.

(** A shop whose one product costs 0.1; user 100 has three of them in
    the cart. *)
Module Tenths.

Definition buds : Product :=
  mkProduct "Cotton Buds" None 0.1 50 5 true [].

Definition db : DB :=
  mkDB (<[1 := buds]> ∅) ∅ ∅ [] [mkCartItem 1 100 1 3] [] 1 2.

End Tenths.

(** ** Carts *)

(** The cart row of a user for a product, if there is one. *)
Definition cartRow (d : DB) (userId productId : Z) : option CartItem :=
  List.find (fun ci => (ci_userId ci =? userId)
                       && (ci_productId ci =? productId))
            (cartItems d).

(** The quantity a user already has of a product in the cart. *)
Definition quantityInCart (d : DB) (userId productId : Z) : Z :=
  match cartRow d userId productId with
  | Some ci => ci_quantity ci
  | None => 0
  end.

(** The primary key of the cart rows: no two rows share an id. *)
Definition cartIdsUnique (d : DB) : Prop :=
  NoDup (map ci_id (cartItems d)).

(** The cart row with a given id, if there is one. *)
Definition cartRowById (d : DB) (id : Z) : option CartItem :=
  List.find (fun ci => ci_id ci =? id) (cartItems d).

(** The wishlist row with a given id, if there is one. *)
Definition wishlistRowById (d : DB) (id : Z) : option WishlistItem :=
  List.find (fun wi => wi_id wi =? id) (wishlistItems d).

(** The number of units in a cart. *)
Fixpoint totalQuantity (items : list (CartItem * Product)) : Z :=
  match items with
  | [] => 0
  | item :: items' => ci_quantity item.1 + totalQuantity items'
  end.

(** The four cart endpoints that validate what they write. *)
Inductive CartRequest : Type :=
| AddToCart (body : CartController.AddToCartRequest)
| UpdateCartItem (cartItemId : Z) (quantity : option Z)
| RemoveFromCart (cartItemId : Z)
| ClearCart.

(** The state after serving a cart request of [userId], whatever it
    answered. *)
Definition serveCart (userId : Z) (req : CartRequest) (st : St) : St :=
  match req with
  | AddToCart body => (CartController.addToCart userId body st).2
  | UpdateCartItem cartItemId quantity =>
      (CartController.updateCartItem userId cartItemId quantity st).2
  | RemoveFromCart cartItemId =>
      (CartController.removeFromCart userId cartItemId st).2
  | ClearCart => (CartController.clearCart userId st).2
  end.

(** A request to the shop: a cart request of a user, or a checkout or
    cancellation. *)
Inductive ShopRequest : Type :=
| CartOp (userId : Z) (req : CartRequest)
| OrderOp (op : Operation).

(** The state after one request has been served from its first statement
    to its answer. *)
Definition serveShop {JS : JsStrings} (req : ShopRequest) (st : St) : St :=
  match req with
  | CartOp userId req => serveCart userId req st
  | OrderOp op => serve op st
  end.

(** The state after the requests have been served one at a time, each
    answered before the next one starts; no two handlers overlap. *)
Definition serveShopInTurn {JS : JsStrings} (reqs : list ShopRequest)
    (st : St) : St :=
  fold_left (fun st req => serveShop req st) reqs st.

Module Busy.

(** User 200 fills the cart with ten syrups, user 100 checks out, user
    200 checks out, the first order is cancelled, and user 200 puts the
    syrups back in the cart. *)
Definition day : list ShopRequest :=
  [ CartOp 200 (AddToCart (CartController.mkAddToCartRequest (Some 2) (Some 9)));
    OrderOp (Checkout Sample.now 100 (Sample.request "Pokhara" None));
    OrderOp (Checkout Sample.now 200 (Sample.request "Pokhara" None));
    OrderOp (Cancellation 1 None);
    CartOp 200 (AddToCart (CartController.mkAddToCartRequest (Some 2) (Some 1)));
    CartOp 200 (UpdateCartItem 4 (Some 1));
    CartOp 200 ClearCart ].

End Busy.

(** ** Slugs *)

(** Every character of a string passes a test. *)
Fixpoint allChars (test : ascii -> bool) (s : string) : bool :=
  match s with
  | EmptyString => true
  | String c s' => test c && allChars test s'
  end.

(** A string of characters from [[a-z0-9]] and single hyphens;
    [afterHyphen] tells that the previous character was a hyphen, so that
    no hyphen may follow. *)
Fixpoint slugBody (afterHyphen : bool) (s : string) : bool :=
  match s with
  | EmptyString => true
  | String c s' =>
      if SlugUtil.isSlugChar c then slugBody false s'
      else if SlugUtil.isHyphen c then negb afterHyphen && slugBody true s'
      else false
  end.

(** The slugs that [makeUniqueSlug] tries, in order: the base slug, then
    the base slug with the suffixes -1, -2 and so on. *)
Definition candidateSlug (baseSlug : string) (n : nat) : string :=
  match n with
  | O => baseSlug
  | S _ => baseSlug +:+ "-" +:+ ofZ (Z.of_nat n)
  end.

(* ================================================================== *)
(** * Properties *)
(* ================================================================== *)


Section CheckoutAndCancellation.

Context {JS : JsStrings}.

(** ** Strings *)

Lemma prefix_spec (p s : string) :
  String.prefix p s = true <-> exists post, s = p +:+ post.
Proof.
  revert s. induction p as [|a p IH]; intros s.
  - destruct s; simpl; (split; [intros _; eexists; reflexivity | reflexivity]).
  - destruct s as [|b s]; simpl.
    + split; [discriminate | intros [post H]; discriminate].
    + destruct (ascii_dec a b) as [->|Hne].
      * rewrite IH. split; intros [post H]; exists post.
        -- now rewrite H.
        -- now inversion H.
      * split; [discriminate | intros [post H]; inversion H; congruence].
Qed.

Lemma includes_unfold (s sub : string) :
  includes s sub
  = String.prefix sub s
    || match s with
       | EmptyString => false
       | String _ s' => includes s' sub
       end.
Proof. destruct s; reflexivity. Qed.

Lemma includes_spec (s sub : string) :
  includes s sub = true <-> substringOf sub s.
Proof.
  unfold substringOf. induction s as [|c s IH]; rewrite includes_unfold.
  - rewrite orb_false_r, prefix_spec. split.
    + intros [post H]. exists EmptyString, post. exact H.
    + intros [pre [post H]]. destruct pre; simpl in H.
      * exists post. exact H.
      * discriminate.
  - rewrite orb_true_iff, IH, prefix_spec. split.
    + intros [[post H] | [pre [post H]]].
      * exists EmptyString, post. exact H.
      * exists (String c pre), post. simpl. now rewrite H.
    + intros [pre [post H]]. destruct pre as [|c' pre]; simpl in H.
      * left. exists post. exact H.
      * right. inversion H. exists pre, post. reflexivity.
Qed.

Lemma isSpace_isAscii (c : ascii) :
  AsciiStrings.isSpace c = true -> (N_of_ascii c <? 128)%N = true.
Proof.
  destruct c as [[] [] [] [] [] [] [] []]; vm_compute; congruence.
Qed.

Lemma allSpace_isAscii (s : string) :
  allSpace s = true -> AsciiStrings.isAscii s = true.
Proof.
  induction s as [|c s IH]; simpl; [reflexivity|].
  intros [Hc Hs]%andb_true_iff. now rewrite (isSpace_isAscii c Hc), IH.
Qed.

Lemma lowerChar_isAscii (c : ascii) :
  (N_of_ascii (AsciiStrings.lowerChar c) <? 128)%N = (N_of_ascii c <? 128)%N.
Proof.
  destruct c as [[] [] [] [] [] [] [] []]; reflexivity.
Qed.

Lemma isAscii_toLowerCase (s : string) :
  AsciiStrings.isAscii (AsciiStrings.toLowerCase s) = AsciiStrings.isAscii s.
Proof.
  induction s as [|c s IH]; simpl; [reflexivity|].
  now rewrite lowerChar_isAscii, IH.
Qed.

(** On ASCII text the normal form of a city is the one of
    [AsciiStrings]. *)
Lemma normalizedCity_ascii (city : string) :
  AsciiStrings.isAscii city = true ->
  normalizedCity city = AsciiStrings.trim (AsciiStrings.toLowerCase city).
Proof.
  intros H. unfold normalizedCity.
  rewrite (toLowerCase_ascii city H). apply trim_ascii.
  now rewrite isAscii_toLowerCase.
Qed.

Lemma lowerChar_isSpace (c : ascii) :
  AsciiStrings.isSpace (AsciiStrings.lowerChar c) = AsciiStrings.isSpace c.
Proof.
  destruct c as [[] [] [] [] [] [] [] []]; reflexivity.
Qed.

Lemma allSpace_toLowerCase (s : string) :
  allSpace (AsciiStrings.toLowerCase s) = allSpace s.
Proof.
  induction s as [|c s IH]; simpl; [reflexivity|].
  now rewrite lowerChar_isSpace, IH.
Qed.

Lemma trimStart_allSpace (s : string) :
  allSpace s = true -> AsciiStrings.trimStart s = EmptyString.
Proof.
  induction s as [|c s IH]; simpl; [reflexivity|].
  intros [Hc Hs]%andb_true_iff. rewrite Hc. auto.
Qed.

(** A city of ASCII white space has the empty normal form. *)
Lemma normalizedCity_allSpace (city : string) :
  allSpace city = true -> normalizedCity city = EmptyString.
Proof.
  intros H. rewrite (normalizedCity_ascii city (allSpace_isAscii city H)).
  unfold AsciiStrings.trim. rewrite trimStart_allSpace; [reflexivity|].
  now rewrite allSpace_toLowerCase.
Qed.

(** ** Shipping *)


Lemma isInsideValley_spec (city : string) :
  isInsideValley city = true <-> matchesValley city.
Proof.
  unfold isInsideValley, matchesValley, normalizedCity.
  rewrite existsb_exists. split.
  - intros [v [Hin Hv]]. exists v. split; [exact Hin|].
    apply orb_true_iff in Hv. rewrite <- !includes_spec. exact Hv.
  - intros [v [Hin Hv]]. exists v. split; [exact Hin|].
    apply orb_true_iff. rewrite <- !includes_spec in Hv. exact Hv.
Qed.

(** The inline test of [checkout] is the exported helper. *)
Lemma shippingCostOf_calculateShippingCost (city : string) (subtotal : float) :
  OrderController.shippingCostOf city subtotal
  = calculateShippingCost city subtotal.
Proof. reflexivity. Qed.

Lemma shippingCostOf_cases (city : string) (subtotal : float) :
  (numGe subtotal FREE_SHIPPING_THRESHOLD = true ->
   OrderController.shippingCostOf city subtotal = 0%float)
  /\ (numGe subtotal FREE_SHIPPING_THRESHOLD = false -> matchesValley city ->
      OrderController.shippingCostOf city subtotal = INSIDE_VALLEY)
  /\ (numGe subtotal FREE_SHIPPING_THRESHOLD = false -> ~ matchesValley city ->
      OrderController.shippingCostOf city subtotal = OUTSIDE_VALLEY).
Proof.
  rewrite shippingCostOf_calculateShippingCost.
  unfold calculateShippingCost.
  destruct (numGe subtotal FREE_SHIPPING_THRESHOLD) eqn:Hge.
  - split; [reflexivity|]. split; discriminate.
  - split; [discriminate|].
    destruct (isInsideValley city) eqn:Hv.
    + apply isInsideValley_spec in Hv.
      split; [reflexivity | intros _ Hn; contradiction].
    + split; [|reflexivity].
      intros _ Hm. apply isInsideValley_spec in Hm. congruence.
Qed.

(** ** Numbers *)

Lemma SFcompare_antisym (x y : spec_float) (c : comparison) :
  SFcompare x y = Some c -> SFcompare y x = Some (CompOpp c).
Proof.
  destruct x as [sx|sx| |sx mx ex], y as [sy|sy| |sy my ey]; cbn;
    try discriminate;
    try (destruct sx, sy; intros [= <-]; reflexivity);
    try (destruct sx; intros [= <-]; reflexivity);
    try (destruct sy; intros [= <-]; reflexivity).
  change (Pos.compare_cont Eq mx my) with (mx ?= my)%positive.
  change (Pos.compare_cont Eq my mx) with (my ?= mx)%positive.
  rewrite (Z.compare_antisym ex ey), (Pos.compare_antisym mx my).
  destruct sx, sy; intros [= <-]; try reflexivity;
    destruct (ex ?= ey); cbn; try reflexivity;
    destruct (mx ?= my)%positive; reflexivity.
Qed.

Lemma SFcompare_total (x y : spec_float) :
  SFcompare x x <> None -> SFcompare y y <> None -> SFcompare x y <> None.
Proof.
  destruct x as [sx|sx| |sx mx ex], y as [sy|sy| |sy my ey]; cbn;
    try congruence;
    try (destruct sx; congruence); try (destruct sy; congruence);
    destruct sx, sy; congruence.
Qed.

Lemma isNaN_compare (x : float) :
  isNaN x = false -> SFcompare (Prim2SF x) (Prim2SF x) <> None.
Proof.
  unfold isNaN. rewrite FloatAxioms.eqb_spec. unfold SFeqb.
  destruct (SFcompare _ _) as [[]|]; cbn; congruence.
Qed.

(** Two numbers are comparable: [a < b] fails exactly when [a >= b]
    holds. *)
Lemma numLt_numGe (a b : float) :
  isNumber a -> isNumber b -> numLt a b = negb (numGe a b).
Proof.
  unfold isNumber, numLt, numGe.
  intros Ha%isNaN_compare Hb%isNaN_compare.
  rewrite FloatAxioms.ltb_spec, FloatAxioms.leb_spec. unfold SFltb, SFleb.
  pose proof (SFcompare_total _ _ Ha Hb) as Ht.
  destruct (SFcompare (Prim2SF a) (Prim2SF b)) as [c|] eqn:E; [|congruence].
  rewrite (SFcompare_antisym _ _ _ E). destruct c; reflexivity.
Qed.

Lemma SFcompare_refl (x : spec_float) :
  x <> S754_nan -> SFcompare x x = Some Eq.
Proof.
  destruct x as [sx|sx| |sx mx ex]; cbn; try congruence; intros _.
  - destruct sx; reflexivity.
  - rewrite Z.compare_refl.
    change (Pos.compare_cont Eq mx mx) with (mx ?= mx)%positive.
    rewrite Pos.compare_refl. destruct sx; reflexivity.
Qed.

(** A number above another one is a number: NaN compares with nothing. *)
Lemma numGt_isNumber (a b : float) : numGt a b = true -> isNumber a.
Proof.
  unfold numGt, isNumber, isNaN.
  rewrite FloatAxioms.ltb_spec, FloatAxioms.eqb_spec. unfold SFltb, SFeqb.
  intros H. rewrite SFcompare_refl; [reflexivity|].
  intros E. rewrite E in H.
  destruct (Prim2SF b); discriminate.
Qed.

(** ** Handlers: running, reading, failing *)

Lemma bind_unfold {A B} (m : M A) (k : A -> M B) (st : St) :
  (m ≫= k) st
  = match m st with
    | (Ok a, st') => k a st'
    | (Err e, st') => (Err e, st')
    end.
Proof. reflexivity. Qed.

Lemma bind_Ok_inv {A B} (m : M A) (k : A -> M B) st b st' :
  (m ≫= k) st = (Ok b, st') ->
  exists a st1, m st = (Ok a, st1) /\ k a st1 = (Ok b, st').
Proof.
  rewrite bind_unfold. destruct (m st) as [[a|e] st1]; intros H.
  - exists a, st1. split; [reflexivity | exact H].
  - discriminate.
Qed.

Lemma bind_Err_inv {A B} (m : M A) (k : A -> M B) st e st' :
  (m ≫= k) st = (Err e, st') ->
  m st = (Err e, st')
  \/ exists a st1, m st = (Ok a, st1) /\ k a st1 = (Err e, st').
Proof.
  rewrite bind_unfold. destruct (m st) as [[a|e0] st1]; intros H.
  - right. exists a, st1. split; [reflexivity | exact H].
  - left. inversion H; reflexivity.
Qed.

Lemma ret_Ok_inv {A} (a b : A) st st' :
  (mret a : M A) st = (Ok b, st') -> b = a /\ st' = st.
Proof. intros H. inversion H. split; reflexivity. Qed.

Lemma throwIf_Ok_inv (c : bool) (e : JsError) st u st' :
  throwIf c e st = (Ok u, st') -> c = false /\ st' = st.
Proof.
  unfold throwIf. destruct c; intros H; inversion H. split; reflexivity.
Qed.

Lemma stmt_Ok_inv {A} (f : DB -> Result (A * DB)) st a st' :
  stmt f st = (Ok a, st') ->
  f (st_db st) = Ok (a, st_db st')
  /\ st_budget st <> Some O
  /\ st_budget st' = Nat.pred <$> st_budget st.
Proof.
  unfold stmt. destruct (st_budget st) as [[|n]|]; [discriminate| |];
    destruct (f (st_db st)) as [[a0 d']|e]; intros H; inversion H; subst;
    simpl; repeat split; congruence.
Qed.

Lemma stmt_unlimited {A} (f : DB -> Result (A * DB)) (d : DB) :
  stmt f (mkSt d None)
  = match f d with
    | Ok (a, d') => (Ok a, mkSt d' None)
    | Err e => (Err e, mkSt d None)
    end.
Proof. unfold stmt. simpl. destruct (f d) as [[a d']|e]; reflexivity. Qed.

Lemma query_Ok_inv {A} (f : DB -> A) st a st' :
  query f st = (Ok a, st') ->
  a = f (st_db st) /\ st_db st' = st_db st.
Proof.
  intros H. apply stmt_Ok_inv in H as (H & _ & _).
  inversion H. split; reflexivity.
Qed.

Lemma query_unlimited {A} (f : DB -> A) (d : DB) :
  query f (mkSt d None) = (Ok (f d), mkSt d None).
Proof. unfold query. rewrite stmt_unlimited. reflexivity. Qed.

Lemma transaction_Ok_inv {A} (body : M A) st a st' :
  transaction body st = (Ok a, st') -> body st = (Ok a, st').
Proof.
  unfold transaction. destruct (body st) as [[a0|e] st1]; intros H;
    inversion H; reflexivity.
Qed.

Lemma transaction_Ok_intro {A} (body : M A) st a st' :
  body st = (Ok a, st') -> transaction body st = (Ok a, st').
Proof. unfold transaction. intros ->. reflexivity. Qed.

(** *** Read-only and atomic computations *)

Lemma readOnly_ret {A} (a : A) : readOnly (mret a : M A).
Proof. intros st r st' H. inversion H. reflexivity. Qed.

Lemma readOnly_throw {A} (e : JsError) : readOnly (@throw A e).
Proof. intros st r st' H. inversion H. reflexivity. Qed.

Lemma readOnly_throwIf (c : bool) (e : JsError) : readOnly (throwIf c e).
Proof. destruct c; [apply readOnly_throw | apply (readOnly_ret tt)]. Qed.

Lemma readOnly_query {A} (f : DB -> A) : readOnly (query f).
Proof.
  intros st r st'. unfold query, stmt.
  destruct (st_budget st) as [[|n]|]; intros H; inversion H; reflexivity.
Qed.

Lemma readOnly_bind {A B} (m : M A) (k : A -> M B) :
  readOnly m -> (forall a, readOnly (k a)) -> readOnly (m ≫= k).
Proof.
  intros Hm Hk st r st'. rewrite bind_unfold.
  destruct (m st) as [[a|e] st1] eqn:E; intros H.
  - rewrite (Hk a _ _ _ H). exact (Hm _ _ _ E).
  - inversion H; subst. exact (Hm _ _ _ E).
Qed.

Lemma readOnly_forEach {A} (xs : list A) (body : A -> M unit) :
  (forall x, readOnly (body x)) -> readOnly (forEach xs body).
Proof.
  intros Hb. induction xs as [|x xs IH]; simpl.
  - apply (readOnly_ret tt).
  - apply readOnly_bind; [apply Hb | intros _; exact IH].
Qed.

Lemma readOnly_atomic {A} (m : M A) : readOnly m -> atomic m.
Proof. intros H st e st' E. exact (H _ _ _ E). Qed.

Lemma atomic_transaction {A} (body : M A) : atomic (transaction body).
Proof.
  intros st e st'. unfold transaction.
  destruct (body st) as [[a|e0] st1]; intros H; inversion H; reflexivity.
Qed.

Lemma atomic_bind {A B} (m : M A) (k : A -> M B) :
  readOnly m -> (forall a, atomic (k a)) -> atomic (m ≫= k).
Proof.
  intros Hm Hk st e st' H. apply bind_Err_inv in H as [H | (a & st1 & E & H)].
  - exact (Hm _ _ _ H).
  - rewrite (Hk a _ _ _ H). exact (Hm _ _ _ E).
Qed.

Create HintDb handlers.

#[local] Hint Resolve readOnly_ret readOnly_throw readOnly_throwIf
  readOnly_query readOnly_forEach : handlers.



Lemma readOnly_validateStock (item : CartItem * Product) :
  readOnly (validateStock item).
Proof.
  unfold validateStock. apply readOnly_bind; [|intros _]; auto with handlers.
Qed.

Lemma readOnly_applyDiscount now subtotal code :
  readOnly (applyDiscount now subtotal code).
Proof.
  unfold applyDiscount. destruct (truthyStr code); [|apply readOnly_ret].
  apply readOnly_bind; [apply readOnly_query|].
  intros [[id r]|]; [|apply readOnly_ret].
  destruct (isValid now subtotal r); apply readOnly_ret.
Qed.

Lemma checkout_atomic now userId body : atomic (checkout now userId body).
Proof.
  unfold checkout. destruct (shippingInfo body) as [si|].
  2: { apply readOnly_atomic, readOnly_throw. }
  do 4 (apply atomic_bind; [solve [auto with handlers] | intros ?]).
  apply atomic_bind; [apply readOnly_query | intros cartItems].
  apply atomic_bind; [solve [auto with handlers] | intros ?].
  apply atomic_bind;
    [apply readOnly_forEach, readOnly_validateStock | intros ?].
  apply atomic_bind; [apply readOnly_applyDiscount | intros [[? ?] ?]].
  apply atomic_bind; [apply readOnly_query | intros ?].
  apply atomic_transaction.
Qed.



Lemma applyDiscount_Ok_inv now subtotal code st t st' :
  applyDiscount now subtotal code st = (Ok t, st') ->
  t = discountPlan (st_db st) now subtotal code /\ st_db st' = st_db st.
Proof.
  unfold applyDiscount, discountPlan. destruct (truthyStr code).
  - intros H. apply bind_Ok_inv in H as (rec & st1 & Hq & H).
    apply query_Ok_inv in Hq as [-> Hdb].
    destruct (discountByCode (st_db st) _) as [[id r]|].
    + destruct (isValid now subtotal r); apply ret_Ok_inv in H as [-> ->];
        split; (reflexivity || exact Hdb).
    + apply ret_Ok_inv in H as [-> ->]. split; (reflexivity || exact Hdb).
  - intros H. apply ret_Ok_inv in H as [-> ->]. split; reflexivity.
Qed.

Lemma validateStock_Ok_inv item st u st' :
  validateStock item st = (Ok u, st') -> itemAccepted item = true /\ st' = st.
Proof.
  unfold validateStock, itemAccepted. intros H.
  apply bind_Ok_inv in H as (? & st1 & H1 & H2).
  apply throwIf_Ok_inv in H1 as [H1 ->].
  apply throwIf_Ok_inv in H2 as [H2 ->].
  apply negb_false_iff in H1. rewrite H1, H2. split; reflexivity.
Qed.

Lemma forEach_validateStock_Ok_inv items st u st' :
  forEach items validateStock st = (Ok u, st') ->
  forallb itemAccepted items = true /\ st' = st.
Proof.
  revert st. induction items as [|item items IH]; intros st; simpl.
  - intros H. apply ret_Ok_inv in H as [_ ->]. split; reflexivity.
  - intros H. apply bind_Ok_inv in H as (? & st1 & H1 & H2).
    apply validateStock_Ok_inv in H1 as [-> ->].
    apply IH in H2 as [-> ->]. split; reflexivity.
Qed.

Lemma checkout_loop_Ok_inv oid items st u st' :
  forEach items (fun item =>
    orderItem_create (orderItemOf oid item);;
    product_decrementStock (ci_productId item.1) (ci_quantity item.1)) st
  = (Ok u, st') ->
  st_db st'
  = set_products (decrementAll items)
      (set_orderItems (fun its => its ++ map (orderItemOf oid) items)
                      (st_db st)).
Proof.
  revert st. induction items as [|item items IH]; intros st; simpl.
  - intros H. apply ret_Ok_inv in H as [_ ->].
    destruct (st_db st); unfold set_products, set_orderItems; simpl.
    now rewrite app_nil_r.
  - intros H. apply bind_Ok_inv in H as (? & st2 & H1 & H2).
    apply bind_Ok_inv in H1 as (? & st1 & Hc & Hd).
    apply stmt_Ok_inv in Hc as (Hc & _ & _).
    apply stmt_Ok_inv in Hd as (Hd & _ & _).
    destruct (orders (st_db st) !! _); [|discriminate].
    destruct (products (st_db st1) !! _); [|discriminate].
    injection Hc as _ Hc'. injection Hd as _ Hd'.
    rewrite (IH _ H2), <- Hd', <- Hc'.
    destruct (st_db st); unfold set_products, set_orderItems, decrementAll;
      simpl.
    now rewrite <- app_assoc.
Qed.

(** Everything a successful [checkout] lets one conclude. *)
Lemma checkout_Ok_inv now userId body st r st' :
  checkout now userId body st = (Ok r, st') ->
  exists si,
    shippingInfo body = Some si
    /\ requestAccepted body = true
    /\ cartAccepted (cartOf (st_db st) userId) = true
    /\ orders (st_db st) !! nextOrderId (st_db st) = None
    /\ st_db st'
       = checkoutDb (st_db st) userId
           (plannedOrder (st_db st) now userId body si)
    /\ r = orderView (st_db st') (nextOrderId (st_db st)).
Proof.
  unfold checkout. destruct (shippingInfo body) as [si|] eqn:Hsi;
    [|discriminate].
  intros H. exists si. split; [reflexivity|].
  apply bind_Ok_inv in H as (? & s1 & H1 & H).
  apply throwIf_Ok_inv in H1 as [V1 ->].
  apply bind_Ok_inv in H as (? & s1 & H1 & H).
  apply throwIf_Ok_inv in H1 as [V2 ->].
  apply bind_Ok_inv in H as (? & s1 & H1 & H).
  apply throwIf_Ok_inv in H1 as [V3 ->].
  apply bind_Ok_inv in H as (? & s1 & H1 & H).
  apply throwIf_Ok_inv in H1 as [V4 ->].
  apply bind_Ok_inv in H as (items & s1 & H1 & H).
  apply query_Ok_inv in H1 as [-> D1].
  apply bind_Ok_inv in H as (? & s2 & H1 & H).
  apply throwIf_Ok_inv in H1 as [V5 ->].
  apply bind_Ok_inv in H as (? & s2 & H1 & H).
  apply forEach_validateStock_Ok_inv in H1 as [V6 ->].
  apply bind_Ok_inv in H as ([[discount did] dcode] & s2 & H1 & H).
  apply applyDiscount_Ok_inv in H1 as [P D2].
  apply bind_Ok_inv in H as (? & s3 & H1 & H).
  apply query_Ok_inv in H1 as [_ D3].
  apply transaction_Ok_inv in H.
  apply bind_Ok_inv in H as (oid & s4 & H1 & H).
  apply stmt_Ok_inv in H1 as (H1 & _ & _).
  apply bind_Ok_inv in H as (? & s5 & H2 & H).
  apply checkout_loop_Ok_inv in H2.
  apply bind_Ok_inv in H as (? & s6 & H3 & H).
  apply stmt_Ok_inv in H3 as (H3 & _ & _).
  apply bind_Ok_inv in H as (? & s7 & H4 & H).
  apply query_Ok_inv in H as [-> D8].
  assert (E3 : st_db s3 = st_db st) by congruence.
  rewrite E3 in H1. cbv zeta in H1.
  destruct (orders (st_db st) !! nextOrderId (st_db st)) eqn:Hfresh;
    [discriminate|].
  injection H1 as <- D4. injection H3 as _ D6.
  assert (Hreq : requestAccepted body = true).
  { unfold requestAccepted. rewrite Hsi.
    apply negb_false_iff in V1, V2, V3. rewrite V1, V2, V3, V4. reflexivity. }
  assert (Hcart : cartAccepted (cartOf (st_db st) userId) = true).
  { unfold cartAccepted. rewrite V5, V6. reflexivity. }
  repeat split; try assumption.
  2: { rewrite D8. reflexivity. }
  rewrite D1 in P.
  assert (D7 : st_db s7
               = (if truthyInt did
                  then set_discounts
                         (alter (set_usedCount (fun n => n + 1))
                                (default 0 did)) (st_db s6)
                  else st_db s6)).
  { destruct (truthyInt did).
    - apply stmt_Ok_inv in H4 as (H4 & _ & _).
      destruct (discounts (st_db s6) !! default 0 did); [|discriminate].
      injection H4 as _ H4. symmetry. exact H4.
    - apply ret_Ok_inv in H4 as [_ ->]. reflexivity. }
  rewrite D8, D7, <- D6, H2, <- D4.
  unfold plannedOrder, checkoutDb. cbv zeta. rewrite <- P. simpl.
  destruct (truthyInt did); destruct (st_db st); reflexivity.
Qed.

(** ** Stock arithmetic on the product table *)

Lemma set_stockQuantity_compose (f g : Z -> Z) (p : Product) :
  set_stockQuantity f (set_stockQuantity g p)
  = set_stockQuantity (fun s => f (g s)) p.
Proof. reflexivity. Qed.

Lemma set_stockQuantity_ext (f g : Z -> Z) (p : Product) :
  (forall s, f s = g s) -> set_stockQuantity f p = set_stockQuantity g p.
Proof. intros H. unfold set_stockQuantity. now rewrite H. Qed.

Lemma set_stockQuantity_id (f : Z -> Z) (p : Product) :
  (forall s, f s = s) -> set_stockQuantity f p = p.
Proof. intros H. destruct p. unfold set_stockQuantity. simpl. now rewrite H. Qed.

Lemma cartQuantity_cons item items k :
  cartQuantity (item :: items) k
  = if ci_productId item.1 =? k
    then ci_quantity item.1 + cartQuantity items k
    else cartQuantity items k.
Proof. reflexivity. Qed.

Lemma orderedQuantity_cons item items k :
  orderedQuantity (item :: items) k
  = if oi_productId item =? k
    then oi_quantity item + orderedQuantity items k
    else orderedQuantity items k.
Proof. reflexivity. Qed.

Lemma decrementAll_lookup items (ps : gmap Z Product) (k : Z) :
  decrementAll items ps !! k
  = set_stockQuantity (fun s => s - cartQuantity items k) <$> ps !! k.
Proof.
  revert ps. induction items as [|item items IH]; intros ps.
  - simpl. destruct (ps !! k) as [p|]; simpl; [|reflexivity].
    f_equal. symmetry. apply set_stockQuantity_id. intros s.
    unfold cartQuantity, orderedQuantity. simpl. lia.
  - unfold decrementAll in *. cbn [fold_left]. rewrite cartQuantity_cons.
    rewrite IH. destruct (Z.eqb_spec (ci_productId item.1) k) as [->|Hne].
    + rewrite lookup_alter_eq. destruct (ps !! k) as [p|]; simpl; [|reflexivity].
      f_equal. rewrite set_stockQuantity_compose.
      apply set_stockQuantity_ext. intros s. lia.
    + rewrite lookup_alter_ne by exact Hne. reflexivity.
Qed.

Lemma incrementAll_lookup items (ps : gmap Z Product) (k : Z) :
  incrementAll items ps !! k
  = set_stockQuantity (fun s => s + orderedQuantity items k) <$> ps !! k.
Proof.
  revert ps. induction items as [|item items IH]; intros ps.
  - simpl. destruct (ps !! k) as [p|]; simpl; [|reflexivity].
    f_equal. symmetry. apply set_stockQuantity_id. intros s.
    unfold cartQuantity, orderedQuantity. simpl. lia.
  - unfold incrementAll in *. cbn [fold_left]. rewrite orderedQuantity_cons.
    rewrite IH. destruct (Z.eqb_spec (oi_productId item) k) as [->|Hne].
    + rewrite lookup_alter_eq. destruct (ps !! k) as [p|]; simpl; [|reflexivity].
      f_equal. rewrite set_stockQuantity_compose.
      apply set_stockQuantity_ext. intros s. lia.
    + rewrite lookup_alter_ne by exact Hne. reflexivity.
Qed.

Lemma orderedQuantity_orderItemOf oid items k :
  orderedQuantity (map (OrderController.orderItemOf oid) items) k
  = cartQuantity items k.
Proof.
  induction items as [|item items IH]; [reflexivity|].
  cbn [map]. rewrite orderedQuantity_cons, cartQuantity_cons, IH. reflexivity.
Qed.

(** Giving back what a checkout took restores the product table. *)
Lemma incrementAll_decrementAll oid items (ps : gmap Z Product) :
  incrementAll (map (OrderController.orderItemOf oid) items)
               (decrementAll items ps) = ps.
Proof.
  apply map_eq. intros k.
  rewrite incrementAll_lookup, decrementAll_lookup, orderedQuantity_orderItemOf.
  destruct (ps !! k) as [p|]; simpl; [|reflexivity].
  f_equal. rewrite set_stockQuantity_compose.
  apply set_stockQuantity_id. intros s. lia.
Qed.

Lemma decrementAll_is_Some items (ps : gmap Z Product) (k : Z) :
  is_Some (decrementAll items ps !! k) <-> is_Some (ps !! k).
Proof. rewrite decrementAll_lookup, fmap_is_Some. reflexivity. Qed.

(** ** The cart join *)

Lemma join_filter_In (ps : gmap Z Product) (userId : Z) (cs : list CartItem)
    (item : CartItem * Product) :
  In item
     (omap (fun ci => p ← ps !! ci_productId ci; Some (ci, p))
           (List.filter (fun ci => ci_userId ci =? userId) cs)) ->
  ps !! ci_productId item.1 = Some item.2
  /\ In item.1 cs
  /\ ci_userId item.1 = userId.
Proof.
  intros H. apply list_elem_of_In in H.
  apply list_elem_of_omap in H as (ci & Hci & Hj).
  apply list_elem_of_In, filter_In in Hci as [Hin Hu].
  destruct (ps !! ci_productId ci) as [p|] eqn:Hp; simpl in Hj;
    [|discriminate].
  injection Hj as <-. simpl. repeat split; [exact Hp | exact Hin | lia].
Qed.

Lemma cartOf_product (d : DB) (userId : Z) (item : CartItem * Product) :
  In item (cartOf d userId) ->
  products d !! ci_productId item.1 = Some item.2
  /\ In item.1 (cartItems d)
  /\ ci_userId item.1 = userId.
Proof. apply join_filter_In. Qed.

(** ** Running the handlers while the database answers *)

Lemma discountByCode_Some (d : DB) (code : string) (id : Z) (r : Discount) :
  discountByCode d code = Some (id, r) ->
  discounts d !! id = Some r /\ d_code r = code.
Proof.
  unfold discountByCode. intros H. apply find_some in H as [Hin Hc].
  apply list_elem_of_In, elem_of_map_to_list in Hin.
  apply String.eqb_eq in Hc. split; assumption.
Qed.

Lemma forEach_validateStock_unlimited items st :
  forallb itemAccepted items = true ->
  forEach items validateStock st = (Ok tt, st).
Proof.
  induction items as [|item items IH]; simpl; [reflexivity|].
  intros [Hi Hs]%andb_true_iff.
  unfold itemAccepted in Hi. apply andb_true_iff in Hi as [Ha Hq].
  apply negb_true_iff in Hq.
  rewrite bind_unfold. unfold validateStock at 1.
  rewrite bind_unfold, Ha, Hq. simpl. exact (IH Hs).
Qed.

Lemma applyDiscount_unlimited now subtotal code (d : DB) :
  applyDiscount now subtotal code (mkSt d None)
  = (Ok (discountPlan d now subtotal code), mkSt d None).
Proof.
  unfold applyDiscount, discountPlan. destruct (truthyStr code);
    [|reflexivity].
  rewrite bind_unfold. unfold discount_findUnique.
  rewrite query_unlimited.
  destruct (discountByCode d _) as [[id r]|]; [|reflexivity].
  destruct (isValid now subtotal r); reflexivity.
Qed.

Lemma checkout_loop_unlimited oid items (d : DB) :
  is_Some (orders d !! oid) ->
  (forall item, In item items -> is_Some (products d !! ci_productId item.1)) ->
  forEach items (fun item =>
    orderItem_create (OrderController.orderItemOf oid item);;
    product_decrementStock (ci_productId item.1) (ci_quantity item.1))
    (mkSt d None)
  = (Ok tt,
     mkSt (set_products (decrementAll items)
             (set_orderItems
                (fun its => its ++ map (OrderController.orderItemOf oid) items)
                d))
          None).
Proof.
  revert d. induction items as [|item items IH]; intros d Ho Hp.
  - simpl. unfold set_products, set_orderItems. destruct d; simpl.
    now rewrite app_nil_r.
  - cbn [forEach]. rewrite bind_unfold, bind_unfold.
    unfold orderItem_create at 1. rewrite stmt_unlimited.
    destruct Ho as [o Ho]. cbn [oi_orderId OrderController.orderItemOf].
    rewrite Ho.
    unfold product_decrementStock at 1. rewrite stmt_unlimited.
    destruct (Hp item (or_introl eq_refl)) as [p Hpi].
    cbn [products set_orderItems]. rewrite Hpi.
    rewrite IH.
    + f_equal. f_equal. destruct d; unfold set_products, set_orderItems,
        decrementAll; simpl. now rewrite <- app_assoc.
    + destruct d; simpl in *. eauto.
    + intros it Hit. destruct d; simpl in *.
      apply lookup_alter_is_Some. apply Hp. right. exact Hit.
Qed.

(** An accepted request over an accepted cart is served whenever the
    database answers and the next order id is free. *)
Lemma checkout_unlimited now userId body si (d : DB) :
  shippingInfo body = Some si ->
  requestAccepted body = true ->
  cartAccepted (cartOf d userId) = true ->
  orders d !! nextOrderId d = None ->
  checkout now userId body (mkSt d None)
  = (Ok (orderView
           (checkoutDb d userId (plannedOrder d now userId body si))
           (nextOrderId d)),
     mkSt (checkoutDb d userId (plannedOrder d now userId body si)) None).
Proof.
  intros Hsi Hreq Hcart Hfresh.
  unfold requestAccepted in Hreq. rewrite Hsi in Hreq.
  apply andb_true_iff in Hreq as [Hreq V4].
  apply andb_true_iff in Hreq as [Hreq V3].
  apply andb_true_iff in Hreq as [V1 V2].
  apply negb_true_iff in V4.
  unfold cartAccepted in Hcart.
  apply andb_true_iff in Hcart as [V5 V6]. apply negb_true_iff in V5.
  unfold checkout. rewrite Hsi. cbv zeta.
  rewrite bind_unfold, V1. cbn [negb throwIf]. cbn [mret M_ret ret].
  rewrite bind_unfold, V2. cbn [negb throwIf]. cbn [mret M_ret ret].
  rewrite bind_unfold, V3. cbn [negb throwIf]. cbn [mret M_ret ret].
  rewrite bind_unfold, V4. cbn [negb throwIf]. cbn [mret M_ret ret].
  rewrite bind_unfold. unfold cartItem_findMany. rewrite query_unlimited.
  rewrite bind_unfold, V5. cbn [negb throwIf]. cbn [mret M_ret ret].
  rewrite bind_unfold, (forEach_validateStock_unlimited _ _ V6).
  rewrite bind_unfold, applyDiscount_unlimited.
  destruct (discountPlan d now (subtotalOf (cartOf d userId))
                         (discountCode body))
    as [[discount did] dcode] eqn:P.
  rewrite bind_unfold. unfold order_findFirst_lastOfYear.
  rewrite query_unlimited.
  apply transaction_Ok_intro.
  rewrite bind_unfold. unfold order_create. rewrite stmt_unlimited.
  cbv zeta. rewrite Hfresh.
  rewrite bind_unfold, checkout_loop_unlimited.
  2: { destruct d; simpl. rewrite lookup_insert_eq. eauto. }
  2: { intros item Hin. apply cartOf_product in Hin as (Hp & _ & _).
       destruct d; simpl in *. eauto. }
  rewrite bind_unfold. unfold cartItem_deleteMany. rewrite stmt_unlimited.
  rewrite bind_unfold.
  assert (Hplan : plannedOrder d now userId body si
                  = orderData userId body si (subtotalOf (cartOf d userId))
                      (shippingCostOf (city si) (subtotalOf (cartOf d userId)))
                      0%float discount
                      (subtotalOf (cartOf d userId)
                       + shippingCostOf (city si)
                                        (subtotalOf (cartOf d userId))
                       + 0 - discount)%float did dcode).
  { unfold plannedOrder. cbv zeta. rewrite P. reflexivity. }
  rewrite Hplan. unfold checkoutDb. cbv zeta. cbn [o_discountId orderData].
  destruct (truthyInt did) eqn:Hdid.
  - unfold discount_incrementUsedCount. rewrite stmt_unlimited.
    assert (Hd : is_Some (discounts d !! default 0 did)).
    { unfold discountPlan in P. destruct (truthyStr (discountCode body));
        [|injection P as _ <- _; discriminate].
      destruct (discountByCode d _) as [[id r]|] eqn:Hfind;
        [|injection P as _ <- _; discriminate].
      destruct (isValid now _ r); [|injection P as _ <- _; discriminate].
      injection P as _ <- _. apply discountByCode_Some in Hfind as [Hl _].
      simpl. eauto. }
    destruct Hd as [r Hr]. destruct d; simpl in *. rewrite Hr.
    unfold order_findUnique_full. rewrite query_unlimited. reflexivity.
  - cbn [mret M_ret ret]. unfold order_findUnique_full.
    rewrite query_unlimited. destruct d; reflexivity.
Qed.

(** ** Cancellation *)

Lemma cancel_loop_Ok_inv items st u st' :
  forEach items (fun item =>
    product_incrementStock (oi_productId item) (oi_quantity item)) st
  = (Ok u, st') ->
  st_db st' = set_products (incrementAll items) (st_db st).
Proof.
  revert st. induction items as [|item items IH]; intros st; simpl.
  - intros H. apply ret_Ok_inv in H as [_ ->]. destruct (st_db st); reflexivity.
  - intros H. apply bind_Ok_inv in H as (? & st1 & H1 & H2).
    apply stmt_Ok_inv in H1 as (H1 & _ & _).
    destruct (products (st_db st) !! _); [|discriminate].
    injection H1 as _ H1. rewrite (IH _ H2), <- H1.
    destruct (st_db st); reflexivity.
Qed.

Lemma cancel_loop_unlimited items (d : DB) :
  (forall item, In item items -> is_Some (products d !! oi_productId item)) ->
  forEach items (fun item =>
    product_incrementStock (oi_productId item) (oi_quantity item))
    (mkSt d None)
  = (Ok tt, mkSt (set_products (incrementAll items) d) None).
Proof.
  revert d. induction items as [|item items IH]; intros d Hp.
  - simpl. destruct d; reflexivity.
  - cbn [forEach]. rewrite bind_unfold.
    unfold product_incrementStock at 1. rewrite stmt_unlimited.
    destruct (Hp item (or_introl eq_refl)) as [p Hpi]. rewrite Hpi.
    rewrite IH.
    + destruct d; reflexivity.
    + intros it Hit. destruct d; simpl in *.
      apply lookup_alter_is_Some. apply Hp. right. exact Hit.
Qed.

Lemma cancelTransaction_Ok_inv orderId o adminNote st u st' :
  cancelTransaction orderId o (itemsOf (st_db st) orderId) adminNote st
  = (Ok u, st') ->
  st_db st' = cancelDb (st_db st) orderId o adminNote.
Proof.
  unfold cancelTransaction. intros H. apply transaction_Ok_inv in H.
  apply bind_Ok_inv in H as (? & s1 & H1 & H).
  apply cancel_loop_Ok_inv in H1.
  apply bind_Ok_inv in H as (? & s2 & H2 & H).
  apply stmt_Ok_inv in H as (H & _ & _).
  destruct (orders (st_db s2) !! orderId); [|discriminate].
  injection H as _ H.
  assert (D2 : st_db s2
               = (if truthyInt (o_discountId o)
                  then set_discounts
                         (alter (set_usedCount (fun n => n - 1))
                                (default 0 (o_discountId o))) (st_db s1)
                  else st_db s1)).
  { destruct (truthyInt (o_discountId o)).
    - apply stmt_Ok_inv in H2 as (H2 & _ & _).
      destruct (discounts (st_db s1) !! _); [|discriminate].
      injection H2 as _ H2. symmetry. exact H2.
    - apply ret_Ok_inv in H2 as [_ ->]. reflexivity. }
  rewrite <- H, D2, H1. unfold cancelDb.
  destruct (truthyInt (o_discountId o)); destruct (st_db st); reflexivity.
Qed.

Lemma cancelTransaction_unlimited orderId o adminNote (d : DB) :
  is_Some (orders d !! orderId) ->
  (forall item, In item (itemsOf d orderId) ->
                is_Some (products d !! oi_productId item)) ->
  (truthyInt (o_discountId o) = true ->
   is_Some (discounts d !! default 0 (o_discountId o))) ->
  cancelTransaction orderId o (itemsOf d orderId) adminNote (mkSt d None)
  = (Ok tt, mkSt (cancelDb d orderId o adminNote) None).
Proof.
  intros [o' Ho] Hp Hd. unfold cancelTransaction.
  apply transaction_Ok_intro.
  rewrite bind_unfold, cancel_loop_unlimited by exact Hp.
  rewrite bind_unfold. unfold cancelDb.
  destruct (truthyInt (o_discountId o)) eqn:Ht.
  - destruct (Hd eq_refl) as [r Hr].
    unfold discount_decrementUsedCount. rewrite stmt_unlimited.
    destruct d; simpl in *. rewrite Hr.
    unfold order_update. rewrite stmt_unlimited. simpl. rewrite Ho.
    reflexivity.
  - cbn [mret M_ret ret]. unfold order_update. rewrite stmt_unlimited.
    destruct d; simpl in *. rewrite Ho. reflexivity.
Qed.

Lemma updateOrderStatus_cancel_unfold orderId adminNote st :
  updateOrderStatus orderId (cancelRequest adminNote) st
  = (existingOrder ← order_findUnique orderId;
     match existingOrder with
     | None => throw (NotFoundError (Some "Order not found"))
     | Some (existingOrder, items) =>
         throwIf (String.eqb (o_status existingOrder) CANCELLED)
                 (BadRequestError (Some "Order is already cancelled") None);;
         (if negb (String.eqb (o_status existingOrder) CANCELLED)
          then cancelTransaction orderId existingOrder items adminNote
          else order_update orderId CANCELLED
                 (orElse adminNote (o_adminNote existingOrder)));;
         order_findUnique_full orderId
     end) st.
Proof.
  unfold updateOrderStatus, cancelRequest, cancelTransaction.
  cbn [status OrderController.adminNote].
  change (negb (nonEmpty CANCELLED)) with false.
  change (negb (arrayIncludes validStatuses CANCELLED)) with false.
  change (String.eqb CANCELLED CANCELLED) with true.
  cbn [throwIf]. unfold mbind, M_bind, bind. cbn [mret M_ret ret].
  destruct (order_findUnique orderId st) as [[[[o items]|]|e] st1];
    try reflexivity.
  rewrite andb_true_r. reflexivity.
Qed.

Lemma CANCELLED_eqb_false (s : string) :
  String.eqb s CANCELLED = false <-> s <> CANCELLED.
Proof. apply String.eqb_neq. Qed.

(** Every way a cancellation request can end: the tables are untouched, or
    they are exactly the cancelled tables; a successful one is the latter. *)
Lemma cancel_outcomes orderId adminNote st res st' :
  updateOrderStatus orderId (cancelRequest adminNote) st = (res, st') ->
  (st_db st' = st_db st /\ exists e, res = Err e)
  \/ (exists o,
        orders (st_db st) !! orderId = Some o
        /\ o_status o <> CANCELLED
        /\ st_db st' = cancelDb (st_db st) orderId o adminNote
        /\ (forall view, res = Ok view -> view = orderView (st_db st') orderId)).
Proof.
  rewrite updateOrderStatus_cancel_unfold, bind_unfold.
  destruct (order_findUnique orderId st) as [[existing|e] s1] eqn:Hq.
  2: { intros H. injection H as <- <-. left. split; [|eauto].
       exact (readOnly_query _ _ _ _ Hq). }
  apply query_Ok_inv in Hq as [-> D1].
  destruct (orders (st_db st) !! orderId) as [o|] eqn:Ho; simpl.
  2: { intros H. injection H as <- <-. left. split; [exact D1 | eauto]. }
  rewrite bind_unfold.
  destruct (String.eqb (o_status o) CANCELLED) eqn:Hs; simpl.
  { intros H. injection H as <- <-. left. split; [exact D1 | eauto]. }
  apply CANCELLED_eqb_false in Hs.
  rewrite bind_unfold.
  destruct (cancelTransaction orderId o (itemsOf (st_db st) orderId)
              adminNote s1) as [[u|e] s2] eqn:Ht.
  2: { intros H. injection H as <- <-. left. split; [|eauto].
       rewrite (atomic_transaction _ _ _ _ Ht). exact D1. }
  rewrite <- D1 in Ht at 1. apply cancelTransaction_Ok_inv in Ht.
  rewrite D1 in Ht.
  intros H. right. exists o. split; [reflexivity|]. split; [exact Hs|].
  assert (D3 : st_db st' = st_db s2).
  { exact (readOnly_query _ _ _ _ H). }
  split; [congruence|].
  intros view ->. apply query_Ok_inv in H as [-> _]. now rewrite D3.
Qed.

Lemma cancel_unlimited orderId adminNote o (d : DB) :
  orders d !! orderId = Some o ->
  o_status o <> CANCELLED ->
  (forall item, In item (itemsOf d orderId) ->
                is_Some (products d !! oi_productId item)) ->
  (truthyInt (o_discountId o) = true ->
   is_Some (discounts d !! default 0 (o_discountId o))) ->
  updateOrderStatus orderId (cancelRequest adminNote) (mkSt d None)
  = (Ok (orderView (cancelDb d orderId o adminNote) orderId),
     mkSt (cancelDb d orderId o adminNote) None).
Proof.
  intros Ho Hs Hp Hd.
  rewrite updateOrderStatus_cancel_unfold, bind_unfold.
  unfold order_findUnique. rewrite query_unlimited, Ho. simpl.
  apply CANCELLED_eqb_false in Hs. rewrite bind_unfold, Hs. simpl.
  rewrite bind_unfold, cancelTransaction_unlimited by eauto.
  unfold order_findUnique_full. rewrite query_unlimited. reflexivity.
Qed.

(** ** The order a checkout answers with *)

Lemma subtotalOf_from (items : list (CartItem * Product)) (acc : float) :
  fold_left (fun subtotal item =>
               (subtotal + p_price item.2 * ofInt (ci_quantity item.1))%float)
            items acc
  = addItems acc items.
Proof.
  revert acc. induction items as [|item items IH]; intros acc; simpl;
    [reflexivity | apply IH].
Qed.

Lemma subtotalOf_cartTotal (items : list (CartItem * Product)) :
  subtotalOf items = cartTotal items.
Proof. apply subtotalOf_from. Qed.

Lemma orderView_checkoutDb (d : DB) (userId : Z) (o : Order) :
  orderView (checkoutDb d userId o) (nextOrderId d)
  = Some (mkOrderView (nextOrderId d) o
            (itemsOf (checkoutDb d userId o) (nextOrderId d))
            (did ← o_discountId o;
             discounts (checkoutDb d userId o) !! did)).
Proof.
  unfold orderView, checkoutDb. cbn [orders]. rewrite lookup_insert_eq.
  reflexivity.
Qed.

Lemma cartAccepted_nonempty (items : list (CartItem * Product)) :
  cartAccepted items = true -> items <> [].
Proof. destruct items; [discriminate | discriminate]. Qed.

(** The shape of every successful checkout. *)
Lemma checkout_view now userId body st view st' :
  checkout now userId body st = (Ok view, st') ->
  exists si v,
    shippingInfo body = Some si
    /\ view = Some v
    /\ ov_id v = nextOrderId (st_db st)
    /\ ov_order v = plannedOrder (st_db st) now userId body si
    /\ orders (st_db st) !! nextOrderId (st_db st) = None
    /\ requestAccepted body = true
    /\ cartAccepted (cartOf (st_db st) userId) = true
    /\ st_db st' = checkoutDb (st_db st) userId (ov_order v).
Proof.
  intros H. apply checkout_Ok_inv in H
    as (si & Hsi & Hreq & Hcart & Hfresh & Hdb & ->).
  rewrite Hdb, orderView_checkoutDb.
  eexists si, _. repeat split; try eassumption; reflexivity.
Qed.

(** ** Discount rules *)

Lemma discountOf_spec (subtotal : float) (r : Discount) :
  discountOf subtotal r = discountAmount subtotal r.
Proof.
  unfold discountOf, discountAmount, clampTo, clampDown. cbv zeta.
  destruct (d_maxDiscountAmount r) as [m|]; reflexivity.
Qed.

(** What is clamped down to a number is at most that number, whenever
    it is a number itself. *)
Lemma clampDown_le (cap x : float) :
  isNumber cap -> isNumber (clampDown cap x) ->
  numLe (clampDown cap x) cap = true.
Proof.
  unfold clampDown. intros Hc Hx.
  destruct (numGt x cap) eqn:Hgt.
  - pose proof (numLt_numGe cap cap Hc Hc) as H.
    unfold numLt, numGe, numLe in *.
    destruct (cap <=? cap)%float eqn:E; [reflexivity|].
    exfalso. unfold isNumber, isNaN in Hc.
    rewrite FloatAxioms.eqb_spec in Hc.
    rewrite FloatAxioms.leb_spec in E. unfold SFeqb, SFleb in *.
    destruct (SFcompare (Prim2SF cap) (Prim2SF cap)) as [[]|];
      cbn in *; congruence.
  - pose proof (numLt_numGe cap x Hc Hx) as H.
    unfold numLt, numGe, numGt, numLe in *.
    rewrite Hgt in H. symmetry in H. apply negb_false_iff in H. exact H.
Qed.

Lemma usageLimit_ok_spec (r : Discount) :
  negb (truthyInt (d_usageLimit r))
  || (d_usedCount r <? default 0 (d_usageLimit r)) = true
  <-> (forall limit, d_usageLimit r = Some limit -> limit <> 0 ->
                     d_usedCount r < limit).
Proof.
  destruct (d_usageLimit r) as [l|]; simpl.
  - destruct (Z.eqb_spec l 0) as [->|Hne]; simpl.
    + split; [|reflexivity]. intros _ limit [= <-] Hn. contradiction.
    + rewrite Z.ltb_lt. split.
      * intros H limit [= <-] _. exact H.
      * intros H. apply (H l eq_refl Hne).
  - split; [|reflexivity]. intros _ limit H. discriminate.
Qed.

Lemma minPurchase_ok_spec (subtotal : float) (r : Discount) :
  match d_minPurchaseAmount r with
  | None => true
  | Some m => numGe subtotal m
  end = true
  <-> (forall m, d_minPurchaseAmount r = Some m -> numGe subtotal m = true).
Proof.
  destruct (d_minPurchaseAmount r) as [m|].
  - split.
    + intros H m' [= <-]. exact H.
    + intros H. apply H. reflexivity.
  - split; [|reflexivity]. intros _ m H. discriminate.
Qed.

(** For a subtotal and a minimum that are numbers, the test of the
    validate endpoint and the test of checkout agree. *)
Lemma discountAcceptable_applicable (now : Z) (subtotal : float) (r : Discount) :
  isNumber subtotal -> minimumIsNumber r ->
  discountAcceptable now subtotal r <-> discountApplicable now subtotal r.
Proof.
  intros Hs Hm. unfold discountAcceptable, discountApplicable.
  assert (Heq : (forall m, d_minPurchaseAmount r = Some m ->
                           numLt subtotal m = false)
                <-> (forall m, d_minPurchaseAmount r = Some m ->
                               numGe subtotal m = true)).
  { split; intros H m Hmm; specialize (H m Hmm);
      rewrite (numLt_numGe subtotal m Hs (Hm m Hmm)) in *.
    - now apply negb_false_iff in H.
    - now rewrite H. }
  tauto.
Qed.

(** A subtotal above zero passes the check at the head of the validate
    endpoint. *)
Lemma positive_accepted (subtotal : float) :
  numGt subtotal 0 = true ->
  truthyNum (Some subtotal) = true /\ numLe subtotal 0 = false.
Proof.
  intros H. pose proof (numGt_isNumber _ _ H) as Hn.
  unfold truthyNum, numGt, numLe in *. unfold isNumber in Hn. rewrite Hn.
  rewrite FloatAxioms.ltb_spec in H.
  rewrite FloatAxioms.eqb_spec, FloatAxioms.leb_spec.
  unfold SFltb, SFeqb, SFleb in *.
  destruct (SFcompare (Prim2SF 0) (Prim2SF subtotal)) as [[]|] eqn:E;
    try discriminate.
  rewrite (SFcompare_antisym _ _ _ E). split; reflexivity.
Qed.

(** What passes that check is above zero. *)
Lemma accepted_positive (subtotal : float) :
  truthyNum (Some subtotal) = true -> numLe subtotal 0 = false ->
  numGt subtotal 0 = true.
Proof.
  unfold truthyNum. intros [_ Hn%negb_true_iff]%andb_true_iff Hle.
  assert (H0 : isNumber 0%float) by reflexivity.
  pose proof (numLt_numGe 0%float subtotal H0 Hn) as H.
  unfold numLt, numGe, numGt, numLe in *. rewrite Hle in H. exact H.
Qed.

Lemma isValid_spec (now : Z) (subtotal : float) (r : Discount) :
  isValid now subtotal r = true <-> discountApplicable now subtotal r.
Proof.
  unfold isValid, discountApplicable.
  rewrite !andb_true_iff, usageLimit_ok_spec, minPurchase_ok_spec,
    !Z.leb_le.
  tauto.
Qed.

Lemma discountPlan_cases (d : DB) now subtotal code :
  (exists c id r,
     code = Some c
     /\ discountByCode d (toUpperCase c) = Some (id, r)
     /\ discountApplicable now subtotal r
     /\ discountPlan d now subtotal code
        = (discountAmount subtotal r, Some id, Some (d_code r)))
  \/ discountPlan d now subtotal code = (0%float, None, None).
Proof.
  unfold discountPlan. destruct code as [c|]; [|right; reflexivity].
  destruct (truthyStr (Some c)); [|right; reflexivity]. simpl.
  destruct (discountByCode d (toUpperCase c)) as [[id r]|] eqn:Hf;
    [|right; reflexivity].
  destruct (isValid now subtotal r) eqn:Hv; [|right; reflexivity].
  left. exists c, id, r. apply isValid_spec in Hv.
  rewrite discountOf_spec. repeat split; try assumption; apply Hv.
Qed.

(** A code that names no discount, or a discount that is not applicable,
    leaves the plan empty. *)
Lemma discountPlan_ignored (d : DB) now subtotal code :
  (forall c id r, code = Some c ->
                  discountByCode d (toUpperCase c) = Some (id, r) ->
                  ~ discountApplicable now subtotal r) ->
  discountPlan d now subtotal code = (0%float, None, None).
Proof.
  intros H. destruct (discountPlan_cases d now subtotal code)
    as [(c & id & r & Hc & Hf & Ha & _) | Hp]; [|exact Hp].
  exfalso. exact (H c id r Hc Hf Ha).
Qed.

Lemma validateCode_Valid_inv show now body st info st' :
  validateCode show now body st = (Ok (Valid info), st') ->
  exists code subtotal r,
    adr_code body = Some code
    /\ adr_cartSubtotal body = Some subtotal
    /\ numGt subtotal 0 = true
    /\ discountByCode (st_db st) (toUpperCase code) = Some (di_id info, r)
    /\ discountAcceptable now subtotal r
    /\ di_discountAmount info = roundToCents (discountAmount subtotal r)
    /\ st_db st' = st_db st.
Proof.
  unfold validateCode. intros H.
  apply bind_Ok_inv in H as (? & s1 & H1 & H).
  apply throwIf_Ok_inv in H1 as [V1 ->].
  apply bind_Ok_inv in H as (? & s1 & H1 & H).
  apply throwIf_Ok_inv in H1 as [V2 ->].
  apply bind_Ok_inv in H as (found & s1 & H1 & H).
  apply query_Ok_inv in H1 as [-> D1].
  destruct (adr_code body) as [code|]; [|discriminate].
  destruct (adr_cartSubtotal body) as [subtotal|]; [|discriminate].
  cbn [default from_option id] in V2, H |- *.
  apply orb_false_iff in V2 as [V2a%negb_false_iff V2].
  assert (Hpos : numGt subtotal 0 = true)
    by (apply accepted_positive; assumption).
  destruct (discountByCode (st_db st) (toUpperCase code)) as [[id r]|] eqn:Hf;
    [|discriminate].
  destruct (d_isActive r) eqn:Ha; simpl in H; [|discriminate].
  destruct ((now <? d_startDate r) || (d_endDate r <? now)) eqn:Hw;
    [discriminate|].
  destruct (truthyInt (d_usageLimit r)
            && (default 0 (d_usageLimit r) <=? d_usedCount r)) eqn:Hu;
    [discriminate|].
  destruct (match d_minPurchaseAmount r with
            | Some m => numLt subtotal m
            | None => false
            end) eqn:Hm; [discriminate|].
  apply ret_Ok_inv in H as [H ->]. injection H as ->.
  exists code, subtotal, r. cbn [di_id di_discountAmount].
  repeat split; try assumption; try reflexivity.
  - apply orb_false_iff in Hw as [Hs He]. apply Z.ltb_ge in Hs. exact Hs.
  - apply orb_false_iff in Hw as [Hs He]. apply Z.ltb_ge in He. exact He.
  - intros limit Hl Hn. rewrite Hl in Hu. simpl in Hu.
    apply Z.eqb_neq in Hn. rewrite Hn in Hu. simpl in Hu.
    apply Z.leb_gt in Hu. exact Hu.
  - intros m Hmm. rewrite Hmm in Hm. exact Hm.
Qed.

Lemma validateCode_unlimited show now code subtotal (d : DB) :
  nonEmpty code = true -> numGt subtotal 0 = true ->
  exists response,
    validateCode show now (mkApplyDiscountRequest (Some code) (Some subtotal))
                 (mkSt d None)
    = (Ok response, mkSt d None).
Proof.
  intros Hc Hpos. unfold validateCode.
  cbn [adr_code adr_cartSubtotal truthyStr default from_option id].
  destruct (positive_accepted _ Hpos) as [H0 H1].
  rewrite Hc, H0, H1. cbn [negb orb throwIf].
  rewrite bind_unfold. cbn [mret M_ret ret].
  rewrite bind_unfold. cbn [mret M_ret ret].
  rewrite bind_unfold. unfold discount_findUnique. rewrite query_unlimited.
  destruct (discountByCode d (toUpperCase code)) as [[id r]|];
    [|eexists; reflexivity].
  destruct (negb (d_isActive r)); [eexists; reflexivity|].
  destruct ((now <? d_startDate r) || (d_endDate r <? now));
    [eexists; reflexivity|].
  destruct (truthyInt (d_usageLimit r)
            && (default 0 (d_usageLimit r) <=? d_usedCount r));
    [eexists; reflexivity|].
  destruct (match d_minPurchaseAmount r with
            | Some m => numLt subtotal m
            | None => false
            end); eexists; reflexivity.
Qed.

(** The validate endpoint answers [valid: false] for a code that names no
    discount or a discount that is not applicable. *)
Lemma validateCode_rejects show now code subtotal (d : DB) :
  nonEmpty code = true -> numGt subtotal 0 = true ->
  (forall id r, discountByCode d (toUpperCase code) = Some (id, r) ->
                ~ discountAcceptable now subtotal r) ->
  exists msg,
    validateCode show now (mkApplyDiscountRequest (Some code) (Some subtotal))
                 (mkSt d None)
    = (Ok (Invalid msg), mkSt d None).
Proof.
  intros Hc Hpos Hno.
  destruct (validateCode_unlimited show now code subtotal d Hc Hpos)
    as [[msg|info] Hrun].
  - exists msg. exact Hrun.
  - exfalso. apply validateCode_Valid_inv in Hrun
      as (c & s & r & [= <-] & [= <-] & _ & Hf & Ha & _).
    exact (Hno _ _ Hf Ha).
Qed.

(** ** A checkout followed by its cancellation *)

Lemma filter_none {A} (f : A -> bool) (xs : list A) :
  (forall x, In x xs -> f x = false) -> List.filter f xs = [].
Proof.
  induction xs as [|x xs IH]; intros H; simpl; [reflexivity|].
  rewrite (H x (or_introl eq_refl)). apply IH. intros y Hy. apply H.
  right. exact Hy.
Qed.

Lemma filter_all {A} (f : A -> bool) (xs : list A) :
  (forall x, In x xs -> f x = true) -> List.filter f xs = xs.
Proof.
  induction xs as [|x xs IH]; intros H; simpl; [reflexivity|].
  rewrite (H x (or_introl eq_refl)). f_equal. apply IH. intros y Hy. apply H.
  right. exact Hy.
Qed.

Lemma itemsOf_checkoutDb (d : DB) (userId : Z) (o : Order) :
  foreignKeysHold d ->
  orders d !! nextOrderId d = None ->
  itemsOf (checkoutDb d userId o) (nextOrderId d)
  = map (orderItemOf (nextOrderId d)) (cartOf d userId).
Proof.
  intros Hfk Hfresh. unfold itemsOf, checkoutDb. cbn [orderItems].
  rewrite List.filter_app, filter_none, filter_all; [reflexivity| |].
  - intros it Hin. apply in_map_iff in Hin as (item & <- & _).
    cbn [oi_orderId orderItemOf]. apply Z.eqb_refl.
  - intros it Hin. apply Z.eqb_neq. intros Heq.
    destruct (Hfk it Hin) as [o' Ho']. rewrite Heq in Ho'. congruence.
Qed.

Lemma discountPlan_id_exists (d : DB) now subtotal code id :
  (discountPlan d now subtotal code).1.2 = Some id ->
  is_Some (discounts d !! id).
Proof.
  destruct (discountPlan_cases d now subtotal code)
    as [(c & id' & r & _ & Hf & _ & ->) | ->]; simpl; [|discriminate].
  intros [= <-]. apply discountByCode_Some in Hf as [Hl _]. eauto.
Qed.

Lemma alter_usedCount_back (ds : gmap Z Discount) (id : Z) :
  alter (set_usedCount (fun n => n - 1)) id
        (alter (set_usedCount (fun n => n + 1)) id ds) = ds.
Proof.
  rewrite alter_alter_eq. apply alter_id. intros r _. simpl.
  destruct r. unfold set_usedCount. simpl. f_equal. lia.
Qed.

(** The cancellation of the order a checkout has just created succeeds
    while the database answers, and gives back the product and discount
    tables of before the checkout. *)
Lemma cancel_after_checkout now userId body st v st1 adminNote :
  foreignKeysHold (st_db st) ->
  checkout now userId body st = (Ok (Some v), st1) ->
  exists view d2,
    updateOrderStatus (ov_id v) (cancelRequest adminNote)
                      (mkSt (st_db st1) None)
    = (Ok view, mkSt d2 None)
    /\ products d2 = products (st_db st)
    /\ discounts d2 = discounts (st_db st).
Proof.
  intros Hfk H. apply checkout_view in H
    as (si & v0 & Hsi & [= <-] & Hid & Ho & Hfresh & Hreq & Hcart & Hdb).
  set (d := st_db st) in *. set (o := ov_order v) in *.
  assert (Hitems : itemsOf (st_db st1) (ov_id v)
                   = map (orderItemOf (nextOrderId d)) (cartOf d userId)).
  { rewrite Hdb, Hid. apply itemsOf_checkoutDb; assumption. }
  assert (Hdisc : truthyInt (o_discountId o) = true ->
                  is_Some (discounts d !! default 0 (o_discountId o))).
  { intros Ht. destruct (o_discountId o) as [id|] eqn:Hoid; [|discriminate].
    simpl. apply (discountPlan_id_exists d now
                    (subtotalOf (cartOf d userId)) (discountCode body)).
    rewrite <- Hoid. rewrite Ho. reflexivity. }
  eexists _, _. split.
  - apply (cancel_unlimited (ov_id v) adminNote o).
    + rewrite Hdb, Hid. unfold checkoutDb. cbn [orders].
      apply lookup_insert_eq.
    + rewrite Ho. unfold plannedOrder. cbn. discriminate.
    + intros item Hin. rewrite Hitems in Hin.
      apply in_map_iff in Hin as (ci & <- & Hci).
      apply cartOf_product in Hci as (Hp & _ & _).
      rewrite Hdb. unfold checkoutDb. cbn [products oi_productId orderItemOf].
      apply decrementAll_is_Some. eauto.
    + intros Ht. rewrite Hdb. unfold checkoutDb. cbn [discounts].
      rewrite Ht. apply lookup_alter_is_Some. exact (Hdisc Ht).
  - unfold cancelDb. cbn [products discounts]. rewrite Hitems.
    rewrite Hdb. unfold checkoutDb. cbn [products discounts].
    split; [apply incrementAll_decrementAll|].
    destruct (truthyInt (o_discountId o)); [|reflexivity].
    apply alter_usedCount_back.
Qed.

(** ** Errors *)

Lemma raises_ret {A} (a : A) : raisesTypedOrPrisma (mret a : M A).
Proof. intros st e st' H. discriminate. Qed.

Lemma raises_throw {A} (e : JsError) :
  Typed e \/ PrismaError e -> raisesTypedOrPrisma (@throw A e).
Proof. intros He st e' st' H. injection H as <- _. exact He. Qed.

Lemma raises_throwIf (c : bool) (e : JsError) :
  Typed e -> raisesTypedOrPrisma (throwIf c e).
Proof.
  intros He. destruct c; [apply raises_throw; left; exact He|].
  apply (raises_ret tt).
Qed.

Lemma raises_bind {A B} (m : M A) (k : A -> M B) :
  raisesTypedOrPrisma m -> (forall a, raisesTypedOrPrisma (k a)) ->
  raisesTypedOrPrisma (m ≫= k).
Proof.
  intros Hm Hk st e st' H.
  apply bind_Err_inv in H as [H | (a & st1 & _ & H)].
  - exact (Hm _ _ _ H).
  - exact (Hk a _ _ _ H).
Qed.

Lemma raises_forEach {A} (xs : list A) (body : A -> M unit) :
  (forall x, raisesTypedOrPrisma (body x)) ->
  raisesTypedOrPrisma (forEach xs body).
Proof.
  intros Hb. induction xs as [|x xs IH]; simpl.
  - apply (raises_ret tt).
  - apply raises_bind; [apply Hb | intros _; exact IH].
Qed.

Lemma raises_transaction {A} (body : M A) :
  raisesTypedOrPrisma body -> raisesTypedOrPrisma (transaction body).
Proof.
  intros Hb st e st'. unfold transaction.
  destruct (body st) as [[a|e0] st1] eqn:E; intros H; [discriminate|].
  injection H as <- _. exact (Hb _ _ _ E).
Qed.

Lemma raises_stmt {A} (f : DB -> Result (A * DB)) :
  (forall d e, f d = Err e -> PrismaError e) ->
  raisesTypedOrPrisma (stmt f).
Proof.
  intros Hf st e st'. unfold stmt.
  destruct (st_budget st) as [[|n]|].
  - intros H. injection H as <- _. right. constructor.
  - destruct (f (st_db st)) as [[a d']|e0] eqn:E; intros H; [discriminate|].
    injection H as <- _. right. exact (Hf _ _ E).
  - destruct (f (st_db st)) as [[a d']|e0] eqn:E; intros H; [discriminate|].
    injection H as <- _. right. exact (Hf _ _ E).
Qed.

Lemma raises_query {A} (f : DB -> A) : raisesTypedOrPrisma (query f).
Proof. apply raises_stmt. intros d e H. discriminate. Qed.

(** Every Prisma call raises errors of the Prisma client only. *)
Ltac prisma_raises :=
  apply raises_stmt; intros d e; cbv beta zeta;
  repeat match goal with
         | |- context [match ?x with _ => _ end] => destruct x
         | |- context [if ?x then _ else _] => destruct x
         end;
  intros H; try discriminate; injection H as <-; constructor.

Lemma raises_cartItem_update id q : raisesTypedOrPrisma (cartItem_update id q).
Proof. prisma_raises. Qed.

Lemma raises_cartItem_create u p q :
  raisesTypedOrPrisma (cartItem_create u p q).
Proof. prisma_raises. Qed.

Lemma raises_cartItem_deleteMany u : raisesTypedOrPrisma (cartItem_deleteMany u).
Proof. prisma_raises. Qed.

Lemma raises_wishlistItem_delete id :
  raisesTypedOrPrisma (wishlistItem_delete id).
Proof. prisma_raises. Qed.

Lemma raises_product_decrementStock id q :
  raisesTypedOrPrisma (product_decrementStock id q).
Proof. prisma_raises. Qed.

Lemma raises_product_incrementStock id q :
  raisesTypedOrPrisma (product_incrementStock id q).
Proof. prisma_raises. Qed.

Lemma raises_discount_incrementUsedCount id :
  raisesTypedOrPrisma (discount_incrementUsedCount id).
Proof. prisma_raises. Qed.

Lemma raises_discount_decrementUsedCount id :
  raisesTypedOrPrisma (discount_decrementUsedCount id).
Proof. prisma_raises. Qed.

Lemma raises_order_create o : raisesTypedOrPrisma (order_create o).
Proof. prisma_raises. Qed.

Lemma raises_orderItem_create it : raisesTypedOrPrisma (orderItem_create it).
Proof. prisma_raises. Qed.

Lemma raises_order_update id s n : raisesTypedOrPrisma (order_update id s n).
Proof. prisma_raises. Qed.

Lemma raises_order_updatePaymentStatus id s n :
  raisesTypedOrPrisma (order_updatePaymentStatus id s n).
Proof. prisma_raises. Qed.

Lemma raises_cartItem_delete id : raisesTypedOrPrisma (cartItem_delete id).
Proof. prisma_raises. Qed.

Lemma raises_wishlistItem_deleteMany u :
  raisesTypedOrPrisma (wishlistItem_deleteMany u).
Proof. prisma_raises. Qed.

#[local] Hint Resolve raises_ret raises_query raises_forEach raises_transaction
  raises_cartItem_update raises_cartItem_create raises_cartItem_deleteMany
  raises_wishlistItem_delete raises_product_decrementStock
  raises_product_incrementStock raises_discount_incrementUsedCount
  raises_discount_decrementUsedCount raises_order_create
  raises_orderItem_create raises_order_update
  raises_order_updatePaymentStatus raises_cartItem_delete
  raises_wishlistItem_deleteMany : handlers.

#[local] Hint Constructors Typed : handlers.

(** One step through a handler: split a bind, discharge a guard, or close
    the goal with a known fact. *)
Ltac raises_step :=
  first
    [ apply raises_bind; [|intros ?]
    | apply raises_throwIf; solve [auto with handlers]
    | apply raises_throw; left; solve [auto with handlers]
    | apply (raises_ret (A := unit))
    | solve [auto with handlers]
    | unfold cartItem_findMany, cartItem_findUnique, product_findUnique,
        wishlistItem_findUnique, discount_findUnique, order_findUnique,
        order_findUnique_full, order_findFirst_lastOfYear,
        order_findUnique_plain, cartItem_findUnique_byId,
        cartItem_findUnique_withProduct, wishlistItem_findUnique_byId;
      apply raises_query ].

Lemma raises_validateStock item : raisesTypedOrPrisma (validateStock item).
Proof. unfold validateStock. repeat raises_step. Qed.

Lemma raises_applyDiscount now subtotal code :
  raisesTypedOrPrisma (applyDiscount now subtotal code).
Proof.
  unfold applyDiscount. destruct (truthyStr code); [|apply raises_ret].
  raises_step; [raises_step|].
  destruct a as [[id r]|]; [destruct (isValid _ _ r)|]; apply raises_ret.
Qed.

Lemma raises_checkout now userId body :
  raisesTypedOrPrisma (checkout now userId body).
Proof.
  unfold checkout. destruct (shippingInfo body) as [si|];
    [|apply raises_throw; left; constructor].
  cbv zeta. repeat raises_step.
  - apply raises_forEach, raises_validateStock.
  - apply raises_applyDiscount.
  - destruct a6 as [[discount discountId] discountCodeUsed].
    repeat raises_step.
    apply raises_transaction. repeat raises_step.
    + apply raises_forEach. intros item. repeat raises_step.
    + destruct (truthyInt discountId); raises_step.
Qed.

Lemma raises_updateOrderStatus orderId body :
  raisesTypedOrPrisma (updateOrderStatus orderId body).
Proof.
  unfold updateOrderStatus. cbv zeta. repeat raises_step.
  destruct a1 as [[o items]|]; repeat raises_step.
  destruct (_ && _); repeat raises_step.
  apply raises_transaction. repeat raises_step.
  destruct (truthyInt (o_discountId o)); raises_step.
Qed.

Lemma raises_validateCode show now body :
  raisesTypedOrPrisma (validateCode show now body).
Proof.
  unfold validateCode. cbv zeta. repeat raises_step.
  destruct a1 as [[id r]|]; [|apply raises_ret].
  repeat match goal with
         | |- raisesTypedOrPrisma (if ?c then _ else _) => destruct c
         end; apply raises_ret.
Qed.

Lemma raises_addToCart userId body :
  raisesTypedOrPrisma (CartController.addToCart userId body).
Proof.
  unfold CartController.addToCart. cbv zeta. repeat raises_step.
  destruct a1 as [product|]; repeat raises_step.
  destruct a3 as [existing|]; repeat raises_step.
Qed.

Lemma raises_moveToCart userId wishlistItemId quantity :
  raisesTypedOrPrisma
    (WishlistController.moveToCart userId wishlistItemId quantity).
Proof.
  unfold WishlistController.moveToCart. cbv zeta. repeat raises_step.
  destruct a as [[wishlistItem product]|]; repeat raises_step.
  apply raises_transaction. repeat raises_step.
  destruct a1 as [existing|]; raises_step.
Qed.

Lemma raises_updatePaymentStatus orderId body :
  raisesTypedOrPrisma (updatePaymentStatus orderId body).
Proof.
  unfold updatePaymentStatus. cbv zeta. repeat raises_step.
  destruct a1 as [o|]; repeat raises_step.
Qed.

Lemma raises_getCart userId : raisesTypedOrPrisma (CartController.getCart userId).
Proof. unfold CartController.getCart. cbv zeta. repeat raises_step. Qed.

Lemma raises_updateCartItem userId cartItemId quantity :
  raisesTypedOrPrisma (CartController.updateCartItem userId cartItemId quantity).
Proof.
  unfold CartController.updateCartItem. cbv zeta. repeat raises_step.
  destruct a0 as [[cartItem product]|]; repeat raises_step.
Qed.

Lemma raises_removeFromCart userId cartItemId :
  raisesTypedOrPrisma (CartController.removeFromCart userId cartItemId).
Proof. unfold CartController.removeFromCart. repeat raises_step. Qed.

Lemma raises_clearCart userId : raisesTypedOrPrisma (CartController.clearCart userId).
Proof. unfold CartController.clearCart. raises_step. Qed.

Lemma raises_removeFromWishlist userId wishlistItemId :
  raisesTypedOrPrisma
    (WishlistController.removeFromWishlist userId wishlistItemId).
Proof. unfold WishlistController.removeFromWishlist. repeat raises_step. Qed.

Lemma raises_clearWishlist userId :
  raisesTypedOrPrisma (WishlistController.clearWishlist userId).
Proof. unfold WishlistController.clearWishlist. raises_step. Qed.

(** An error of the Prisma client carries no status code. *)
Lemma PrismaError_plain (e : JsError) : PrismaError e -> statusCode e = None.
Proof. intros []; reflexivity. Qed.

(** A typed error carries one of the seven status codes. *)
Lemma Typed_statusCode (e : JsError) :
  Typed e -> exists code, statusCode e = Some code /\ In code STATUS_CODES.
Proof.
  intros He. destruct He; eexists; (split; [reflexivity|]); simpl; tauto.
Qed.

(** ** Stock labels *)

Lemma stockStatus_sites_agree (f : Product -> string) (p : Product) :
  In f stockStatusSites ->
  f p = ProductController.transformProductResponse_stockStatus p.
Proof.
  intros [<- | [<- | [<- | []]]]; reflexivity.
Qed.

Lemma transformProductResponse_stockStatus_cases (p : Product) :
  (ProductController.transformProductResponse_stockStatus p = OUT_OF_STOCK
   <-> p_stockQuantity p = 0)
  /\ (ProductController.transformProductResponse_stockStatus p = LOW_STOCK
      <-> p_stockQuantity p <> 0
          /\ p_stockQuantity p <= p_lowStockThreshold p)
  /\ (ProductController.transformProductResponse_stockStatus p = IN_STOCK
      <-> p_stockQuantity p <> 0
          /\ p_lowStockThreshold p < p_stockQuantity p).
Proof.
  unfold ProductController.transformProductResponse_stockStatus.
  destruct (Z.eqb_spec (p_stockQuantity p) 0) as [H0|H0];
    [|destruct (Z.leb_spec (p_stockQuantity p) (p_lowStockThreshold p))
        as [Hl|Hl]];
    repeat split; intros; try discriminate; try lia; try tauto;
    try reflexivity.
Qed.

(** ** Stock stays at zero or more while quantities do *)

Lemma join_filter_NoDup (ps : gmap Z Product) (userId : Z)
    (cs : list CartItem) :
  NoDup (map (fun ci => (ci_userId ci, ci_productId ci)) cs) ->
  NoDup (map (fun item : CartItem * Product => ci_productId item.1)
             (omap (fun ci => p ← ps !! ci_productId ci; Some (ci, p))
                   (List.filter (fun ci => ci_userId ci =? userId) cs))).
Proof.
  induction cs as [|c cs IH]; intros Hnd; [constructor|].
  cbn [map] in Hnd. apply NoDup_cons in Hnd as [Hnotin Hnd].
  rewrite list_elem_of_In in Hnotin.
  cbn [List.filter]. destruct (Z.eqb_spec (ci_userId c) userId) as [Hu|Hu];
    [|exact (IH Hnd)].
  cbn [omap list_omap]. destruct (ps !! ci_productId c) as [p|]; simpl;
    [|exact (IH Hnd)].
  apply NoDup_cons. rewrite list_elem_of_In. split; [|exact (IH Hnd)].
  intros Hin. apply in_map_iff in Hin as (item & Hpid & Hitem).
  apply join_filter_In in Hitem as (_ & Hincs & Huser).
  apply Hnotin. apply in_map_iff. exists item.1. split; [|exact Hincs].
  congruence.
Qed.

Lemma cartOf_NoDup (d : DB) (userId : Z) :
  cartKeysUnique d ->
  NoDup (map (fun item : CartItem * Product => ci_productId item.1)
             (cartOf d userId)).
Proof. apply join_filter_NoDup. Qed.

Lemma cartQuantity_absent items k :
  ~ In k (map (fun item : CartItem * Product => ci_productId item.1) items) ->
  cartQuantity items k = 0.
Proof.
  induction items as [|item items IH]; intros H; [reflexivity|].
  rewrite cartQuantity_cons.
  destruct (Z.eqb_spec (ci_productId item.1) k) as [Heq|_].
  - exfalso. apply H. left. exact Heq.
  - apply IH. intros Hin. apply H. right. exact Hin.
Qed.

Lemma cartQuantity_bound items k bound :
  NoDup (map (fun item : CartItem * Product => ci_productId item.1) items) ->
  0 <= bound ->
  (forall item, In item items -> ci_productId item.1 = k ->
                ci_quantity item.1 <= bound) ->
  cartQuantity items k <= bound.
Proof.
  induction items as [|item items IH]; intros Hnd Hb Hq;
    [exact Hb|].
  cbn [map] in Hnd. apply NoDup_cons in Hnd as [Hnotin Hnd].
  rewrite list_elem_of_In in Hnotin.
  rewrite cartQuantity_cons.
  destruct (Z.eqb_spec (ci_productId item.1) k) as [Heq|_].
  - rewrite cartQuantity_absent by (rewrite <- Heq; exact Hnotin).
    rewrite Z.add_0_r. apply Hq; [left; reflexivity | exact Heq].
  - apply IH; [exact Hnd | exact Hb |].
    intros it Hin. apply Hq. right. exact Hin.
Qed.

Lemma orderedQuantity_nonneg items k :
  (forall item, In item items -> 0 <= oi_quantity item) ->
  0 <= orderedQuantity items k.
Proof.
  induction items as [|item items IH]; intros H; [reflexivity|].
  rewrite orderedQuantity_cons.
  assert (0 <= orderedQuantity items k).
  { apply IH. intros it Hin. apply H. right. exact Hin. }
  pose proof (H item (or_introl eq_refl)).
  destruct (oi_productId item =? k); lia.
Qed.

Lemma itemAccepted_quantity item :
  itemAccepted item = true -> ci_quantity item.1 <= p_stockQuantity item.2.
Proof.
  unfold itemAccepted. intros [_ H]%andb_true_iff.
  apply negb_true_iff, Z.ltb_ge in H. exact H.
Qed.

Lemma filter_keys_NoDup (f : CartItem -> bool) (cs : list CartItem) :
  NoDup (map (fun ci => (ci_userId ci, ci_productId ci)) cs) ->
  NoDup (map (fun ci => (ci_userId ci, ci_productId ci)) (List.filter f cs)).
Proof.
  induction cs as [|c cs IH]; intros Hnd; [constructor|].
  cbn [map] in Hnd. apply NoDup_cons in Hnd as [Hnotin Hnd].
  rewrite list_elem_of_In in Hnotin.
  cbn [List.filter]. destruct (f c); [|exact (IH Hnd)].
  cbn [map]. apply NoDup_cons. rewrite list_elem_of_In.
  split; [|exact (IH Hnd)].
  intros Hin. apply Hnotin. apply in_map_iff in Hin as (c' & Hk & Hc').
  apply filter_In in Hc' as [Hc' _]. apply in_map_iff. eauto.
Qed.

Lemma checkoutDb_invariant (d : DB) (userId : Z) (o : Order) :
  shopInvariant d ->
  cartAccepted (cartOf d userId) = true ->
  shopInvariant (checkoutDb d userId o).
Proof.
  intros (Hstock & Hkeys & Hcart & Horders) Hacc.
  apply andb_true_iff in Hacc as [_ Hacc].
  rewrite forallb_forall in Hacc.
  split; [|split; [|split]].
  - intros k p'. unfold checkoutDb. cbn [products].
    rewrite decrementAll_lookup.
    destruct (products d !! k) as [p|] eqn:Hp; [|discriminate].
    intros [= <-]. cbn [p_stockQuantity set_stockQuantity].
    pose proof (Hstock k p Hp) as Hp0. simpl in Hp0.
    assert (cartQuantity (cartOf d userId) k <= p_stockQuantity p);
      [|lia].
    apply cartQuantity_bound; [apply cartOf_NoDup, Hkeys | exact Hp0 |].
    intros item Hin Hk. pose proof (Hacc item Hin) as Hq.
    apply itemAccepted_quantity in Hq.
    apply cartOf_product in Hin as (Hl & _ & _).
    rewrite Hk, Hp in Hl. injection Hl as Hl. rewrite Hl. exact Hq.
  - apply filter_keys_NoDup. exact Hkeys.
  - intros ci Hin. unfold checkoutDb in Hin. cbn [cartItems] in Hin.
    apply filter_In in Hin as [Hin _]. exact (Hcart ci Hin).
  - intros item Hin. unfold checkoutDb in Hin. cbn [orderItems] in Hin.
    apply in_app_or in Hin as [Hin|Hin]; [exact (Horders item Hin)|].
    apply in_map_iff in Hin as (ci & <- & Hci). cbn [oi_quantity orderItemOf].
    apply cartOf_product in Hci as (_ & Hci & _). exact (Hcart _ Hci).
Qed.

Lemma cancelDb_invariant (d : DB) (orderId : Z) (o : Order) adminNote :
  shopInvariant d -> shopInvariant (cancelDb d orderId o adminNote).
Proof.
  intros (Hstock & Hkeys & Hcart & Horders).
  split; [|split; [exact Hkeys | split; [exact Hcart | exact Horders]]].
  intros k p'. unfold cancelDb. cbn [products].
  rewrite incrementAll_lookup.
  destruct (products d !! k) as [p|] eqn:Hp; [|discriminate].
  intros [= <-]. cbn [p_stockQuantity set_stockQuantity].
  pose proof (Hstock k p Hp) as Hp0. simpl in Hp0.
  assert (0 <= orderedQuantity (itemsOf d orderId) k); [|lia].
  apply orderedQuantity_nonneg. intros item Hin.
  apply filter_In in Hin as [Hin _]. exact (Horders item Hin).
Qed.

Lemma serve_invariant (op : Operation) (st : St) :
  shopInvariant (st_db st) -> shopInvariant (st_db (serve op st)).
Proof.
  intros Hinv. destruct op as [now userId body | orderId adminNote];
    cbn [serve].
  - destruct (checkout now userId body st) as [[view|e] st'] eqn:Hrun;
      cbn [snd].
    + apply checkout_view in Hrun
        as (si & v & _ & _ & _ & _ & _ & _ & Hcart & ->).
      apply checkoutDb_invariant; assumption.
    + rewrite (checkout_atomic _ _ _ _ _ _ Hrun). exact Hinv.
  - destruct (updateOrderStatus orderId (cancelRequest adminNote) st)
      as [res st'] eqn:Hrun; cbn [snd].
    apply cancel_outcomes in Hrun as [[-> _] | (o & _ & _ & -> & _)];
      [exact Hinv | apply cancelDb_invariant; exact Hinv].
Qed.

(** Over tables whose cart rows and order items have quantities of zero
    or more, and whose carts name a product once per user, no sequence of
    checkouts and cancellations served one at a time takes a stock below
    zero. *)
Lemma serveInTurn_stockNonNegative (ops : list Operation) (st : St) :
  shopInvariant (st_db st) -> stockNonNegative (st_db (serveInTurn ops st)).
Proof.
  intros Hinv. assert (H : shopInvariant (st_db (serveInTurn ops st)));
    [|apply H].
  revert st Hinv. induction ops as [|op ops IH]; intros st Hinv;
    [exact Hinv|].
  cbn [serveInTurn fold_left]. apply IH, serve_invariant, Hinv.
Qed.

(** ** The validated cart endpoints keep the invariant *)

Lemma bind_inv {A B} (m : M A) (k : A -> M B) st r st' :
  (m ≫= k) st = (r, st') ->
  (exists e, m st = (Err e, st') /\ r = Err e)
  \/ exists a st1, m st = (Ok a, st1) /\ k a st1 = (r, st').
Proof.
  rewrite bind_unfold. destruct (m st) as [[a|e] st1]; intros H.
  - right. exists a, st1. split; [reflexivity | exact H].
  - left. injection H as <- <-. exists e. split; reflexivity.
Qed.

Lemma keeps_readOnly (P : DB -> Prop) {A} (m : M A) : readOnly m -> keeps P m.
Proof. intros Hm st r st' HP H. rewrite (Hm _ _ _ H). exact HP. Qed.

Lemma keeps_guard (P : DB -> Prop) {A} (c : bool) (e : JsError) (k : M A) :
  (c = false -> keeps P k) -> keeps P (throwIf c e;; k).
Proof.
  intros Hk st r st' HP H.
  apply bind_inv in H as [(e' & H & _) | (u & st1 & H1 & H)].
  - rewrite (readOnly_throwIf _ _ _ _ _ H). exact HP.
  - apply throwIf_Ok_inv in H1 as [Hc ->]. exact (Hk Hc _ _ _ HP H).
Qed.

Lemma keeps_query_bind (P : DB -> Prop) {A B} (f : DB -> A) (k : A -> M B) :
  (forall st, P (st_db st) -> keeps P (k (f (st_db st)))
              \/ forall r st', k (f (st_db st)) st = (r, st') -> P (st_db st')) ->
  keeps P (query f ≫= k).
Proof.
  intros Hk st r st' HP H.
  apply bind_inv in H as [(e' & H & _) | (a & st1 & H1 & H)].
  - rewrite (readOnly_query _ _ _ _ H). exact HP.
  - apply query_Ok_inv in H1 as [-> D1].
    assert (HP1 : P (st_db st1)) by (rewrite D1; exact HP).
    rewrite <- D1 in H.
    destruct (Hk st1 HP1) as [Hkeep | Hrun].
    + exact (Hkeep _ _ _ HP1 H).
    + exact (Hrun _ _ H).
Qed.

Lemma keeps_throw (P : DB -> Prop) {A} (e : JsError) : keeps P (@throw A e).
Proof. apply keeps_readOnly, readOnly_throw. Qed.

Lemma cartItem_update_invariant (id quantity : Z) :
  0 <= quantity -> keeps shopInvariant (cartItem_update id quantity).
Proof.
  intros Hq st r st' (Hstock & Hkeys & Hcart & Horders) H.
  unfold cartItem_update, stmt in H.
  assert (Hcase : st_db st' = st_db st
                  \/ st_db st'
                     = set_cartItems
                         (map (fun c => if ci_id c =? id
                                        then set_quantity quantity c else c))
                         (st_db st)).
  { destruct (st_budget st) as [[|n]|];
      [injection H as _ <-; left; reflexivity | |];
      destruct (List.find _ (cartItems (st_db st)));
      injection H as _ <-; auto. }
  destruct Hcase as [-> | ->]; [repeat split; assumption|].
  split; [exact Hstock|]. split; [|split; [|exact Horders]].
  - unfold cartKeysUnique in *. cbn [cartItems set_cartItems].
    rewrite map_map.
    erewrite map_ext; [exact Hkeys|].
    intros c. destruct (ci_id c =? id); reflexivity.
  - intros ci Hin. cbn [cartItems set_cartItems] in Hin.
    apply in_map_iff in Hin as (c & <- & Hc).
    destruct (ci_id c =? id); [exact Hq | exact (Hcart c Hc)].
Qed.

Lemma cartItem_create_invariant (userId productId quantity : Z) :
  0 <= quantity ->
  keeps shopInvariant (cartItem_create userId productId quantity).
Proof.
  intros Hq st r st' (Hstock & Hkeys & Hcart & Horders) H.
  unfold cartItem_create, stmt in H.
  destruct (existsb _ (cartItems (st_db st))) eqn:Hex.
  { assert (st_db st' = st_db st) as ->.
    { destruct (st_budget st) as [[|n]|]; injection H as _ <-; reflexivity. }
    repeat split; assumption. }
  assert (Hcase : st_db st' = st_db st
                  \/ st_db st'
                     = set_nextCartItemId (nextCartItemId (st_db st) + 1)
                         (set_cartItems
                            (fun cs =>
                               cs ++ [mkCartItem (nextCartItemId (st_db st))
                                        userId productId quantity])
                            (st_db st))).
  { destruct (st_budget st) as [[|n]|]; injection H as _ <-; auto. }
  destruct Hcase as [-> | ->]; [repeat split; assumption|].
  split; [exact Hstock|]. split; [|split; [|exact Horders]].
  - unfold cartKeysUnique in *. cbn [cartItems set_cartItems set_nextCartItemId].
    rewrite map_app. cbn [map ci_userId ci_productId].
    apply NoDup_app. split; [exact Hkeys|]. split; [|apply NoDup_singleton].
    intros key Hin Hnew. apply list_elem_of_In in Hin, Hnew.
    destruct Hnew as [<-|[]].
    apply in_map_iff in Hin as (c & Hk & Hc). injection Hk as Hu Hp.
    assert (Hfalse : existsb
              (fun ci => (ci_userId ci =? userId)
                         && (ci_productId ci =? productId))
              (cartItems (st_db st)) = true).
    { apply existsb_exists. exists c. split; [exact Hc|].
      rewrite Hu, Hp, !Z.eqb_refl. reflexivity. }
    congruence.
  - intros ci Hin. cbn [cartItems set_cartItems set_nextCartItemId] in Hin.
    apply in_app_or in Hin as [Hin | [<- | []]];
      [exact (Hcart ci Hin) | exact Hq].
Qed.

Lemma find_In {A} (f : A -> bool) (xs : list A) (x : A) :
  List.find f xs = Some x -> In x xs.
Proof. intros H. apply find_some in H as [H _]. exact H. Qed.

Lemma addToCart_invariant userId body :
  keeps shopInvariant (CartController.addToCart userId body).
Proof.
  unfold CartController.addToCart. cbv zeta.
  apply keeps_guard. intros _. apply keeps_guard. intros Hq.
  apply Z.ltb_ge in Hq.
  unfold product_findUnique. apply keeps_query_bind. intros st Hinv. left.
  destruct (products (st_db st) !! _) as [product|]; [|apply keeps_throw].
  apply keeps_guard. intros _. apply keeps_guard. intros _.
  unfold cartItem_findUnique. apply keeps_query_bind. intros st1 Hinv1.
  destruct (List.find _ (cartItems (st_db st1))) as [existing|] eqn:Hfind.
  - left. apply keeps_guard. intros _. apply cartItem_update_invariant.
    apply find_In in Hfind. destruct Hinv1 as (_ & _ & Hcart & _).
    pose proof (Hcart existing Hfind). lia.
  - left. apply cartItem_create_invariant. lia.
Qed.

Lemma updateCartItem_invariant userId cartItemId quantity :
  keeps shopInvariant
        (CartController.updateCartItem userId cartItemId quantity).
Proof.
  unfold CartController.updateCartItem. cbv zeta.
  apply keeps_guard. intros Hq. apply orb_false_iff in Hq as [_ Hq].
  apply Z.ltb_ge in Hq.
  unfold cartItem_findUnique_withProduct. apply keeps_query_bind.
  intros st Hinv. left.
  match goal with
  | |- keeps _ (match ?x with _ => _ end) =>
      destruct x as [[cartItem product]|]; [|apply keeps_throw]
  end.
  apply keeps_guard. intros _. apply keeps_guard. intros _.
  apply cartItem_update_invariant. lia.
Qed.

(** [moveToCart] does not: it writes the quantity it is given. *)
Lemma moveToCart_breaks_invariant :
  shopInvariant Oversell.shelf
  /\ ~ keeps shopInvariant (WishlistController.moveToCart 300 1 (Some (-5))).
Proof.
  assert (Hinv : shopInvariant Oversell.shelf).
  { split; [|split; [|split]].
    - apply map_Forall_to_list. vm_compute. repeat constructor. discriminate.
    - constructor.
    - intros ci [].
    - intros item []. }
  split; [exact Hinv|]. intros Hkeeps.
  assert (Hrun : exists r st',
             WishlistController.moveToCart 300 1 (Some (-5))
               (mkSt Oversell.shelf None) = (r, st')
             /\ In (mkCartItem 1 300 1 (-5)) (cartItems (st_db st'))).
  { vm_compute. eexists _, _. split; [reflexivity | left; reflexivity]. }
  destruct Hrun as (r & st' & Hrun & Hin).
  destruct (Hkeeps (mkSt Oversell.shelf None) _ _ Hinv Hrun)
    as (_ & _ & Hcart & _).
  specialize (Hcart _ Hin). simpl in Hcart. lia.
Qed.

End CheckoutAndCancellation.
Section CartsAndWishlists.

Context {JS : JsStrings}.


(** ** Outcomes of the building blocks *)

Lemma throwIf_inv (c : bool) (e : JsError) st r st' :
  throwIf c e st = (r, st') ->
  st' = st /\ ((c = true /\ r = Err e) \/ (c = false /\ r = Ok tt)).
Proof.
  unfold throwIf. destruct c; intros H; injection H as <- <-; auto.
Qed.

Lemma stmt_inv {A} (f : DB -> Result (A * DB)) st r st' :
  stmt f st = (r, st') ->
  (st_budget st = Some O /\ r = Err databaseUnavailable /\ st' = st)
  \/ (st_budget st <> Some O
      /\ match f (st_db st) with
         | Ok (a, d') => r = Ok a /\ st_db st' = d'
         | Err e => r = Err e /\ st_db st' = st_db st
         end).
Proof.
  unfold stmt. destruct (st_budget st) as [[|n]|] eqn:Hb.
  - intros H. injection H as <- <-. left. auto.
  - intros H. right. split; [discriminate|].
    destruct (f (st_db st)) as [[a d']|e]; injection H as <- <-; auto.
  - intros H. right. split; [discriminate|].
    destruct (f (st_db st)) as [[a d']|e]; injection H as <- <-; auto.
Qed.

Lemma query_inv {A} (f : DB -> A) st r st' :
  query f st = (r, st') ->
  st_db st' = st_db st
  /\ (r = Err databaseUnavailable \/ r = Ok (f (st_db st))).
Proof.
  unfold query. intros H. apply stmt_inv in H as [(_ & -> & ->) | (_ & -> & ->)];
    auto.
Qed.

Lemma throwIf_true (e : JsError) st : throwIf true e st = (Err e, st).
Proof. reflexivity. Qed.

Lemma throwIf_false (e : JsError) st : throwIf false e st = (Ok tt, st).
Proof. reflexivity. Qed.

Lemma bind_Ok_run {A B} (m : M A) (k : A -> M B) st a st1 :
  m st = (Ok a, st1) -> (m ≫= k) st = k a st1.
Proof. intros H. rewrite bind_unfold, H. reflexivity. Qed.

Lemma bind_Err_run {A B} (m : M A) (k : A -> M B) st e st1 :
  m st = (Err e, st1) -> (m ≫= k) st = (Err e, st1).
Proof. intros H. rewrite bind_unfold, H. reflexivity. Qed.

(** One step of a handler run apart: the first computation raised, or it
    answered and the run goes on. *)
Ltac run_step H :=
  let e := fresh "e" in
  let a := fresh "a" in
  let st1 := fresh "st1" in
  let H1 := fresh "H1" in
  apply bind_inv in H as [(e & H & ->) | (a & st1 & H1 & H)].

(** ** Status updates that are not cancellations *)

Lemma order_update_inv id s note st r st' :
  order_update id s note st = (r, st') ->
  (st_db st' = st_db st /\ exists e, r = Err e)
  \/ (r = Ok tt
      /\ is_Some (orders (st_db st) !! id)
      /\ st_db st' = set_orders (alter (set_status s note) id) (st_db st)).
Proof.
  unfold order_update. intros H.
  apply stmt_inv in H as [(_ & -> & ->) | (_ & H)]; [left; eauto|].
  destruct (orders (st_db st) !! id) as [o|] eqn:Ho.
  - destruct H as [-> ->]. right. eauto.
  - destruct H as [-> ->]. left. eauto.
Qed.

Lemma status_update_outcomes orderId body st r st' :
  status body <> CANCELLED ->
  updateOrderStatus orderId body st = (r, st') ->
  (st_db st' = st_db st /\ exists e, r = Err e)
  \/ exists o,
       orders (st_db st) !! orderId = Some o
       /\ arrayIncludes validStatuses (status body) = true
       /\ st_db st'
          = set_orders
              (alter (set_status (status body)
                        (orElse (adminNote body) (o_adminNote o))) orderId)
              (st_db st)
       /\ (forall view, r = Ok view -> view = orderView (st_db st') orderId).
Proof.
  intros Hs H. apply CANCELLED_eqb_false in Hs.
  unfold updateOrderStatus in H. cbv zeta in H.
  run_step H.
  { apply throwIf_inv in H as [-> _]. left. eauto. }
  apply throwIf_inv in H1 as [-> _].
  run_step H.
  { apply throwIf_inv in H as [-> _]. left. eauto. }
  apply throwIf_inv in H1 as [-> [[_ [=]] | [Hvalid _]]].
  apply negb_false_iff in Hvalid.
  run_step H.
  { apply query_inv in H as [-> _]. left. eauto. }
  apply query_inv in H1 as [D1 [[=] | [= ->]]].
  destruct (orders (st_db st) !! orderId) as [o|] eqn:Ho; cbn in H.
  2:{ injection H as <- <-. left. eauto. }
  rewrite Hs, andb_false_r in H. cbn [andb] in H.
  run_step H.
  { apply throwIf_inv in H as [-> _]. left. eauto. }
  apply throwIf_inv in H1 as [-> _].
  run_step H.
  { apply order_update_inv in H as [[-> _] | ([=] & _)]. left. eauto. }
  apply order_update_inv in H1 as [(_ & e & [=]) | (_ & _ & Hdb)].
  rewrite D1 in Hdb.
  right. exists o. split; [reflexivity|]. split; [exact Hvalid|].
  apply query_inv in H as [-> Hr]. split; [exact Hdb|].
  intros view ->. destruct Hr as [[=] | [= ->]]. rewrite Hdb. reflexivity.
Qed.

Lemma status_update_unlimited orderId body o (d : DB) :
  orders d !! orderId = Some o ->
  arrayIncludes validStatuses (status body) = true ->
  status body <> CANCELLED ->
  let d' := set_orders
              (alter (set_status (status body)
                        (orElse (adminNote body) (o_adminNote o))) orderId) d in
  updateOrderStatus orderId body (mkSt d None)
  = (Ok (orderView d' orderId), mkSt d' None).
Proof.
  intros Ho Hvalid Hs d'. apply CANCELLED_eqb_false in Hs.
  unfold updateOrderStatus. cbv zeta.
  assert (Hne : nonEmpty (status body) = true).
  { destruct (status body); [discriminate Hvalid | reflexivity]. }
  rewrite Hne, Hvalid. cbn [negb].
  rewrite (bind_Ok_run _ _ _ _ _ (throwIf_false _ _)).
  rewrite (bind_Ok_run _ _ _ _ _ (throwIf_false _ _)).
  unfold order_findUnique.
  rewrite (bind_Ok_run _ _ _ _ _ (query_unlimited _ _)).
  rewrite Ho. cbn [mbind option_bind].
  rewrite Hs, andb_false_r. cbn [andb].
  rewrite (bind_Ok_run _ _ _ _ _ (throwIf_false _ _)).
  unfold order_update at 1.
  rewrite bind_unfold, stmt_unlimited, Ho.
  unfold order_findUnique_full. rewrite query_unlimited. reflexivity.
Qed.

(** The items of an order do not depend on the order rows or on stock. *)
Lemma itemsOf_ext (d d' : DB) (orderId : Z) :
  orderItems d' = orderItems d -> itemsOf d' orderId = itemsOf d orderId.
Proof. unfold itemsOf. intros ->. reflexivity. Qed.

Lemma incrementAll_twice items (ps : gmap Z Product) (k : Z) :
  incrementAll items (incrementAll items ps) !! k
  = set_stockQuantity (fun s => s + 2 * orderedQuantity items k) <$> ps !! k.
Proof.
  rewrite !incrementAll_lookup. destruct (ps !! k) as [p|]; [|reflexivity].
  cbn. f_equal. rewrite set_stockQuantity_compose.
  apply set_stockQuantity_ext. intros s. lia.
Qed.

Lemma incrementAll_is_Some items (ps : gmap Z Product) (k : Z) :
  is_Some (incrementAll items ps !! k) <-> is_Some (ps !! k).
Proof. rewrite incrementAll_lookup. apply fmap_is_Some. Qed.

Lemma cancelDb_order (d : DB) orderId o note :
  orders d !! orderId = Some o ->
  orders (cancelDb d orderId o note) !! orderId
  = Some (set_status CANCELLED (orElse note (o_adminNote o)) o).
Proof. intros Ho. cbn. rewrite lookup_alter_eq, Ho. reflexivity. Qed.

Lemma alter_usedCount_twice (ds : gmap Z Discount) (id : Z) :
  d_usedCount
    <$> alter (set_usedCount (fun n => n - 1)) id
          (alter (set_usedCount (fun n => n - 1)) id ds) !! id
  = (fun n => n - 2) <$> (d_usedCount <$> ds !! id).
Proof.
  rewrite !lookup_alter_eq. destruct (ds !! id) as [r|]; [|reflexivity].
  cbn. f_equal. lia.
Qed.

(** The three runs of [cancelReopenCancel] with a database that always
    answers. *)
Lemma cancelReopenCancel_unlimited orderId status o (d : DB) :
  orders d !! orderId = Some o ->
  o_status o <> CANCELLED ->
  arrayIncludes validStatuses status = true ->
  status <> CANCELLED ->
  (forall item, In item (itemsOf d orderId) ->
                is_Some (products d !! oi_productId item)) ->
  (truthyInt (o_discountId o) = true ->
   is_Some (discounts d !! default 0 (o_discountId o))) ->
  exists view d3,
    cancelReopenCancel orderId status (mkSt d None) = (Ok view, mkSt d3 None)
    /\ products d3
       = incrementAll (itemsOf d orderId)
           (incrementAll (itemsOf d orderId) (products d))
    /\ discounts d3
       = (if truthyInt (o_discountId o)
          then alter (set_usedCount (fun n => n - 1))
                 (default 0 (o_discountId o))
                 (alter (set_usedCount (fun n => n - 1))
                    (default 0 (o_discountId o)) (discounts d))
          else discounts d)
    /\ (o_status <$> orders d3 !! orderId) = Some CANCELLED.
Proof.
  intros Ho Hs Hvalid Hne Hp Hd. unfold cancelReopenCancel.
  rewrite (bind_Ok_run _ _ _ _ _ (cancel_unlimited _ None _ _ Ho Hs Hp Hd)).
  set (d1 := cancelDb d orderId o None).
  pose proof (cancelDb_order d orderId o None Ho) as Ho1. fold d1 in Ho1.
  set (o1 := set_status CANCELLED (orElse None (o_adminNote o)) o) in Ho1.
  rewrite (bind_Ok_run _ _ _ _ _
             (status_update_unlimited orderId (statusRequest status None)
                o1 d1 Ho1 Hvalid Hne)).
  cbn [OrderController.status OrderController.adminNote statusRequest].
  set (o2 := set_status status (orElse None (o_adminNote o1)) o1).
  set (d2 := set_orders (alter (set_status status (orElse None (o_adminNote o1)))
                           orderId) d1).
  assert (Ho2 : orders d2 !! orderId = Some o2).
  { unfold d2. cbn [orders set_orders]. rewrite lookup_alter_eq, Ho1.
    reflexivity. }
  assert (Hitems : itemsOf d2 orderId = itemsOf d orderId) by reflexivity.
  assert (Hs2 : o_status o2 <> CANCELLED) by exact Hne.
  assert (Hp2 : forall item, In item (itemsOf d2 orderId) ->
                             is_Some (products d2 !! oi_productId item)).
  { intros item Hin. rewrite Hitems in Hin.
    change (products d2) with (incrementAll (itemsOf d orderId) (products d)).
    apply incrementAll_is_Some, Hp, Hin. }
  assert (Hd2 : truthyInt (o_discountId o2) = true ->
                is_Some (discounts d2 !! default 0 (o_discountId o2))).
  { change (o_discountId o2) with (o_discountId o). intros Ht.
    change (discounts d2)
      with (if truthyInt (o_discountId o)
            then alter (set_usedCount (fun n => n - 1))
                   (default 0 (o_discountId o)) (discounts d)
            else discounts d).
    rewrite Ht. rewrite lookup_alter_eq. apply fmap_is_Some, Hd, Ht. }
  rewrite (cancel_unlimited _ None _ _ Ho2 Hs2 Hp2 Hd2).
  eexists _, _. split; [reflexivity|]. split; [|split].
  - cbn [cancelDb products]. rewrite Hitems. reflexivity.
  - cbn [cancelDb discounts].
    change (o_discountId o2) with (o_discountId o).
    change (discounts d2)
      with (if truthyInt (o_discountId o)
            then alter (set_usedCount (fun n => n - 1))
                   (default 0 (o_discountId o)) (discounts d)
            else discounts d).
    destruct (truthyInt (o_discountId o)); reflexivity.
  - rewrite (cancelDb_order d2 orderId o2 None Ho2). reflexivity.
Qed.

(** ** Requests that [updateOrderStatus] refuses *)

Lemma cancel_of_cancelled orderId adminNote o st r st' :
  orders (st_db st) !! orderId = Some o ->
  o_status o = CANCELLED ->
  updateOrderStatus orderId (cancelRequest adminNote) st = (r, st') ->
  st_db st' = st_db st
  /\ (r = Err (BadRequestError (Some "Order is already cancelled") None)
      \/ r = Err databaseUnavailable).
Proof.
  intros Ho Hs. rewrite updateOrderStatus_cancel_unfold. intros H.
  run_step H.
  { apply query_inv in H as [-> [[= ->] | [=]]]. auto. }
  apply query_inv in H1 as [D1 [[=] | [= ->]]].
  rewrite Ho in H. cbn [mbind option_bind] in H. rewrite Hs in H.
  change (String.eqb CANCELLED CANCELLED) with true in H.
  rewrite (bind_Err_run _ _ _ _ _ (throwIf_true _ _)) in H.
  injection H as <- <-. auto.
Qed.

Lemma updateOrderStatus_invalid orderId body st :
  arrayIncludes validStatuses (status body) = false ->
  exists msg,
    updateOrderStatus orderId body st
    = (Err (BadRequestError (Some msg) None), st).
Proof.
  intros Hinv. unfold updateOrderStatus. cbv zeta.
  destruct (nonEmpty (status body)) eqn:Hne; cbn [negb].
  - rewrite (bind_Ok_run _ _ _ _ _ (throwIf_false _ _)).
    rewrite Hinv. cbn [negb].
    rewrite (bind_Err_run _ _ _ _ _ (throwIf_true _ _)). eauto.
  - rewrite (bind_Err_run _ _ _ _ _ (throwIf_true _ _)). eauto.
Qed.

Lemma updateOrderStatus_unknown orderId body (d : DB) :
  arrayIncludes validStatuses (status body) = true ->
  orders d !! orderId = None ->
  updateOrderStatus orderId body (mkSt d None)
  = (Err (NotFoundError (Some "Order not found")), mkSt d None).
Proof.
  intros Hvalid Ho. unfold updateOrderStatus. cbv zeta.
  assert (Hne : nonEmpty (status body) = true).
  { destruct (status body); [discriminate Hvalid | reflexivity]. }
  rewrite Hne, Hvalid. cbn [negb].
  rewrite (bind_Ok_run _ _ _ _ _ (throwIf_false _ _)).
  rewrite (bind_Ok_run _ _ _ _ _ (throwIf_false _ _)).
  unfold order_findUnique.
  rewrite (bind_Ok_run _ _ _ _ _ (query_unlimited _ _)).
  rewrite Ho. reflexivity.
Qed.

(** ** Payment status updates *)

Lemma updatePaymentStatus_outcomes orderId body st r st' :
  updatePaymentStatus orderId body st = (r, st') ->
  (st_db st' = st_db st /\ exists e, r = Err e)
  \/ exists o,
       let o' := set_paymentStatus (ups_paymentStatus body)
                   (orElse (ups_adminNote body) (o_adminNote o)) o in
       orders (st_db st) !! orderId = Some o
       /\ In (ups_paymentStatus body) [ "pending"; "paid"; "failed" ]
       /\ st_db st' = set_orders (<[orderId := o']>) (st_db st)
       /\ r = Ok (o', itemsOf (st_db st) orderId).
Proof.
  intros H. unfold updatePaymentStatus in H. cbv zeta in H.
  run_step H.
  { apply throwIf_inv in H as [-> _]. left. eauto. }
  apply throwIf_inv in H1 as [-> _].
  run_step H.
  { apply throwIf_inv in H as [-> _]. left. eauto. }
  apply throwIf_inv in H1 as [-> [[_ [=]] | [Hvalid _]]].
  apply negb_false_iff in Hvalid.
  run_step H.
  { apply query_inv in H as [-> _]. left. eauto. }
  apply query_inv in H1 as [D1 [[=] | [= ->]]].
  destruct (orders (st_db st) !! orderId) as [o|] eqn:Ho.
  2:{ injection H as <- <-. left. eauto. }
  unfold order_updatePaymentStatus in H.
  apply stmt_inv in H as [(_ & -> & ->) | (_ & H)]; [left; eauto|].
  rewrite D1, Ho in H. destruct H as [-> ->].
  right. exists o. cbv zeta. split; [reflexivity|]. split.
  - unfold arrayIncludes in Hvalid. apply existsb_exists in Hvalid.
    destruct Hvalid as (x & Hin & Heq). apply String.eqb_eq in Heq.
    subst x. exact Hin.
  - split; [|reflexivity]. unfold set_orders. f_equal.
    apply map_eq. intros k. destruct (decide (orderId = k)) as [->|Hne].
    + rewrite lookup_alter_eq, lookup_insert_eq, Ho. reflexivity.
    + rewrite lookup_alter_ne, lookup_insert_ne by exact Hne. reflexivity.
Qed.

(** ** Requests that [checkout] refuses *)

Lemma forEach_validateStock_rejects items st :
  forallb itemAccepted items = false ->
  exists msg,
    forEach items validateStock st
    = (Err (BadRequestError (Some msg) None), st).
Proof.
  induction items as [|item items IH]; cbn [forallb forEach];
    [discriminate|].
  intros H. rewrite bind_unfold. unfold validateStock at 1.
  rewrite bind_unfold. unfold itemAccepted at 1 in H.
  destruct (p_isActive item.2); cbn [negb throwIf]; [|eauto].
  cbn [mret M_ret ret].
  destruct (p_stockQuantity item.2 <? ci_quantity item.1); cbn [throwIf];
    [eauto|].
  cbn [andb negb] in H. cbn [mret M_ret ret]. exact (IH H).
Qed.

Lemma checkout_rejected now userId body (d : DB) :
  requestAccepted body && cartAccepted (cartOf d userId) = false ->
  exists msg,
    checkout now userId body (mkSt d None)
    = (Err (BadRequestError (Some msg) None), mkSt d None).
Proof.
  unfold requestAccepted, cartAccepted, checkout.
  destruct (shippingInfo body) as [si|]; [|intros _; eauto].
  cbv zeta. intros H.
  rewrite bind_unfold.
  destruct (shippingInfoComplete (Some si)); cbn [negb throwIf]; [|eauto].
  cbn [mret M_ret ret]. rewrite bind_unfold.
  destruct (nonEmpty (paymentMethod body)); cbn [negb throwIf]; [|eauto].
  cbn [mret M_ret ret]. rewrite bind_unfold.
  destruct (arrayIncludes PaymentConstants.PAYMENT_METHODS
              (paymentMethod body)); cbn [negb throwIf]; [|eauto].
  cbn [mret M_ret ret]. rewrite bind_unfold.
  destruct (PaymentConstants.requiresTransactionNumber (paymentMethod body)
            && (negb (truthyStr (transactionNumber body))
                || negb (nonEmpty
                           (trim (default EmptyString
                                    (transactionNumber body))))));
    cbn [negb throwIf]; [eauto|].
  cbn [mret M_ret ret]. cbn [andb negb] in H.
  rewrite bind_unfold. unfold cartItem_findMany. rewrite query_unlimited.
  rewrite bind_unfold.
  destruct (Nat.eqb (length (cartOf d userId)) 0); cbn [negb throwIf];
    [eauto|].
  cbn [mret M_ret ret]. cbn [andb negb] in H.
  rewrite bind_unfold.
  destruct (forEach_validateStock_rejects _ (mkSt d None) H) as [msg ->].
  eauto.
Qed.

(** ** What a successful checkout leaves behind *)

Lemma cartOf_after_checkout (d : DB) (userId : Z) (o : Order) :
  cartOf (checkoutDb d userId o) userId = [].
Proof.
  unfold cartOf, checkoutDb. cbn [cartItems products].
  rewrite filter_none; [reflexivity|].
  intros ci Hin. apply filter_In in Hin as [_ Hne].
  apply negb_true_iff in Hne. exact Hne.
Qed.

Lemma requestAccepted_transactionNumber body :
  requestAccepted body = true ->
  In (paymentMethod body) PaymentConstants.PAYMENT_METHODS
  /\ (paymentMethod body <> PaymentConstants.COD ->
      exists t, transactionNumber body = Some t /\ trim t <> EmptyString).
Proof.
  unfold requestAccepted.
  intros H. apply andb_true_iff in H as [H V4].
  apply andb_true_iff in H as [_ V3].
  assert (Hin : In (paymentMethod body) PaymentConstants.PAYMENT_METHODS).
  { unfold arrayIncludes in V3. apply existsb_exists in V3.
    destruct V3 as (x & Hin & Heq). apply String.eqb_eq in Heq.
    subst x. exact Hin. }
  split; [exact Hin|]. intros Hcod.
  assert (Hreq : PaymentConstants.requiresTransactionNumber
                   (paymentMethod body) = true).
  { destruct Hin as [E | [E | [E | [E | []]]]];
      [destruct Hcod; symmetry; exact E | rewrite <- E; reflexivity ..]. }
  rewrite Hreq in V4. cbn [andb] in V4.
  apply negb_true_iff, orb_false_iff in V4 as [T1 T2].
  apply negb_false_iff in T1, T2.
  destruct (transactionNumber body) as [t|]; [|discriminate T1].
  exists t. split; [reflexivity|].
  change (default EmptyString (Some t)) with t in T2.
  intros Hempty. rewrite Hempty in T2. discriminate T2.
Qed.


(** ** The validate endpoint and the discount block of checkout *)

(** [isValid] of checkout, written with the tests of [validateCode]. *)
Lemma isValid_validateCode_tests (now : Z) (subtotal : float) (r : Discount) :
  isNumber subtotal -> minimumIsNumber r ->
  isValid now subtotal r
  = d_isActive r
    && negb ((now <? d_startDate r) || (d_endDate r <? now))
    && negb (truthyInt (d_usageLimit r)
             && (default 0 (d_usageLimit r) <=? d_usedCount r))
    && negb match d_minPurchaseAmount r with
            | Some minPurchaseAmount => numLt subtotal minPurchaseAmount
            | None => false
            end.
Proof.
  intros Hs Hm. unfold isValid.
  rewrite (Z.ltb_antisym (d_startDate r) now).
  rewrite (Z.ltb_antisym now (d_endDate r)).
  rewrite (Z.ltb_antisym (default 0 (d_usageLimit r)) (d_usedCount r)).
  destruct (d_minPurchaseAmount r) as [m|] eqn:E.
  - rewrite (numLt_numGe subtotal m Hs (Hm m E)), negb_involutive.
    destruct (d_isActive r), (d_startDate r <=? now), (now <=? d_endDate r),
      (truthyInt (d_usageLimit r)),
      (default 0 (d_usageLimit r) <=? d_usedCount r);
      cbn [andb orb negb]; try reflexivity;
      destruct (numGe subtotal m); reflexivity.
  - destruct (d_isActive r), (d_startDate r <=? now), (now <=? d_endDate r),
      (truthyInt (d_usageLimit r)),
      (default 0 (d_usageLimit r) <=? d_usedCount r);
      reflexivity.
Qed.

Lemma validateCode_Ok_inv show now body st response st' :
  (forall code id r,
     adr_code body = Some code ->
     discountByCode (st_db st) (toUpperCase code) = Some (id, r) ->
     minimumIsNumber r) ->
  validateCode show now body st = (Ok response, st') ->
  exists code subtotal,
    adr_code body = Some code
    /\ adr_cartSubtotal body = Some subtotal
    /\ nonEmpty code = true
    /\ numGt subtotal 0 = true
    /\ st_db st' = st_db st
    /\ match response with
       | Valid info =>
           exists r,
             discountByCode (st_db st) (toUpperCase code)
             = Some (di_id info, r)
             /\ isValid now subtotal r = true
             /\ info = mkDiscountInfo (di_id info) (d_name r) (d_code r)
                         (d_type r) (d_value r)
                         (roundToCents (discountOf subtotal r))
       | Invalid _ =>
           match discountByCode (st_db st) (toUpperCase code) with
           | Some (_, r) => isValid now subtotal r = false
           | None => True
           end
       end.
Proof.
  unfold validateCode. intros Hnum H.
  apply bind_Ok_inv in H as (? & s1 & H1 & H).
  apply throwIf_Ok_inv in H1 as [V1 ->].
  apply bind_Ok_inv in H as (? & s1 & H1 & H).
  apply throwIf_Ok_inv in H1 as [V2 ->].
  apply bind_Ok_inv in H as (found & s1 & H1 & H).
  apply query_Ok_inv in H1 as [-> D1].
  destruct (adr_code body) as [code|]; [|discriminate].
  destruct (adr_cartSubtotal body) as [subtotal|]; [|discriminate].
  apply negb_false_iff in V1. cbn [truthyStr] in V1.
  change (default 0%float (Some subtotal)) with subtotal in V2.
  apply orb_false_iff in V2 as [V2a%negb_false_iff V2].
  assert (Hpos : numGt subtotal 0 = true)
    by (apply accepted_positive; assumption).
  exists code, subtotal.
  split; [reflexivity|]. split; [reflexivity|]. split; [exact V1|].
  split; [exact Hpos|].
  change (default EmptyString (Some code)) with code in H.
  change (default 0%float (Some subtotal)) with subtotal in H.
  destruct (discountByCode (st_db st) (toUpperCase code)) as [[id r]|] eqn:Hf.
  2:{ apply ret_Ok_inv in H as [-> ->]. split; [exact D1 | exact I]. }
  pose proof (isValid_validateCode_tests now subtotal r
                (numGt_isNumber _ _ Hpos) (Hnum code id r eq_refl Hf)) as Hv.
  destruct (d_isActive r); cbn [negb andb] in H, Hv.
  2:{ apply ret_Ok_inv in H as [-> ->]. split; [exact D1 | exact Hv]. }
  destruct ((now <? d_startDate r) || (d_endDate r <? now));
    cbn [negb andb] in Hv.
  { apply ret_Ok_inv in H as [-> ->]. split; [exact D1 | exact Hv]. }
  destruct (truthyInt (d_usageLimit r)
            && (default 0 (d_usageLimit r) <=? d_usedCount r));
    cbn [negb andb] in Hv.
  { apply ret_Ok_inv in H as [-> ->]. split; [exact D1 | exact Hv]. }
  destruct (match d_minPurchaseAmount r with
            | Some m => numLt subtotal m
            | None => false
            end); cbn [negb andb] in Hv.
  { apply ret_Ok_inv in H as [-> ->]. split; [exact D1 | exact Hv]. }
  apply ret_Ok_inv in H as [-> ->]. split; [exact D1|].
  exists r. cbn [di_id]. split; [reflexivity|]. split; [exact Hv|].
  reflexivity.
Qed.

Lemma applyDiscount_of_plan now subtotal code (d : DB) plan :
  discountPlan d now subtotal code = plan ->
  applyDiscount now subtotal code (mkSt d None) = (Ok plan, mkSt d None).
Proof. intros <-. apply applyDiscount_unlimited. Qed.

Lemma readOnly_validateCode show now body :
  readOnly (validateCode show now body).
Proof.
  unfold validateCode.
  apply readOnly_bind; [apply readOnly_throwIf | intros _].
  apply readOnly_bind; [apply readOnly_throwIf | intros _].
  apply readOnly_bind; [apply readOnly_query | intros [[id r]|]];
    [|apply readOnly_ret].
  repeat match goal with
         | |- readOnly (if ?c then _ else _) =>
             destruct c; [apply readOnly_ret|]
         end.
  apply readOnly_ret.
Qed.

(** ** Order items *)

Lemma addSubtotals_orderItemOf oid (items : list (CartItem * Product)) acc :
  addSubtotals acc (map (orderItemOf oid) items) = addItems acc items.
Proof.
  revert acc. induction items as [|item items IH]; intros acc;
    [reflexivity|].
  cbn [map addSubtotals addItems orderItemOf oi_subtotal]. apply IH.
Qed.

Lemma itemsTotal_orderItemOf oid (items : list (CartItem * Product)) :
  itemsTotal (map (orderItemOf oid) items) = cartTotal items.
Proof. apply addSubtotals_orderItemOf. Qed.

Lemma checkout_items now userId body st v st' :
  foreignKeysHold (st_db st) ->
  checkout now userId body st = (Ok (Some v), st') ->
  ov_id v = nextOrderId (st_db st)
  /\ ov_items v = map (orderItemOf (ov_id v)) (cartOf (st_db st) userId)
  /\ o_subtotal (ov_order v) = cartTotal (cartOf (st_db st) userId).
Proof.
  intros Hfk H.
  pose proof H as Hinv.
  apply checkout_Ok_inv in Hinv as (si & Hsi & _ & _ & Hfresh & Hdb & Hview).
  rewrite Hdb, orderView_checkoutDb in Hview. injection Hview as ->.
  cbn [ov_id ov_items ov_order]. split; [reflexivity|]. split.
  - apply itemsOf_checkoutDb; assumption.
  - unfold plannedOrder, orderData. cbv zeta. cbn [o_subtotal].
    apply subtotalOf_cartTotal.
Qed.

(** ** Discount usage *)

Lemma checkoutDb_usageWithinLimit (d : DB) now userId body si :
  usageWithinLimit d ->
  usageWithinLimit (checkoutDb d userId (plannedOrder d now userId body si)).
Proof.
  intros Hlim id r limit. unfold checkoutDb. cbv zeta. cbn [discounts].
  unfold plannedOrder, orderData. cbv zeta. cbn [o_discountId].
  destruct (discountPlan_cases d now (subtotalOf (cartOf d userId))
              (discountCode body))
    as [(c & did & r0 & _ & Hf & Happ & ->) | ->]; cbn [fst snd].
  2:{ cbn [truthyInt]. apply Hlim. }
  destruct (truthyInt (Some did)); [|apply Hlim].
  change (default 0 (Some did)) with did.
  apply discountByCode_Some in Hf as [Hr0 _].
  destruct (decide (did = id)) as [->|Hne].
  - rewrite lookup_alter_eq, Hr0. intros [= <-].
    cbn [d_usageLimit d_usedCount set_usedCount].
    intros Hl Hnz. destruct Happ as (_ & _ & Huse & _).
    specialize (Huse limit Hl Hnz). lia.
  - rewrite lookup_alter_ne by exact Hne. apply Hlim.
Qed.

Lemma cancelDb_usageWithinLimit (d : DB) orderId o note :
  usageWithinLimit d -> usageWithinLimit (cancelDb d orderId o note).
Proof.
  intros Hlim id r limit. unfold cancelDb. cbn [discounts].
  destruct (truthyInt (o_discountId o)); [|apply Hlim].
  destruct (decide (default 0 (o_discountId o) = id)) as [<-|Hne].
  - rewrite lookup_alter_eq.
    destruct (discounts d !! default 0 (o_discountId o)) as [r0|] eqn:Hr0;
      [|cbn; discriminate].
    intros [= <-]. cbn [d_usageLimit d_usedCount set_usedCount].
    intros Hl Hnz. specialize (Hlim _ _ _ Hr0 Hl Hnz). lia.
  - rewrite lookup_alter_ne by exact Hne. apply Hlim.
Qed.

Lemma serve_usageWithinLimit (op : Operation) (st : St) :
  usageWithinLimit (st_db st) -> usageWithinLimit (st_db (serve op st)).
Proof.
  intros Hlim. destruct op as [now userId body | orderId adminNote];
    cbn [serve].
  - destruct (checkout now userId body st) as [[view|e] st'] eqn:H;
      cbn [snd].
    + apply checkout_Ok_inv in H as (si & _ & _ & _ & _ & -> & _).
      apply checkoutDb_usageWithinLimit, Hlim.
    + rewrite (checkout_atomic _ _ _ _ _ _ H). exact Hlim.
  - destruct (updateOrderStatus orderId (cancelRequest adminNote) st)
      as [res st'] eqn:H; cbn [snd].
    apply cancel_outcomes in H as [[-> _] | (o & _ & _ & -> & _)];
      [exact Hlim|].
    apply cancelDb_usageWithinLimit, Hlim.
Qed.

Lemma serveInTurn_usageWithinLimit (ops : list Operation) (st : St) :
  usageWithinLimit (st_db st) -> usageWithinLimit (st_db (serveInTurn ops st)).
Proof.
  revert st. induction ops as [|op ops IH]; intros st Hlim; [exact Hlim|].
  cbn [serveInTurn fold_left]. apply IH, serve_usageWithinLimit, Hlim.
Qed.

(** ** Cart endpoints *)

Lemma cartItem_update_inv id quantity st r st' :
  cartItem_update id quantity st = (r, st') ->
  (st_db st' = st_db st /\ exists e, r = Err e)
  \/ exists ci,
       cartRowById (st_db st) id = Some ci
       /\ r = Ok (set_quantity quantity ci)
       /\ st_db st'
          = set_cartItems
              (map (fun c => if ci_id c =? id
                             then set_quantity quantity c else c))
              (st_db st).
Proof.
  unfold cartItem_update, cartRowById. intros H.
  apply stmt_inv in H as [(_ & -> & ->) | (_ & H)]; [left; eauto|].
  destruct (List.find _ (cartItems (st_db st))) as [ci|].
  - destruct H as [-> ->]. right. eauto.
  - destruct H as [-> ->]. left. eauto.
Qed.

Lemma cartItem_create_inv userId productId quantity st r st' :
  cartItem_create userId productId quantity st = (r, st') ->
  (st_db st' = st_db st /\ exists e, r = Err e)
  \/ (let ci := mkCartItem (nextCartItemId (st_db st)) userId productId
                           quantity in
      r = Ok ci
      /\ st_db st'
         = set_nextCartItemId (nextCartItemId (st_db st) + 1)
             (set_cartItems (fun cs => cs ++ [ci]) (st_db st))).
Proof.
  unfold cartItem_create. intros H.
  apply stmt_inv in H as [(_ & -> & ->) | (_ & H)]; [left; eauto|].
  destruct (existsb _ (cartItems (st_db st))).
  - destruct H as [-> ->]. left. eauto.
  - destruct H as [-> ->]. right. cbv zeta. eauto.
Qed.

Lemma cartItem_delete_inv id st r st' :
  cartItem_delete id st = (r, st') ->
  (st_db st' = st_db st /\ exists e, r = Err e)
  \/ (r = Ok tt
      /\ st_db st'
         = set_cartItems (List.filter (fun ci => negb (ci_id ci =? id)))
                         (st_db st)).
Proof.
  unfold cartItem_delete. intros H.
  apply stmt_inv in H as [(_ & -> & ->) | (_ & H)]; [left; eauto|].
  destruct (existsb _ (cartItems (st_db st))).
  - destruct H as [-> ->]. right. eauto.
  - destruct H as [-> ->]. left. eauto.
Qed.

Lemma cartItem_deleteMany_inv userId st r st' :
  cartItem_deleteMany userId st = (r, st') ->
  (st_db st' = st_db st /\ r = Err databaseUnavailable)
  \/ (r = Ok tt
      /\ st_db st'
         = set_cartItems
             (List.filter (fun ci => negb (ci_userId ci =? userId)))
             (st_db st)).
Proof.
  unfold cartItem_deleteMany. intros H.
  apply stmt_inv in H as [(_ & -> & ->) | (_ & -> & ->)]; auto.
Qed.

Lemma find_id_Some {A} (f : A -> bool) (xs : list A) (x : A) :
  List.find f xs = Some x -> In x xs /\ f x = true.
Proof. apply find_some. Qed.

Lemma NoDup_map_In_eq {A B} (f : A -> B) (xs : list A) (x y : A) :
  NoDup (map f xs) -> In x xs -> In y xs -> f x = f y -> x = y.
Proof.
  induction xs as [|z xs IH]; [intros _ []|].
  cbn [map]. intros Hnd Hx Hy Hf. apply NoDup_cons in Hnd as [Hz Hnd].
  destruct Hx as [-> | Hx], Hy as [-> | Hy].
  - reflexivity.
  - destruct Hz. rewrite Hf. apply list_elem_of_In, in_map, Hy.
  - destruct Hz. rewrite <- Hf. apply list_elem_of_In, in_map, Hx.
  - exact (IH Hnd Hx Hy Hf).
Qed.

Lemma find_by_id_unique (d : DB) (e c : CartItem) :
  cartIdsUnique d ->
  In e (cartItems d) ->
  cartRowById d (ci_id e) = Some c ->
  c = e.
Proof.
  intros Hnd He Hc. apply find_some in Hc as [Hc Hid].
  apply Z.eqb_eq in Hid.
  exact (NoDup_map_In_eq ci_id _ _ _ Hnd Hc He Hid).
Qed.

(** What [addToCart] answers when it succeeds. *)
Lemma addToCart_Ok_inv userId body st ci st' :
  cartIdsUnique (st_db st) ->
  CartController.addToCart userId body st = (Ok ci, st') ->
  exists productId p,
    CartController.atc_productId body = Some productId
    /\ productId <> 0
    /\ products (st_db st) !! productId = Some p
    /\ p_isActive p = true
    /\ 1 <= default 1 (CartController.atc_quantity body)
    /\ ci_userId ci = userId
    /\ ci_productId ci = productId
    /\ ci_quantity ci
       = quantityInCart (st_db st) userId productId
         + default 1 (CartController.atc_quantity body)
    /\ ci_quantity ci <= p_stockQuantity p
    /\ In ci (cartItems (st_db st')).
Proof.
  unfold CartController.addToCart. cbv zeta. intros Hids H.
  apply bind_Ok_inv in H as (? & s1 & H1 & H).
  apply throwIf_Ok_inv in H1 as [V1 ->]. apply negb_false_iff in V1.
  destruct (CartController.atc_productId body) as [productId|];
    [|discriminate V1].
  cbn [truthyInt] in V1. apply negb_true_iff, Z.eqb_neq in V1.
  change (default 0 (Some productId)) with productId in H.
  apply bind_Ok_inv in H as (? & s1 & H1 & H).
  apply throwIf_Ok_inv in H1 as [V2 ->]. apply Z.ltb_ge in V2.
  apply bind_Ok_inv in H as (found & s1 & H1 & H).
  apply query_Ok_inv in H1 as [-> D1].
  destruct (products (st_db st) !! productId) as [p|] eqn:Hp;
    [|discriminate H].
  apply bind_Ok_inv in H as (? & s2 & H1 & H).
  apply throwIf_Ok_inv in H1 as [V3 ->]. apply negb_false_iff in V3.
  apply bind_Ok_inv in H as (? & s2 & H1 & H).
  apply throwIf_Ok_inv in H1 as [V4 ->]. apply Z.ltb_ge in V4.
  apply bind_Ok_inv in H as (existing & s2 & H1 & H).
  apply query_Ok_inv in H1 as [-> D2].
  exists productId, p. split; [reflexivity|]. split; [exact V1|].
  split; [exact Hp|]. split; [exact V3|]. split; [exact V2|].
  unfold quantityInCart, cartRow. rewrite D1 in H.
  destruct (List.find _ (cartItems (st_db st))) as [e|] eqn:Hfind.
  - apply bind_Ok_inv in H as (? & s3 & H1 & H).
    apply throwIf_Ok_inv in H1 as [V5 ->]. apply Z.ltb_ge in V5.
    apply find_id_Some in Hfind as [Hin Hkey].
    apply andb_true_iff in Hkey as [Hu Hpid].
    apply Z.eqb_eq in Hu, Hpid.
    apply cartItem_update_inv in H
      as [(_ & e' & [=]) | (c & Hc & [= ->] & ->)].
    rewrite D2, D1 in Hc.
    apply (find_by_id_unique _ e c Hids Hin) in Hc. subst c.
    cbn [ci_userId ci_productId ci_quantity set_quantity].
    split; [exact Hu|]. split; [exact Hpid|]. split; [reflexivity|].
    split; [exact V5|].
    cbn [cartItems set_cartItems]. rewrite D2, D1. apply in_map_iff.
    exists e. rewrite Z.eqb_refl. split; [reflexivity | exact Hin].
  - apply cartItem_create_inv in H as [(_ & e' & [=]) | ([= ->] & ->)].
    cbn [ci_userId ci_productId ci_quantity].
    split; [reflexivity|]. split; [reflexivity|]. split; [lia|].
    split; [exact V4|].
    cbn [cartItems set_cartItems set_nextCartItemId].
    apply in_or_app. right. left. reflexivity.
Qed.

Lemma removeFromCart_outcomes userId cartItemId st r st' :
  CartController.removeFromCart userId cartItemId st = (r, st') ->
  (st_db st' = st_db st /\ exists e, r = Err e)
  \/ (r = Ok tt
      /\ (exists ci, cartRowById (st_db st) cartItemId = Some ci
                     /\ ci_userId ci = userId)
      /\ st_db st'
         = set_cartItems
             (List.filter (fun ci => negb (ci_id ci =? cartItemId)))
             (st_db st)).
Proof.
  unfold CartController.removeFromCart, cartItem_findUnique_byId. intros H.
  run_step H.
  { apply query_inv in H as [-> _]. left. eauto. }
  apply query_inv in H1 as [D1 [[=] | [= ->]]].
  run_step H.
  { apply throwIf_inv in H as [-> _]. left. eauto. }
  apply throwIf_inv in H1 as [-> [[_ [=]] | [Hown _]]].
  apply cartItem_delete_inv in H as [[-> He] | [-> ->]]; [left; eauto|].
  right. split; [reflexivity|]. rewrite D1. split; [|reflexivity].
  unfold cartRowById.
  destruct (List.find _ (cartItems (st_db st))) as [ci|]; [|discriminate].
  exists ci. split; [reflexivity|].
  apply negb_false_iff, Z.eqb_eq in Hown. exact Hown.
Qed.

(** A request about a cart row of somebody else. *)
Lemma removeFromCart_foreign userId cartItemId ci st r st' :
  cartRowById (st_db st) cartItemId = Some ci ->
  ci_userId ci <> userId ->
  CartController.removeFromCart userId cartItemId st = (r, st') ->
  st_db st' = st_db st
  /\ (r = Err (NotFoundError (Some "Cart item not found"))
      \/ r = Err databaseUnavailable).
Proof.
  unfold CartController.removeFromCart, cartItem_findUnique_byId, cartRowById.
  intros Hrow Hown H.
  run_step H.
  { apply query_inv in H as [-> [[= ->] | [=]]]. auto. }
  apply query_inv in H1 as [D1 [[=] | [= ->]]].
  rewrite Hrow in H. apply Z.eqb_neq in Hown. rewrite Hown in H.
  cbn [negb] in H. rewrite (bind_Err_run _ _ _ _ _ (throwIf_true _ _)) in H.
  injection H as <- <-. auto.
Qed.

Lemma updateCartItem_foreign userId cartItemId quantity ci st r st' :
  cartRowById (st_db st) cartItemId = Some ci ->
  ci_userId ci <> userId ->
  CartController.updateCartItem userId cartItemId quantity st = (r, st') ->
  st_db st' = st_db st
  /\ (r = Err (BadRequestError (Some "Valid quantity is required") None)
      \/ r = Err (NotFoundError (Some "Cart item not found"))
      \/ r = Err databaseUnavailable).
Proof.
  unfold CartController.updateCartItem, cartItem_findUnique_withProduct,
    cartRowById.
  cbv zeta. intros Hrow Hown H.
  run_step H.
  { apply throwIf_inv in H as [-> [[_ [= ->]] | [_ [=]]]]. auto. }
  apply throwIf_inv in H1 as [-> _].
  run_step H.
  { apply query_inv in H as [-> [[= ->] | [=]]]. auto. }
  apply query_inv in H1 as [D1 [[=] | [= ->]]].
  rewrite Hrow in H. cbn [mbind option_bind] in H.
  destruct (products (st_db st) !! ci_productId ci) as [p|];
    cbn [mbind option_bind] in H.
  - apply Z.eqb_neq in Hown. rewrite Hown in H. cbn [negb] in H.
    rewrite (bind_Err_run _ _ _ _ _ (throwIf_true _ _)) in H.
    injection H as <- <-. auto.
  - injection H as <- <-. auto.
Qed.

(** ** The cart endpoints and the invariant *)

Lemma filter_cart_invariant (f : CartItem -> bool) (d : DB) :
  shopInvariant d -> shopInvariant (set_cartItems (List.filter f) d).
Proof.
  intros (Hstock & Hkeys & Hcart & Horders).
  split; [exact Hstock|]. split; [|split; [|exact Horders]].
  - apply filter_keys_NoDup, Hkeys.
  - intros ci Hin. cbn [cartItems set_cartItems] in Hin.
    apply filter_In in Hin as [Hin _]. exact (Hcart ci Hin).
Qed.

Lemma removeFromCart_invariant userId cartItemId :
  keeps shopInvariant (CartController.removeFromCart userId cartItemId).
Proof.
  intros st r st' Hinv H.
  apply removeFromCart_outcomes in H as [[-> _] | (_ & _ & ->)];
    [exact Hinv|].
  apply filter_cart_invariant, Hinv.
Qed.

Lemma clearCart_invariant userId :
  keeps shopInvariant (CartController.clearCart userId).
Proof.
  intros st r st' Hinv H. unfold CartController.clearCart in H.
  apply cartItem_deleteMany_inv in H as [[-> _] | [_ ->]]; [exact Hinv|].
  apply filter_cart_invariant, Hinv.
Qed.

Lemma serveCart_invariant userId req st :
  shopInvariant (st_db st) -> shopInvariant (st_db (serveCart userId req st)).
Proof.
  intros Hinv. destruct req as [body | id q | id |]; cbn [serveCart].
  - destruct (CartController.addToCart userId body st) as [r st'] eqn:H.
    exact (addToCart_invariant userId body _ _ _ Hinv H).
  - destruct (CartController.updateCartItem userId id q st) as [r st'] eqn:H.
    exact (updateCartItem_invariant userId id q _ _ _ Hinv H).
  - destruct (CartController.removeFromCart userId id st) as [r st'] eqn:H.
    exact (removeFromCart_invariant userId id _ _ _ Hinv H).
  - destruct (CartController.clearCart userId st) as [r st'] eqn:H.
    exact (clearCart_invariant userId _ _ _ Hinv H).
Qed.

(** ** The cart page *)

Lemma totalQuantity_from (xs : list (CartItem * Product)) (acc : Z) :
  fold_left (fun acc item => acc + ci_quantity item.1) xs acc
  = acc + totalQuantity xs.
Proof.
  revert acc. induction xs as [|x xs IH]; intros acc;
    cbn [fold_left totalQuantity]; [lia|].
  rewrite IH. lia.
Qed.

Lemma totalQuantity_app (xs ys : list (CartItem * Product)) :
  totalQuantity (xs ++ ys) = totalQuantity xs + totalQuantity ys.
Proof.
  induction xs as [|x xs IH]; cbn [app totalQuantity]; [reflexivity|].
  rewrite IH. lia.
Qed.

Lemma totalQuantity_rev (xs : list (CartItem * Product)) :
  totalQuantity (rev xs) = totalQuantity xs.
Proof.
  induction xs as [|x xs IH]; cbn [rev totalQuantity]; [reflexivity|].
  rewrite totalQuantity_app, IH. cbn [totalQuantity]. lia.
Qed.

Lemma getCart_Ok_inv userId st summary st' :
  CartController.getCart userId st = (Ok summary, st') ->
  st_db st' = st_db st
  /\ map fst (CartController.cs_items summary)
     = rev (cartOf (st_db st) userId)
  /\ CartController.cs_subtotal summary
     = cartTotal (rev (cartOf (st_db st) userId))
  /\ CartController.cs_estimatedTotal summary
     = CartController.cs_subtotal summary
  /\ CartController.cs_totalItems summary
     = totalQuantity (cartOf (st_db st) userId).
Proof.
  unfold CartController.getCart, cartItem_findMany. intros H.
  apply bind_Ok_inv in H as (items & s1 & H1 & H).
  apply query_Ok_inv in H1 as [-> D1].
  apply ret_Ok_inv in H as [-> ->].
  cbn [CartController.cs_items CartController.cs_subtotal
       CartController.cs_estimatedTotal CartController.cs_totalItems].
  split; [exact D1|]. split; [|split; [|split]].
  - rewrite map_map. cbn [fst]. apply map_id.
  - apply subtotalOf_from.
  - reflexivity.
  - rewrite totalQuantity_from, totalQuantity_rev. lia.
Qed.

(** ** Checkout with an empty cart *)

Lemma checkout_empty_cart now userId body (d : DB) :
  requestAccepted body = true ->
  cartOf d userId = [] ->
  checkout now userId body (mkSt d None)
  = (Err (BadRequestError
            (Some "Cart is empty. Add items before checkout.") None),
     mkSt d None).
Proof.
  intros Hreq Hcart. unfold requestAccepted in Hreq.
  destruct (shippingInfo body) as [si|] eqn:Hsi; [|discriminate Hreq].
  apply andb_true_iff in Hreq as [Hreq V4].
  apply andb_true_iff in Hreq as [Hreq V3].
  apply andb_true_iff in Hreq as [V1 V2].
  apply negb_true_iff in V4.
  unfold checkout. rewrite Hsi. cbv zeta.
  rewrite bind_unfold, V1. cbn [negb throwIf]. cbn [mret M_ret ret].
  rewrite bind_unfold, V2. cbn [negb throwIf]. cbn [mret M_ret ret].
  rewrite bind_unfold, V3. cbn [negb throwIf]. cbn [mret M_ret ret].
  rewrite bind_unfold, V4. cbn [negb throwIf]. cbn [mret M_ret ret].
  rewrite bind_unfold. unfold cartItem_findMany. rewrite query_unlimited.
  rewrite Hcart. reflexivity.
Qed.

Lemma serveShop_invariant (req : ShopRequest) (st : St) :
  shopInvariant (st_db st) -> shopInvariant (st_db (serveShop req st)).
Proof.
  destruct req as [userId req | op]; cbn [serveShop].
  - apply serveCart_invariant.
  - apply serve_invariant.
Qed.

Lemma serveShopInTurn_invariant (reqs : list ShopRequest) (st : St) :
  shopInvariant (st_db st) -> shopInvariant (st_db (serveShopInTurn reqs st)).
Proof.
  revert st. induction reqs as [|req reqs IH]; intros st Hinv; [exact Hinv|].
  cbn [serveShopInTurn fold_left]. apply IH, serveShop_invariant, Hinv.
Qed.

Lemma Sample_invariant : shopInvariant Sample.db.
Proof.
  split; [|split; [|split]].
  - apply map_Forall_to_list. vm_compute. repeat constructor; discriminate.
  - apply (bool_decide_unpack _). vm_compute. reflexivity.
  - intros ci Hin. cbn in Hin.
    destruct Hin as [<- | [<- | [<- | []]]]; cbn; lia.
  - intros item [].
Qed.

Lemma Sample_cartIdsUnique : cartIdsUnique Sample.db.
Proof. apply (bool_decide_unpack _). vm_compute. reflexivity. Qed.

Lemma updateCartItem_Ok_inv userId cartItemId quantity st ci st' :
  cartIdsUnique (st_db st) ->
  CartController.updateCartItem userId cartItemId quantity st = (Ok ci, st') ->
  exists q old p,
    quantity = Some q
    /\ cartRowById (st_db st) cartItemId = Some old
    /\ ci_userId old = userId
    /\ products (st_db st) !! ci_productId old = Some p
    /\ 1 <= q <= p_stockQuantity p
    /\ ci = set_quantity q old
    /\ st_db st'
       = set_cartItems
           (map (fun c => if ci_id c =? cartItemId
                          then set_quantity q c else c))
           (st_db st).
Proof.
  unfold CartController.updateCartItem, cartItem_findUnique_withProduct.
  cbv zeta. intros Hids H.
  apply bind_Ok_inv in H as (? & s1 & H1 & H).
  apply throwIf_Ok_inv in H1 as [V1 ->].
  apply orb_false_iff in V1 as [V0 V1]. apply negb_false_iff in V0.
  destruct quantity as [q|]; [|discriminate V0].
  change (default 0 (Some q)) with q in *. apply Z.ltb_ge in V1.
  apply bind_Ok_inv in H as (found & s1 & H1 & H).
  apply query_Ok_inv in H1 as [-> D1].
  fold (cartRowById (st_db st) cartItemId) in H.
  destruct (cartRowById (st_db st) cartItemId) as [old|] eqn:Hold;
    [|discriminate H].
  cbn [mbind option_bind] in H.
  destruct (products (st_db st) !! ci_productId old) as [p|] eqn:Hp;
    [|discriminate H].
  cbn [mbind option_bind] in H.
  apply bind_Ok_inv in H as (? & s2 & H1 & H).
  apply throwIf_Ok_inv in H1 as [V2 ->].
  apply negb_false_iff, Z.eqb_eq in V2.
  apply bind_Ok_inv in H as (? & s2 & H1 & H).
  apply throwIf_Ok_inv in H1 as [V3 ->]. apply Z.ltb_ge in V3.
  apply cartItem_update_inv in H as [(_ & e & [=]) | (c & Hc & [= ->] & ->)].
  rewrite D1 in Hc. rewrite Hold in Hc. injection Hc as <-.
  exists q, old, p. rewrite D1.
  repeat split; try reflexivity; try assumption; lia.
Qed.

(** ** Wishlist endpoints *)

Lemma wishlistItem_delete_inv id st r st' :
  wishlistItem_delete id st = (r, st') ->
  (st_db st' = st_db st /\ exists e, r = Err e)
  \/ (r = Ok tt
      /\ st_db st'
         = set_wishlistItems (List.filter (fun wi => negb (wi_id wi =? id)))
                             (st_db st)).
Proof.
  unfold wishlistItem_delete. intros H.
  apply stmt_inv in H as [(_ & -> & ->) | (_ & H)]; [left; eauto|].
  destruct (existsb _ (wishlistItems (st_db st))).
  - destruct H as [-> ->]. right. eauto.
  - destruct H as [-> ->]. left. eauto.
Qed.

Lemma moveToCart_atomic userId wishlistItemId quantity :
  atomic (WishlistController.moveToCart userId wishlistItemId quantity).
Proof.
  unfold WishlistController.moveToCart. cbv zeta.
  apply atomic_bind; [apply readOnly_query|].
  intros [[wi p]|]; [|apply readOnly_atomic, readOnly_throw].
  apply atomic_bind; [apply readOnly_throwIf | intros _].
  apply atomic_bind; [apply readOnly_throwIf | intros _].
  apply atomic_transaction.
Qed.

Lemma moveToCart_Ok_inv userId wishlistItemId quantity st ci st' :
  cartIdsUnique (st_db st) ->
  WishlistController.moveToCart userId wishlistItemId quantity st
  = (Ok ci, st') ->
  exists wi p,
    wishlistRowById (st_db st) wishlistItemId = Some wi
    /\ wi_userId wi = userId
    /\ products (st_db st) !! wi_productId wi = Some p
    /\ default 1 quantity <= p_stockQuantity p
    /\ ci_userId ci = userId
    /\ ci_productId ci = wi_productId wi
    /\ ci_quantity ci
       = quantityInCart (st_db st) userId (wi_productId wi)
         + default 1 quantity
    /\ In ci (cartItems (st_db st'))
    /\ wishlistItems (st_db st')
       = List.filter (fun w => negb (wi_id w =? wishlistItemId))
                     (wishlistItems (st_db st)).
Proof.
  unfold WishlistController.moveToCart, wishlistItem_findUnique,
    wishlistRowById.
  cbv zeta. intros Hids H.
  apply bind_Ok_inv in H as (found & s1 & H1 & H).
  apply query_Ok_inv in H1 as [-> D1].
  destruct (List.find _ (wishlistItems (st_db st))) as [wi|];
    [|discriminate H].
  cbn [mbind option_bind] in H.
  destruct (products (st_db st) !! wi_productId wi) as [p|] eqn:Hp;
    [|discriminate H].
  cbn [mbind option_bind] in H.
  apply bind_Ok_inv in H as (? & s2 & H1 & H).
  apply throwIf_Ok_inv in H1 as [V1 ->].
  apply negb_false_iff, Z.eqb_eq in V1.
  apply bind_Ok_inv in H as (? & s2 & H1 & H).
  apply throwIf_Ok_inv in H1 as [V2 ->]. apply Z.ltb_ge in V2.
  apply transaction_Ok_inv in H.
  apply bind_Ok_inv in H as (existing & s2 & H1 & H).
  unfold cartItem_findUnique in H1.
  apply query_Ok_inv in H1 as [-> D2].
  apply bind_Ok_inv in H as (c & s3 & H1 & H).
  apply bind_Ok_inv in H as (? & s4 & H2 & H).
  apply ret_Ok_inv in H as [-> ->].
  apply wishlistItem_delete_inv in H2 as [(_ & e & [=]) | (_ & ->)].
  exists wi, p. split; [reflexivity|]. split; [exact V1|].
  split; [exact Hp|]. split; [exact V2|].
  cbn [cartItems wishlistItems set_wishlistItems].
  unfold quantityInCart, cartRow. rewrite D1 in H1.
  destruct (List.find _ (cartItems (st_db st))) as [e|] eqn:Hfind.
  - apply find_id_Some in Hfind as [Hin Hkey].
    apply andb_true_iff in Hkey as [Hu Hpid].
    apply Z.eqb_eq in Hu, Hpid.
    apply cartItem_update_inv in H1
      as [(_ & e' & [=]) | (c0 & Hc & [= ->] & ->)].
    rewrite D2, D1 in Hc.
    apply (find_by_id_unique _ e c0 Hids Hin) in Hc. subst c0.
    cbn [ci_userId ci_productId ci_quantity set_quantity
         cartItems wishlistItems set_cartItems].
    split; [exact Hu|]. split; [exact Hpid|]. split; [reflexivity|].
    rewrite D2, D1. split; [|reflexivity]. apply in_map_iff.
    exists e. rewrite Z.eqb_refl. split; [reflexivity | exact Hin].
  - apply cartItem_create_inv in H1 as [(_ & e' & [=]) | ([= ->] & ->)].
    cbn [ci_userId ci_productId ci_quantity
         cartItems wishlistItems set_cartItems set_nextCartItemId].
    split; [reflexivity|]. split; [reflexivity|]. split; [lia|].
    rewrite D2, D1. split; [|reflexivity].
    apply in_or_app. right. left. reflexivity.
Qed.

Lemma moveToCart_foreign userId wishlistItemId quantity wi st r st' :
  wishlistRowById (st_db st) wishlistItemId = Some wi ->
  wi_userId wi <> userId ->
  WishlistController.moveToCart userId wishlistItemId quantity st = (r, st') ->
  st_db st' = st_db st
  /\ (r = Err (NotFoundError (Some "Wishlist item not found"))
      \/ r = Err databaseUnavailable).
Proof.
  unfold WishlistController.moveToCart, wishlistItem_findUnique,
    wishlistRowById.
  cbv zeta. intros Hrow Hown H.
  run_step H.
  { apply query_inv in H as [-> [[= ->] | [=]]]. auto. }
  apply query_inv in H1 as [D1 [[=] | [= ->]]].
  rewrite Hrow in H. cbn [mbind option_bind] in H.
  destruct (products (st_db st) !! wi_productId wi) as [p|];
    cbn [mbind option_bind] in H.
  - apply Z.eqb_neq in Hown. rewrite Hown in H. cbn [negb] in H.
    rewrite (bind_Err_run _ _ _ _ _ (throwIf_true _ _)) in H.
    injection H as <- <-. auto.
  - injection H as <- <-. auto.
Qed.

Lemma removeFromWishlist_foreign userId wishlistItemId wi st r st' :
  wishlistRowById (st_db st) wishlistItemId = Some wi ->
  wi_userId wi <> userId ->
  WishlistController.removeFromWishlist userId wishlistItemId st = (r, st') ->
  st_db st' = st_db st
  /\ (r = Err (NotFoundError (Some "Wishlist item not found"))
      \/ r = Err databaseUnavailable).
Proof.
  unfold WishlistController.removeFromWishlist, wishlistItem_findUnique_byId,
    wishlistRowById.
  intros Hrow Hown H.
  run_step H.
  { apply query_inv in H as [-> [[= ->] | [=]]]. auto. }
  apply query_inv in H1 as [D1 [[=] | [= ->]]].
  rewrite Hrow in H. apply Z.eqb_neq in Hown. rewrite Hown in H.
  cbn [negb] in H. rewrite (bind_Err_run _ _ _ _ _ (throwIf_true _ _)) in H.
  injection H as <- <-. auto.
Qed.

Lemma clearWishlist_inv userId st r st' :
  WishlistController.clearWishlist userId st = (r, st') ->
  (st_db st' = st_db st /\ r = Err databaseUnavailable)
  \/ (r = Ok tt
      /\ st_db st'
         = set_wishlistItems
             (List.filter (fun wi => negb (wi_userId wi =? userId)))
             (st_db st)).
Proof.
  unfold WishlistController.clearWishlist, wishlistItem_deleteMany. intros H.
  apply stmt_inv in H as [(_ & -> & ->) | (_ & -> & ->)]; auto.
Qed.

Lemma removeFromWishlist_outcomes userId wishlistItemId st r st' :
  WishlistController.removeFromWishlist userId wishlistItemId st = (r, st') ->
  (st_db st' = st_db st /\ exists e, r = Err e)
  \/ (r = Ok tt
      /\ (exists wi, wishlistRowById (st_db st) wishlistItemId = Some wi
                     /\ wi_userId wi = userId)
      /\ st_db st'
         = set_wishlistItems
             (List.filter (fun wi => negb (wi_id wi =? wishlistItemId)))
             (st_db st)).
Proof.
  unfold WishlistController.removeFromWishlist, wishlistItem_findUnique_byId.
  intros H.
  run_step H.
  { apply query_inv in H as [-> _]. left. eauto. }
  apply query_inv in H1 as [D1 [[=] | [= ->]]].
  run_step H.
  { apply throwIf_inv in H as [-> _]. left. eauto. }
  apply throwIf_inv in H1 as [-> [[_ [=]] | [Hown _]]].
  apply wishlistItem_delete_inv in H as [[-> He] | [-> ->]]; [left; eauto|].
  right. split; [reflexivity|]. rewrite D1. split; [|reflexivity].
  unfold wishlistRowById.
  destruct (List.find _ (wishlistItems (st_db st))) as [wi|]; [|discriminate].
  exists wi. split; [reflexivity|].
  apply negb_false_iff, Z.eqb_eq in Hown. exact Hown.
Qed.

End CartsAndWishlists.

(** ** Slugs *)

Import SlugUtil.

Section Slugs.

Import AsciiStrings.

(** A fact about every character, checked on each of them. *)
Ltac each_ascii c :=
  destruct c as [[] [] [] [] [] [] [] []]; vm_compute; try reflexivity;
  try discriminate; auto.

Lemma isUpper_lowerChar (c : ascii) : isUpper (lowerChar c) = false.
Proof. each_ascii c. Qed.

Lemma kept_char_is_slugChar (c : ascii) :
  isUpper c = false ->
  isWord c || isSpace c || isHyphen c = true ->
  isSeparator c = false ->
  isSlugChar c = true.
Proof. each_ascii c. Qed.

Lemma isHyphen_eq (c : ascii) : isHyphen c = true -> c = "-"%char.
Proof. each_ascii c. Qed.

Lemma isSeparator_not_slugChar (c : ascii) :
  isSeparator c = true -> isSlugChar c = false.
Proof. each_ascii c. Qed.

Lemma isSlugChar_facts (c : ascii) :
  isSlugChar c = true ->
  isHyphen c = false /\ isSeparator c = false /\ isSpace c = false
  /\ lowerChar c = c /\ isWord c = true.
Proof. each_ascii c. Qed.

Lemma hyphen_facts :
  isSlugChar "-" = false /\ isHyphen "-" = true /\ isSeparator "-" = true
  /\ isSpace "-" = false /\ lowerChar "-" = "-"%char.
Proof. repeat split. Qed.

Lemma allChars_toLowerCase (s : string) :
  allChars (fun c => negb (isUpper c)) (toLowerCase s) = true.
Proof.
  induction s as [|c s IH]; [reflexivity|].
  cbn [toLowerCase allChars]. rewrite isUpper_lowerChar, IH. reflexivity.
Qed.

Lemma allChars_trimStart test (s : string) :
  allChars test s = true -> allChars test (trimStart s) = true.
Proof.
  induction s as [|c s IH]; [reflexivity|].
  cbn [trimStart allChars]. intros H.
  destruct (isSpace c); [|exact H].
  apply andb_true_iff in H as [_ H]. exact (IH H).
Qed.

Lemma allChars_trimEnd test (s : string) :
  allChars test s = true -> allChars test (trimEnd s) = true.
Proof.
  induction s as [|c s IH]; [reflexivity|].
  cbn [trimEnd allChars]. intros H. apply andb_true_iff in H as [Hc H].
  specialize (IH H). destruct (trimEnd s) as [|c' r].
  - destruct (isSpace c); [reflexivity|]. cbn [allChars]. rewrite Hc.
    reflexivity.
  - cbn [allChars] in IH |- *. rewrite Hc. exact IH.
Qed.

Lemma allChars_trim test (s : string) :
  allChars test s = true -> allChars test (trim s) = true.
Proof. intros H. apply allChars_trimEnd, allChars_trimStart, H. Qed.

(** After the first two replacements only [[a-z0-9]] and single hyphens
    are left. *)
Lemma slugBody_hyphenate (s : string) (inRun : bool) :
  allChars (fun c => negb (isUpper c)) s = true ->
  slugBody inRun (hyphenateFrom inRun (removeSpecial s)) = true.
Proof.
  revert inRun. induction s as [|c s IH]; intros inRun; [reflexivity|].
  cbn [allChars removeSpecial]. intros H.
  apply andb_true_iff in H as [Hc H]. apply negb_true_iff in Hc.
  destruct (isWord c || isSpace c || isHyphen c) eqn:Hkept;
    [|exact (IH inRun H)].
  cbn [hyphenateFrom]. destruct (isSeparator c) eqn:Hsep.
  - destruct inRun; [exact (IH true H)|].
    cbn [slugBody]. change (isSlugChar "-") with false.
    change (isHyphen "-") with true. cbn [negb andb]. exact (IH true H).
  - cbn [slugBody].
    rewrite (kept_char_is_slugChar c Hc Hkept Hsep). exact (IH false H).
Qed.

Lemma slugBody_stripLeading (s : string) (p : bool) :
  slugBody p s = true -> slugBody true (stripLeading s) = true.
Proof.
  revert p. induction s as [|c s IH]; intros p; [reflexivity|].
  cbn [stripLeading]. destruct (isHyphen c) eqn:Hh.
  - cbn [slugBody]. rewrite Hh.
    destruct (isSlugChar c) eqn:Hs.
    { apply isSlugChar_facts in Hs as (Hh' & _). congruence. }
    intros H. apply andb_true_iff in H as [_ H]. exact (IH true H).
  - cbn [slugBody]. rewrite Hh. destruct (isSlugChar c); [auto | discriminate].
Qed.

Lemma stripTrailing_valid (s : string) (p : bool) :
  slugBody p s = true ->
  stripTrailing s = EmptyString
  \/ isValidSlugFrom (negb p) (stripTrailing s) = true.
Proof.
  revert p. induction s as [|c s IH]; intros p; [left; reflexivity|].
  cbn [slugBody stripTrailing]. destruct (isSlugChar c) eqn:Hs.
  - intros H. destruct (isSlugChar_facts c Hs) as (Hh & _). rewrite Hh.
    right. specialize (IH false H).
    destruct (stripTrailing s) as [|c' r].
    + cbn [isValidSlugFrom]. rewrite Hs. reflexivity.
    + destruct IH as [IH | IH]; [discriminate IH|].
      cbn [negb] in IH.
      change (isValidSlugFrom (negb p) (String c (String c' r)))
        with (if isSlugChar c then isValidSlugFrom true (String c' r)
              else if isHyphen c
                   then negb p && isValidSlugFrom false (String c' r)
                   else false).
      rewrite Hs. exact IH.
  - destruct (isHyphen c) eqn:Hh; [|discriminate].
    intros H. apply andb_true_iff in H as [Hp H].
    apply negb_true_iff in Hp. subst p.
    destruct (IH true H) as [-> | Hv]; [left; reflexivity|].
    right. destruct (stripTrailing s) as [|c' r]; [discriminate Hv|].
    cbn [negb] in Hv |- *.
    change (isValidSlugFrom true (String c (String c' r)))
      with (if isSlugChar c then isValidSlugFrom true (String c' r)
            else if isHyphen c
                 then true && isValidSlugFrom false (String c' r)
                 else false).
    rewrite Hs, Hh. exact Hv.
Qed.

(** ** Valid slugs are left alone *)

Lemma valid_slugBody (s : string) (a : bool) :
  isValidSlugFrom a s = true -> slugBody (negb a) s = true.
Proof.
  revert a. induction s as [|c s IH]; intros a; [reflexivity|].
  cbn [isValidSlugFrom slugBody]. destruct (isSlugChar c).
  - intros H. exact (IH true H).
  - destruct (isHyphen c); [|discriminate].
    intros H. apply andb_true_iff in H as [-> H]. exact (IH false H).
Qed.

Lemma slugBody_chars (s : string) (p : bool) :
  slugBody p s = true ->
  allChars (fun c => isSlugChar c || isHyphen c) s = true.
Proof.
  revert p. induction s as [|c s IH]; intros p; [reflexivity|].
  cbn [slugBody allChars]. destruct (isSlugChar c).
  - intros H. exact (IH false H).
  - destruct (isHyphen c); [|discriminate].
    intros H. apply andb_true_iff in H as [_ H]. exact (IH true H).
Qed.

Lemma slug_or_hyphen_facts (c : ascii) :
  isSlugChar c || isHyphen c = true ->
  lowerChar c = c /\ isSpace c = false
  /\ isWord c || isSpace c || isHyphen c = true.
Proof. each_ascii c. Qed.

Lemma toLowerCase_slug (s : string) :
  allChars (fun c => isSlugChar c || isHyphen c) s = true ->
  toLowerCase s = s.
Proof.
  induction s as [|c s IH]; [reflexivity|].
  cbn [allChars toLowerCase]. intros H. apply andb_true_iff in H as [Hc H].
  destruct (slug_or_hyphen_facts c Hc) as (-> & _). rewrite (IH H).
  reflexivity.
Qed.

Lemma trimStart_slug (s : string) :
  allChars (fun c => isSlugChar c || isHyphen c) s = true ->
  trimStart s = s.
Proof.
  destruct s as [|c s]; [reflexivity|].
  cbn [allChars trimStart]. intros H. apply andb_true_iff in H as [Hc _].
  destruct (slug_or_hyphen_facts c Hc) as (_ & -> & _). reflexivity.
Qed.

Lemma trimEnd_slug (s : string) :
  allChars (fun c => isSlugChar c || isHyphen c) s = true ->
  trimEnd s = s.
Proof.
  induction s as [|c s IH]; [reflexivity|].
  cbn [allChars trimEnd]. intros H. apply andb_true_iff in H as [Hc H].
  rewrite (IH H). destruct (slug_or_hyphen_facts c Hc) as (_ & -> & _).
  destruct s; reflexivity.
Qed.

Lemma removeSpecial_slug (s : string) :
  allChars (fun c => isSlugChar c || isHyphen c) s = true ->
  removeSpecial s = s.
Proof.
  induction s as [|c s IH]; [reflexivity|].
  cbn [allChars removeSpecial]. intros H. apply andb_true_iff in H as [Hc H].
  destruct (slug_or_hyphen_facts c Hc) as (_ & _ & ->). rewrite (IH H).
  reflexivity.
Qed.

Lemma hyphenateFrom_slug (s : string) (p : bool) :
  slugBody p s = true -> hyphenateFrom p s = s.
Proof.
  revert p. induction s as [|c s IH]; intros p; [reflexivity|].
  cbn [slugBody hyphenateFrom]. destruct (isSlugChar c) eqn:Hs.
  - destruct (isSlugChar_facts c Hs) as (_ & -> & _).
    intros H. rewrite (IH false H). reflexivity.
  - destruct (isHyphen c) eqn:Hh; [|discriminate].
    apply isHyphen_eq in Hh. subst c.
    change (isSeparator "-") with true. cbn iota.
    intros H. apply andb_true_iff in H as [Hp H].
    apply negb_true_iff in Hp. subst p. rewrite (IH true H). reflexivity.
Qed.

Lemma stripLeading_slug (s : string) :
  slugBody true s = true -> stripLeading s = s.
Proof.
  destruct s as [|c s]; [reflexivity|].
  cbn [slugBody stripLeading]. destruct (isSlugChar c) eqn:Hs.
  - destruct (isSlugChar_facts c Hs) as (-> & _). reflexivity.
  - destruct (isHyphen c); [|discriminate]. cbn [negb andb]. discriminate.
Qed.

Lemma stripTrailing_slug (s : string) (a : bool) :
  isValidSlugFrom a s = true -> stripTrailing s = s.
Proof.
  revert a. induction s as [|c s IH]; intros a; [reflexivity|].
  cbn [isValidSlugFrom stripTrailing]. destruct (isSlugChar c) eqn:Hs.
  - intros H. rewrite (IH true H).
    destruct (isSlugChar_facts c Hs) as (-> & _). destruct s; reflexivity.
  - destruct (isHyphen c); [|discriminate].
    intros H. apply andb_true_iff in H as [_ H]. rewrite (IH false H).
    destruct s; [discriminate H | reflexivity].
Qed.

Lemma generateSlug_of_valid (s : string) :
  isValidSlug s = true -> generateSlug s = s.
Proof.
  unfold isValidSlug, generateSlug, hyphenate, trim. intros H.
  pose proof (valid_slugBody s false H) as Hbody. cbn [negb] in Hbody.
  pose proof (slugBody_chars s true Hbody) as Hchars.
  rewrite (toLowerCase_slug s Hchars), (trimStart_slug s Hchars),
    (trimEnd_slug s Hchars), (removeSpecial_slug s Hchars).
  assert (Hbody' : slugBody false s = true).
  { destruct s as [|c s]; [reflexivity|].
    cbn [slugBody] in Hbody |- *. destruct (isSlugChar c); [exact Hbody|].
    destruct (isHyphen c); [discriminate Hbody | exact Hbody]. }
  rewrite (hyphenateFrom_slug s false Hbody'), (stripLeading_slug s Hbody).
  exact (stripTrailing_slug s false H).
Qed.

Lemma generateSlug_shape (text : string) :
  generateSlug text = EmptyString \/ isValidSlug (generateSlug text) = true.
Proof.
  unfold generateSlug, isValidSlug, hyphenate.
  apply (stripTrailing_valid _ true).
  apply (slugBody_stripLeading _ false).
  apply slugBody_hyphenate, allChars_trim, allChars_toLowerCase.
Qed.

(** ** Unique slugs *)

Lemma ofZ_inj (n m : Z) : ofZ n = ofZ m -> n = m.
Proof.
  unfold ofZ. intros H.
  assert (Hnil : forall z, Z.to_int z <> Decimal.Pos Decimal.Nil
                           /\ Z.to_int z <> Decimal.Neg Decimal.Nil).
  { intros z. split; intros Hz.
    - pose proof (DecimalZ.of_to z) as Hof. rewrite Hz in Hof.
      cbn in Hof. subst z. discriminate Hz.
    - pose proof (DecimalZ.of_to z) as Hof. rewrite Hz in Hof.
      cbn in Hof. subst z. discriminate Hz. }
  apply DecimalZ.to_int_inj.
  destruct (Hnil n) as [Hn1 Hn2], (Hnil m) as [Hm1 Hm2].
  pose proof (NilZero.isi _ Hn1 Hn2) as En.
  pose proof (NilZero.isi _ Hm1 Hm2) as Em.
  rewrite H in En. rewrite En in Em. injection Em as Em. exact Em.
Qed.

Lemma append_inj_r (a x y : string) : a +:+ x = a +:+ y -> x = y.
Proof.
  induction a as [|c a IH]; [auto|].
  change (String c a +:+ x) with (String c (a +:+ x)).
  change (String c a +:+ y) with (String c (a +:+ y)).
  intros [= H]. exact (IH H).
Qed.

Lemma append_length (a b : string) :
  String.length (a +:+ b) = (String.length a + String.length b)%nat.
Proof.
  induction a as [|c a IH]; [reflexivity|].
  change (String c a +:+ b) with (String c (a +:+ b)).
  cbn [String.length]. rewrite IH. reflexivity.
Qed.

Lemma candidateSlug_inj (baseSlug : string) (i j : nat) :
  candidateSlug baseSlug i = candidateSlug baseSlug j -> i = j.
Proof.
  destruct i as [|i], j as [|j]; cbn [candidateSlug]; intros H.
  - reflexivity.
  - apply (f_equal String.length) in H. rewrite !append_length in H.
    cbn [String.length] in H. lia.
  - apply (f_equal String.length) in H. rewrite !append_length in H.
    cbn [String.length] in H. lia.
  - apply append_inj_r, append_inj_r, ofZ_inj in H. lia.
Qed.

Lemma arrayIncludes_In (xs : list string) (x : string) :
  arrayIncludes xs x = true <-> In x xs.
Proof.
  unfold arrayIncludes. rewrite existsb_exists. split.
  - intros (y & Hin & Heq). apply String.eqb_eq in Heq. subst y. exact Hin.
  - intros Hin. exists x. split; [exact Hin | apply String.eqb_refl].
Qed.

(** There are never more taken candidates than existing slugs. *)
Lemma taken_candidates_bound (baseSlug : string) (existingSlugs : list string)
    (k : nat) :
  (forall j, (j < k)%nat -> In (candidateSlug baseSlug j) existingSlugs) ->
  (k <= length existingSlugs)%nat.
Proof.
  intros Htaken.
  assert (Hnd : NoDup (candidateSlug baseSlug <$> seq 0 k)).
  { apply NoDup_fmap_2; [|apply NoDup_seq].
    intros i j. apply candidateSlug_inj. }
  assert (Hsub : candidateSlug baseSlug <$> seq 0 k ⊆+ existingSlugs).
  { apply NoDup_submseteq; [exact Hnd|].
    intros x Hx. apply list_elem_of_fmap in Hx as (j & -> & Hj).
    apply elem_of_seq in Hj. apply list_elem_of_In, Htaken. lia. }
  apply submseteq_length in Hsub.
  rewrite length_fmap, length_seq in Hsub. exact Hsub.
Qed.

Lemma makeUniqueSlug_loop_spec (baseSlug : string)
    (existingSlugs : list string) (fuel k : nat) :
  (forall j, (j < k)%nat -> In (candidateSlug baseSlug j) existingSlugs) ->
  (length existingSlugs <= k + fuel)%nat ->
  exists m,
    (k <= m <= length existingSlugs)%nat
    /\ makeUniqueSlug_loop fuel baseSlug existingSlugs
         (candidateSlug baseSlug k) (Z.of_nat k + 1)
       = Some (candidateSlug baseSlug m)
    /\ ~ In (candidateSlug baseSlug m) existingSlugs
    /\ (forall j, (j < m)%nat -> In (candidateSlug baseSlug j) existingSlugs).
Proof.
  revert k. induction fuel as [|fuel IH]; intros k Htaken Hfuel.
  - cbn [makeUniqueSlug_loop].
    destruct (arrayIncludes existingSlugs (candidateSlug baseSlug k)) eqn:Hin.
    + apply arrayIncludes_In in Hin.
      assert (Hall : forall j, (j < S k)%nat ->
                               In (candidateSlug baseSlug j) existingSlugs).
      { intros j Hj. destruct (decide (j = k)) as [-> | Hne];
          [exact Hin | apply Htaken; lia]. }
      apply taken_candidates_bound in Hall. lia.
    + exists k. pose proof (taken_candidates_bound _ _ _ Htaken).
      split; [lia|]. split; [reflexivity|]. split; [|exact Htaken].
      intros Hk. apply arrayIncludes_In in Hk. congruence.
  - cbn [makeUniqueSlug_loop].
    destruct (arrayIncludes existingSlugs (candidateSlug baseSlug k)) eqn:Hin.
    + apply arrayIncludes_In in Hin.
      assert (Hall : forall j, (j < S k)%nat ->
                               In (candidateSlug baseSlug j) existingSlugs).
      { intros j Hj. destruct (decide (j = k)) as [-> | Hne];
          [exact Hin | apply Htaken; lia]. }
      destruct (IH (S k) Hall ltac:(lia)) as (m & Hm & Hrun & Hfree & Hbelow).
      exists m. split; [lia|]. split; [|split; assumption].
      rewrite <- Hrun. cbn [candidateSlug].
      replace (Z.of_nat (S k)) with (Z.of_nat k + 1) by lia. reflexivity.
    + exists k. pose proof (taken_candidates_bound _ _ _ Htaken).
      split; [lia|]. split; [reflexivity|]. split; [|exact Htaken].
      intros Hk. apply arrayIncludes_In in Hk. congruence.
Qed.

End Slugs.

(** ** The authentication middleware *)

Lemma split_Bearer (rest : string) :
  AuthMiddleware.split " " ("Bearer " +:+ rest)
  = "Bearer"%string :: AuthMiddleware.split " " rest.
Proof.
  change ("Bearer " +:+ rest)
    with (String "B" (String "e" (String "a" (String "r" (String "e"
            (String "r" (String " " rest))))))).
  cbn [AuthMiddleware.split Ascii.eqb Bool.eqb].
  destruct (AuthMiddleware.split " " rest); reflexivity.
Qed.

Lemma split_nonempty (sep : ascii) (s : string) :
  AuthMiddleware.split sep s <> [].
Proof.
  destruct s as [|c s]; cbn [AuthMiddleware.split]; [discriminate|].
  destruct (Ascii.eqb c sep); [discriminate|].
  destruct (AuthMiddleware.split sep s); discriminate.
Qed.

Lemma authenticate_Ok_inv jwtSecret jwt_verify authorization payload :
  AuthMiddleware.authenticate jwtSecret jwt_verify authorization = Ok payload ->
  exists rest token pieces secret decoded,
    authorization = Some ("Bearer " +:+ rest)
    /\ AuthMiddleware.split " " rest = token :: pieces
    /\ jwtSecret = Some secret
    /\ nonEmpty secret = true
    /\ jwt_verify token secret = Ok decoded
    /\ payload
       = AuthMiddleware.mkJwtPayload (AuthMiddleware.userId decoded)
           (AuthMiddleware.email decoded) (AuthMiddleware.role decoded).
Proof.
  unfold AuthMiddleware.authenticate, AuthMiddleware.authenticate_try.
  destruct authorization as [authHeader|]; [|discriminate].
  destruct (nonEmpty authHeader); cbn [negb orb]; [|discriminate].
  destruct (String.prefix "Bearer " authHeader) eqn:Hprefix;
    cbn [negb]; [|discriminate].
  apply prefix_spec in Hprefix as [rest ->].
  rewrite split_Bearer. cbn [nth_error].
  destruct (AuthMiddleware.split " " rest) as [|token pieces] eqn:Hsplit.
  { destruct (split_nonempty _ _ Hsplit). }
  unfold AuthMiddleware.verifyToken.
  destruct jwtSecret as [secret|]; cbn [truthyStr negb]; [|discriminate].
  destruct (nonEmpty secret) eqn:Hsecret; cbn [negb]; [|discriminate].
  change (default EmptyString (Some secret)) with secret.
  destruct (jwt_verify token secret) as [decoded|e] eqn:Hverify;
    [|discriminate].
  intros [= <-]. exists rest, token, pieces, secret, decoded.
  repeat split; try reflexivity; assumption.
Qed.

Lemma authenticate_Err_inv jwtSecret jwt_verify authorization e :
  AuthMiddleware.authenticate jwtSecret jwt_verify authorization = Err e ->
  e = UnauthorizedError
        (Some "Invalid or expired token. Please login again.").
Proof.
  unfold AuthMiddleware.authenticate.
  destruct (AuthMiddleware.authenticate_try _ _ _); [discriminate|].
  intros [= <-]. reflexivity.
Qed.

(* ================================================================== *)
(** * The claims *)
(* ================================================================== *)

(** ** Totals of the created order *)

Section ThreeTenths.

#[local] Existing Instance asciiStrings.

(** C1, as stated, at a cart of three units of a product priced 0.1: the
    recorded subtotal is the double 0.30000000000000004.  It is not the
    double 0.3, and the number it stands for is not three times the
    number the price stands for. *)
Lemma order_totals_counterexample :
  exists v st',
    checkout Sample.now 100 (Sample.request "Pokhara" None)
             (mkSt Tenths.db None) = (Ok (Some v), st')
    /\ cartOf Tenths.db 100 = [(mkCartItem 1 100 1 3, Tenths.buds)]
    /\ p_price Tenths.buds = 0.1%float
    /\ o_subtotal (ov_order v) = 0.30000000000000004%float
    /\ o_subtotal (ov_order v) <> 0.3%float
    /\ exists price subtotal,
         exactValue (p_price Tenths.buds) = Some price
         /\ exactValue (o_subtotal (ov_order v)) = Some subtotal
         /\ ~ (subtotal == price * 3)%Q.
Proof.
  eexists _, _. split; [vm_compute; reflexivity|].
  split; [vm_compute; reflexivity|].
  split; [reflexivity|].
  split; [vm_compute; reflexivity|].
  split; [vm_compute; discriminate|].
  eexists _, _. split; [vm_compute; reflexivity|].
  split; [vm_compute; reflexivity|].
  vm_compute. discriminate.
Defined.

End ThreeTenths.

(** C1, amended.  Every checkout that creates an order does so over a
    non-empty cart, and the order row it stores and answers with records:
    a subtotal equal to the sum of unit price times quantity, added up in
    double precision from 0 in the order of the cart rows; a tax of 0;
    and a total equal to subtotal plus shipping cost plus tax minus
    discount, computed in double precision from left to right. *)
Theorem checkout_order_totals {JS : JsStrings} now userId body st view st' :
  checkout now userId body st = (Ok view, st') ->
  exists v,
    view = Some v
    /\ orders (st_db st') !! ov_id v = Some (ov_order v)
    /\ cartOf (st_db st) userId <> []
    /\ o_subtotal (ov_order v) = cartTotal (cartOf (st_db st) userId)
    /\ o_tax (ov_order v) = 0%float
    /\ o_total (ov_order v)
       = (o_subtotal (ov_order v) + o_shippingCost (ov_order v)
          + o_tax (ov_order v) - o_discount (ov_order v))%float.
Proof.
  intros H. apply checkout_view in H
    as (si & v & Hsi & -> & Hid & Ho & Hfresh & Hreq & Hcart & Hdb).
  exists v. split; [reflexivity|].
  split. { rewrite Hdb, Hid. unfold checkoutDb. cbn [orders].
           apply lookup_insert_eq. }
  split. { apply cartAccepted_nonempty, Hcart. }
  rewrite Ho. unfold plannedOrder.
  cbn [o_subtotal o_tax o_total o_shippingCost o_discount orderData].
  split; [apply subtotalOf_cartTotal|].
  split; reflexivity.
Qed.

Section TotalsOnTheSampleShop.

#[local] Existing Instance asciiStrings.

(** Two soaps at 33.33 and a syrup at 150, shipped outside the valley
    with ten percent off: 216.66 + 200 + 0 - 21.666 is the double
    394.99399999999997. *)
Lemma checkout_order_totals_witness :
  exists view st',
    checkout Sample.now 100 (Sample.request "Pokhara" (Some "save10"))
             (mkSt Sample.db None) = (Ok view, st')
    /\ exists v,
         view = Some v
         /\ orders (st_db st') !! ov_id v = Some (ov_order v)
         /\ cartOf Sample.db 100 <> []
         /\ o_subtotal (ov_order v) = cartTotal (cartOf Sample.db 100)
         /\ o_tax (ov_order v) = 0%float
         /\ o_total (ov_order v)
            = (o_subtotal (ov_order v) + o_shippingCost (ov_order v)
               + o_tax (ov_order v) - o_discount (ov_order v))%float
         /\ o_total (ov_order v) = 394.99399999999997%float.
Proof.
  assert (Hrun : exists v st',
             checkout Sample.now 100
               (Sample.request "Pokhara" (Some "save10"))
               (mkSt Sample.db None) = (Ok (Some v), st')
             /\ o_total (ov_order v) = 394.99399999999997%float).
  { vm_compute. eexists _, _. split; reflexivity. }
  destruct Hrun as (v & st' & Hrun & Htotal).
  exists (Some v), st'. split; [exact Hrun|].
  destruct (checkout_order_totals Sample.now 100
              (Sample.request "Pokhara" (Some "save10"))
              (mkSt Sample.db None) _ _ Hrun)
    as (v' & [= <-] & Ho & Hne & Hsub & Htax & Htot).
  exists v. repeat split; assumption.
Defined.

End TotalsOnTheSampleShop.

(** ** Shipping cost *)


Section ShippingOnTheSampleShop.

#[local] Existing Instance asciiStrings.


End ShippingOnTheSampleShop.

(** ** Atomicity of checkout *)

(** C5.  Whenever [checkout] raises, whether in its validation or at any
    statement of its transaction, the tables are as they were before the
    request: no order and no order item was added, and product stock, cart
    items and the discounts' [usedCount] are unchanged. *)
Theorem checkout_state_unchanged_on_error {JS : JsStrings}
    now userId body st e st' :
  checkout now userId body st = (Err e, st') ->
  st_db st' = st_db st
  /\ orders (st_db st') = orders (st_db st)
  /\ orderItems (st_db st') = orderItems (st_db st)
  /\ products (st_db st') = products (st_db st)
  /\ cartItems (st_db st') = cartItems (st_db st)
  /\ discounts (st_db st') = discounts (st_db st).
Proof.
  intros H. apply checkout_atomic in H. rewrite H. repeat split.
Qed.

Section FailureOnTheSampleShop.

#[local] Existing Instance asciiStrings.

(** The database stops answering at the fifth statement: the order row and
    the first order item are already written when the stock update fails. *)
Lemma checkout_state_unchanged_on_error_witness :
  exists e st',
    checkout Sample.now 100 (Sample.request "Pokhara" None)
             (mkSt Sample.db (Some 4%nat)) = (Err e, st')
    /\ st_db st' = Sample.db
    /\ orders (st_db st') = orders Sample.db
    /\ orderItems (st_db st') = orderItems Sample.db
    /\ products (st_db st') = products Sample.db
    /\ cartItems (st_db st') = cartItems Sample.db
    /\ discounts (st_db st') = discounts Sample.db.
Proof.
  eexists _, _. split; [vm_compute; reflexivity|].
  apply (checkout_state_unchanged_on_error Sample.now 100
           (Sample.request "Pokhara" None) (mkSt Sample.db (Some 4%nat))
           databaseUnavailable).
  vm_compute. reflexivity.
Defined.

End FailureOnTheSampleShop.

(** ** Discount rules *)

Section DiscountsOnTheSampleShop.

#[local] Existing Instance asciiStrings.

(** C3, as stated, in two places.  At the validate endpoint, for a cart
    of Rs 33.33 and a ten percent discount, the amount of the formula is
    the double 3.3329999999999997 while the endpoint answers 3.33.  At
    checkout, a discount whose usage limit is 0 and which has been used
    five times is applied, although its [usedCount] is not below its
    [usageLimit]. *)
Lemma discount_rules_counterexample :
  (exists info,
     validateCode (fun _ => EmptyString) Sample.now
       (mkApplyDiscountRequest (Some "save10") (Some 33.33%float))
       (mkSt Sample.db None)
     = (Ok (Valid info), mkSt Sample.db None)
     /\ discountAmount 33.33 Sample.save10 = 3.3329999999999997%float
     /\ di_discountAmount info = 3.33%float
     /\ di_discountAmount info <> discountAmount 33.33 Sample.save10)
  /\ (exists v st',
        checkout Sample.now 100 (Sample.request "Pokhara" (Some "spent"))
                 (mkSt ZeroLimit.db None) = (Ok (Some v), st')
        /\ discountByCode ZeroLimit.db "SPENT" = Some (9, ZeroLimit.spent)
        /\ d_usageLimit ZeroLimit.spent = Some 0
        /\ ~ d_usedCount ZeroLimit.spent < 0
        /\ o_discountId (ov_order v) = Some 9
        /\ o_discount (ov_order v) = 50%float).
Proof.
  split.
  - eexists. split; [vm_compute; reflexivity|].
    split; [vm_compute; reflexivity|].
    split; [vm_compute; reflexivity|].
    vm_compute. discriminate.
  - eexists _, _. split; [vm_compute; reflexivity|].
    split; [vm_compute; reflexivity|].
    split; [reflexivity|].
    split; [vm_compute; discriminate|].
    split; vm_compute; reflexivity.
Defined.

End DiscountsOnTheSampleShop.

(** C3, amended.  In checkout a discount is recorded on the order only if
    the code names a discount that is active, whose date window contains
    the current time, whose [usedCount] is below its [usageLimit] when a
    limit other than 0 is set, and whose [minPurchaseAmount], when set, is
    met by the subtotal; the recorded amount is then the percentage of the
    subtotal or the fixed value, clamped down to [maxDiscountAmount] when
    set and then to the subtotal, all in double precision, so that it is
    at most the subtotal whenever both are numbers; an order without a
    discount records 0.  The validate endpoint answers [valid: true] only
    under the same conditions on the subtotal sent by the client, the
    last one tested as: the subtotal is not below [minPurchaseAmount];
    and the amount it reports is [Math.round] of a hundred times that
    amount, over 100. *)
Theorem discount_rules {JS : JsStrings} :
  (forall now userId body st v st',
     checkout now userId body st = (Ok (Some v), st') ->
     match o_discountId (ov_order v) with
     | Some id =>
         exists code r,
           discountCode body = Some code
           /\ discountByCode (st_db st) (toUpperCase code) = Some (id, r)
           /\ discountApplicable now (o_subtotal (ov_order v)) r
           /\ o_discount (ov_order v)
              = discountAmount (o_subtotal (ov_order v)) r
           /\ (isNumber (o_subtotal (ov_order v)) ->
               isNumber (o_discount (ov_order v)) ->
               numLe (o_discount (ov_order v)) (o_subtotal (ov_order v))
               = true)
     | None => o_discount (ov_order v) = 0%float
     end)
  /\ (forall show now body st info st',
        validateCode show now body st = (Ok (Valid info), st') ->
        exists code subtotal r,
          adr_code body = Some code
          /\ adr_cartSubtotal body = Some subtotal
          /\ discountByCode (st_db st) (toUpperCase code)
             = Some (di_id info, r)
          /\ discountAcceptable now subtotal r
          /\ (minimumIsNumber r -> discountApplicable now subtotal r)
          /\ di_discountAmount info
             = roundToCents (discountAmount subtotal r)).
Proof.
  split.
  - intros now userId body st v0 st' H. apply checkout_view in H
      as (si & v & Hsi & [= <-] & Hid & Ho & _).
    rewrite Ho. unfold plannedOrder.
    cbn [o_discountId o_discount o_subtotal orderData].
    destruct (discountPlan_cases (st_db st) now
                (subtotalOf (cartOf (st_db st) userId)) (discountCode body))
      as [(c & id & r & Hc & Hf & Ha & ->) | ->]; cbn [fst snd].
    + exists c, r. split; [exact Hc|]. split; [exact Hf|].
      split; [exact Ha|]. split; [reflexivity|].
      intros Hs Hd. unfold discountAmount in *.
      apply clampDown_le; assumption.
    + reflexivity.
  - intros show now body st info st' H.
    apply validateCode_Valid_inv in H
      as (code & subtotal & r & Hc & Hs & Hpos & Hf & Ha & Hamt & _).
    exists code, subtotal, r.
    split; [exact Hc|]. split; [exact Hs|]. split; [exact Hf|].
    split; [exact Ha|]. split; [|exact Hamt].
    intros Hm.
    apply (discountAcceptable_applicable now subtotal r
             (numGt_isNumber _ _ Hpos) Hm). exact Ha.
Qed.

Section DiscountRulesOnTheSampleShop.

#[local] Existing Instance asciiStrings.

Lemma discount_rules_witness :
  exists view st' id code r,
    checkout Sample.now 100 (Sample.request "Pokhara" (Some "save10"))
             (mkSt Sample.db None) = (Ok (Some view), st')
    /\ o_discountId (ov_order view) = Some id
    /\ discountCode (Sample.request "Pokhara" (Some "save10")) = Some code
    /\ discountByCode Sample.db (toUpperCase code) = Some (id, r)
    /\ discountApplicable Sample.now (o_subtotal (ov_order view)) r
    /\ o_discount (ov_order view)
       = discountAmount (o_subtotal (ov_order view)) r.
Proof.
  assert (Hrun : exists v st',
             checkout Sample.now 100
               (Sample.request "Pokhara" (Some "save10"))
               (mkSt Sample.db None) = (Ok (Some v), st')
             /\ o_discountId (ov_order v) = Some 7).
  { vm_compute. eexists _, _. split; reflexivity. }
  destruct Hrun as (v & st' & Hrun & Hid).
  pose proof (proj1 discount_rules _ _ _ _ _ _ Hrun) as H.
  rewrite Hid in H. destruct H as (code & r & Hc & Hf & Ha & Hamt & _).
  exists v, st', 7, code, r.
  split; [exact Hrun|]. split; [exact Hid|]. split; [exact Hc|].
  split; [exact Hf|]. split; [exact Ha | exact Hamt].
Defined.

End DiscountRulesOnTheSampleShop.

(** ** An invalid discount code at checkout *)

Section ZeroLimitShop.

#[local] Existing Instance asciiStrings.


End ZeroLimitShop.


Section IgnoredCodeOnTheSampleShop.

#[local] Existing Instance asciiStrings.


End IgnoredCodeOnTheSampleShop.

(** ** Cancellation reverses a checkout *)

(** C4.  A request that cancels an order either leaves the tables
    untouched and raises, or finds the order not yet cancelled and, as one
    transaction, adds to the stock of every product the quantity ordered
    of it, takes 1 off the [usedCount] of the discount recorded on the
    order, and marks the order cancelled.  Hence cancelling the order that
    a checkout has just created succeeds while the database answers and
    gives back the stock of every product and the [usedCount] of every
    discount as they were before the checkout. *)
Theorem cancellation_reverses_checkout {JS : JsStrings} :
  (forall orderId adminNote st res st',
     updateOrderStatus orderId (cancelRequest adminNote) st = (res, st') ->
     (st_db st' = st_db st /\ exists e, res = Err e)
     \/ exists o,
          orders (st_db st) !! orderId = Some o
          /\ o_status o <> CANCELLED
          /\ (forall k,
                products (st_db st') !! k
                = set_stockQuantity
                    (fun s => s + orderedQuantity
                                    (itemsOf (st_db st) orderId) k)
                  <$> products (st_db st) !! k)
          /\ (forall did,
                o_discountId o = Some did -> did <> 0 ->
                discounts (st_db st') !! did
                = set_usedCount (fun n => n - 1)
                  <$> discounts (st_db st) !! did)
          /\ (o_discountId o = None ->
              discounts (st_db st') = discounts (st_db st))
          /\ exists o',
               orders (st_db st') !! orderId = Some o'
               /\ o_status o' = CANCELLED)
  /\ (forall now userId body st v st1 adminNote,
        foreignKeysHold (st_db st) ->
        checkout now userId body st = (Ok (Some v), st1) ->
        exists view d2,
          updateOrderStatus (ov_id v) (cancelRequest adminNote)
                            (mkSt (st_db st1) None)
          = (Ok view, mkSt d2 None)
          /\ products d2 = products (st_db st)
          /\ discounts d2 = discounts (st_db st)).
Proof.
  split.
  - intros orderId adminNote st res st' H.
    apply cancel_outcomes in H as [H | (o & Ho & Hs & Hdb & _)];
      [left; exact H | right].
    exists o. split; [exact Ho|]. split; [exact Hs|].
    rewrite Hdb. unfold cancelDb. cbn [products discounts orders].
    split; [intros k; apply incrementAll_lookup|].
    split.
    { intros did Hid Hne. rewrite Hid. cbn [truthyInt].
      apply Z.eqb_neq in Hne. rewrite Hne. cbn [negb default from_option id].
      apply lookup_alter_eq. }
    split.
    { intros Hid. rewrite Hid. reflexivity. }
    rewrite lookup_alter_eq, Ho. eexists. split; reflexivity.
  - intros now userId body st v st1 adminNote Hfk H.
    exact (cancel_after_checkout now userId body st v st1 adminNote Hfk H).
Qed.

Section CancellationOnTheSampleShop.

#[local] Existing Instance asciiStrings.

Lemma cancellation_reverses_checkout_witness :
  exists v st1 view d2,
    checkout Sample.now 100 (Sample.request "Pokhara" (Some "save10"))
             (mkSt Sample.db None) = (Ok (Some v), st1)
    /\ updateOrderStatus (ov_id v) (cancelRequest None) (mkSt (st_db st1) None)
       = (Ok view, mkSt d2 None)
    /\ products d2 = products Sample.db
    /\ discounts d2 = discounts Sample.db.
Proof.
  assert (Hfk : foreignKeysHold Sample.db) by (intros item []).
  assert (Hrun : exists v st1,
             checkout Sample.now 100
               (Sample.request "Pokhara" (Some "save10"))
               (mkSt Sample.db None) = (Ok (Some v), st1)).
  { vm_compute. eexists _, _. reflexivity. }
  destruct Hrun as (v & st1 & Hrun).
  destruct (proj2 cancellation_reverses_checkout Sample.now 100
              (Sample.request "Pokhara" (Some "save10"))
              (mkSt Sample.db None) v st1 None Hfk Hrun)
    as (view & d2 & Hcancel & Hp & Hd).
  exists v, st1, view, d2. repeat split; assumption.
Defined.

End CancellationOnTheSampleShop.

(** ** Errors and the error envelope *)




(** ** Stock labels *)

(** C8, as stated, at a product whose stock is -1 with a threshold of 5:
    every endpoint labels it [low_stock], although its stock is not above
    zero. *)
Lemma stock_status_counterexample :
  ~ (forall f p,
       In f stockStatusSites ->
       (f p = LOW_STOCK
        <-> 0 < p_stockQuantity p <= p_lowStockThreshold p)).
Proof.
  intros H.
  destruct (H ProductController.transformProductResponse_stockStatus oversold
              (or_introl eq_refl)) as [Hlow _].
  specialize (Hlow eq_refl). simpl in Hlow. lia.
Defined.

(** C8, amended.  At each of the three places that derive it (product,
    cart and wishlist responses) the stock label is [out_of_stock] exactly
    when [stockQuantity] is 0, [low_stock] exactly when [stockQuantity] is
    not 0 and at most [lowStockThreshold], and [in_stock] exactly when
    [stockQuantity] is not 0 and above [lowStockThreshold]; for a stock
    that is not negative, [low_stock] is the case
    [0 < stockQuantity <= lowStockThreshold]. *)
Theorem stock_status_label f p :
  In f stockStatusSites ->
  (f p = OUT_OF_STOCK <-> p_stockQuantity p = 0)
  /\ (f p = LOW_STOCK
      <-> p_stockQuantity p <> 0 /\ p_stockQuantity p <= p_lowStockThreshold p)
  /\ (f p = IN_STOCK
      <-> p_stockQuantity p <> 0 /\ p_lowStockThreshold p < p_stockQuantity p)
  /\ (0 <= p_stockQuantity p ->
      (f p = LOW_STOCK
       <-> 0 < p_stockQuantity p <= p_lowStockThreshold p)).
Proof.
  intros Hf. rewrite (stockStatus_sites_agree f p Hf).
  destruct (transformProductResponse_stockStatus_cases p) as (Ho & Hl & Hi).
  split; [exact Ho|]. split; [exact Hl|]. split; [exact Hi|].
  intros Hnonneg. rewrite Hl. lia.
Qed.

Lemma stock_status_label_witness :
  CartController.getCart_stockStatus Sample.soap = LOW_STOCK
  <-> 0 < p_stockQuantity Sample.soap <= p_lowStockThreshold Sample.soap.
Proof.
  apply (stock_status_label CartController.getCart_stockStatus Sample.soap).
  - right. left. reflexivity.
  - vm_compute. discriminate.
Defined.

(** ** The valley test *)

Section ValleyOnTheSampleShop.

#[local] Existing Instance asciiStrings.

(** C10, as stated, at a cart of Rs 2500 shipped to the city "a": the
    city is a substring of a valley name, yet the order is charged no
    shipping at all rather than the inside-valley fee. *)
Lemma valley_fee_counterexample :
  ~ (forall now userId body st v st' si,
       checkout now userId body st = (Ok (Some v), st') ->
       shippingInfo body = Some si ->
       (exists valleyCity,
          In valleyCity KATHMANDU_VALLEY_CITIES
          /\ substringOf (normalizedCity (city si)) valleyCity) ->
       o_shippingCost (ov_order v) = INSIDE_VALLEY).
Proof.
  intros H.
  assert (Hrun : exists v st',
             checkout Sample.now 200 (Sample.request "a" None)
                      (mkSt Sample.db None) = (Ok (Some v), st')
             /\ o_shippingCost (ov_order v) = 0%float).
  { vm_compute. eexists _, _. split; reflexivity. }
  destruct Hrun as (v & st' & Hrun & Hcost).
  specialize (H _ _ _ _ _ _ (Sample.address "a") Hrun eq_refl).
  rewrite Hcost in H. discriminate H.
  exists "kathmandu". split; [left; reflexivity|].
  apply includes_spec. reflexivity.
Defined.

End ValleyOnTheSampleShop.

(** C10, amended.  The valley test is a substring match in both
    directions: a city is inside the valley exactly when its lower-cased,
    trimmed name contains a valley name or is contained in one.  So a
    city whose normal form is the empty string, as that of a city of
    spaces, tabs and line breaks is, and the city "a" are inside the
    valley, and every checkout whose shipping city has a normal form
    contained in a valley name records the inside-valley fee of Rs 100
    whenever its subtotal is not at or above the free-shipping
    threshold. *)
Theorem valley_test_is_bidirectional {JS : JsStrings} :
  (forall city, isInsideValley city = true <-> matchesValley city)
  /\ (forall city,
        normalizedCity city = EmptyString -> isInsideValley city = true)
  /\ (forall city,
        allSpace city = true ->
        normalizedCity city = EmptyString /\ isInsideValley city = true)
  /\ isInsideValley "a" = true
  /\ (forall now userId body st v st' si,
        checkout now userId body st = (Ok (Some v), st') ->
        shippingInfo body = Some si ->
        (exists valleyCity,
           In valleyCity KATHMANDU_VALLEY_CITIES
           /\ substringOf (normalizedCity (city si)) valleyCity) ->
        numGe (o_subtotal (ov_order v)) FREE_SHIPPING_THRESHOLD = false ->
        o_shippingCost (ov_order v) = INSIDE_VALLEY).
Proof.
  split; [exact isInsideValley_spec|].
  assert (Hempty : forall city,
             normalizedCity city = EmptyString -> isInsideValley city = true).
  { intros city Hn. unfold normalizedCity in Hn. unfold isInsideValley.
    rewrite Hn. reflexivity. }
  split; [exact Hempty|].
  split.
  { intros city Hs. pose proof (normalizedCity_allSpace city Hs) as Hn.
    split; [exact Hn | exact (Hempty city Hn)]. }
  split.
  { unfold isInsideValley.
    pose proof (normalizedCity_ascii "a" eq_refl) as Hn.
    unfold normalizedCity in Hn. rewrite Hn. reflexivity. }
  intros now userId body st v0 st' si H Hsi (valleyCity & Hin & Hsub) Hlt.
  apply checkout_view in H
    as (si' & v & Hsi' & [= <-] & _ & Ho & _).
  rewrite Hsi in Hsi'. injection Hsi' as <-.
  rewrite Ho in Hlt |- *. unfold plannedOrder in *.
  cbn [o_shippingCost o_subtotal orderData] in *.
  apply shippingCostOf_cases; [exact Hlt|].
  exists valleyCity. split; [exact Hin | right; exact Hsub].
Qed.

Section BlankCityOnTheSampleShop.

#[local] Existing Instance asciiStrings.

Lemma valley_test_is_bidirectional_witness :
  exists v st',
    checkout Sample.now 100 (Sample.request "   " None)
             (mkSt Sample.db None) = (Ok (Some v), st')
    /\ o_shippingCost (ov_order v) = INSIDE_VALLEY.
Proof.
  assert (Hrun : exists v st',
             checkout Sample.now 100 (Sample.request "   " None)
                      (mkSt Sample.db None) = (Ok (Some v), st')
             /\ numGe (o_subtotal (ov_order v)) FREE_SHIPPING_THRESHOLD
                = false).
  { vm_compute. eexists _, _. split; reflexivity. }
  destruct Hrun as (v & st' & Hrun & Hlt).
  exists v, st'. split; [exact Hrun|].
  apply (proj2 (proj2 (proj2 (proj2 valley_test_is_bidirectional)))
           Sample.now 100 (Sample.request "   " None) (mkSt Sample.db None)
           v st' (Sample.address "   ") Hrun eq_refl); [|exact Hlt].
  exists "kathmandu". split; [left; reflexivity|].
  apply includes_spec. reflexivity.
Defined.

End BlankCityOnTheSampleShop.

(** ** Stock below zero *)

(** C6, on the code.  [moveToCart] accepts a quantity of -5, which
    [addToCart] would reject.  The checkout of that cart raises the stock
    from 5 to 10 and records an order item of quantity -5; after another
    customer has bought the ten units, every stock is zero or more, and
    cancelling the first order then takes the stock to -5. *)
Theorem cancellation_can_drive_stock_negative :
  exists view1 d1 view2 d2,
    stockNonNegative Oversell.shelf
    /\ Oversell.setup (mkSt Oversell.shelf None) = (Ok view1, mkSt d1 None)
    /\ stockNonNegative d1
    /\ updateOrderStatus 1 (cancelRequest None) (mkSt d1 None)
       = (Ok view2, mkSt d2 None)
    /\ p_stockQuantity <$> products d2 !! 1 = Some (-5)
    /\ ~ stockNonNegative d2.
Proof.
  eexists _, _, _, _.
  split. { apply map_Forall_to_list. vm_compute. repeat constructor.
           discriminate. }
  split. { vm_compute. reflexivity. }
  split. { apply map_Forall_to_list. vm_compute. repeat constructor.
           discriminate. }
  split. { vm_compute. reflexivity. }
  split. { vm_compute. reflexivity. }
  intros H. apply map_Forall_to_list in H. vm_compute in H.
  inversion H as [|? ? Hneg _]. apply Hneg. reflexivity.
Qed.

(* ================================================================== *)
(** * Further properties of the handlers *)
(* ================================================================== *)

(** ** Order status updates *)

(** X1.  A status update other than a cancellation, whatever it answers
    and also when it reopens a cancelled order, changes no stock, no
    discount counter, no order item and no cart; no other order changes,
    and when it succeeds the order has the new status and keeps its old
    admin note unless the request carries a non-empty one. *)
Theorem status_update_touches_only_its_order orderId body st r st' :
  status body <> CANCELLED ->
  updateOrderStatus orderId body st = (r, st') ->
  products (st_db st') = products (st_db st)
  /\ discounts (st_db st') = discounts (st_db st)
  /\ orderItems (st_db st') = orderItems (st_db st)
  /\ cartItems (st_db st') = cartItems (st_db st)
  /\ (forall id, id <> orderId ->
                 orders (st_db st') !! id = orders (st_db st) !! id)
  /\ (forall view, r = Ok view ->
        exists o,
          orders (st_db st) !! orderId = Some o
          /\ orders (st_db st') !! orderId
             = Some (set_status (status body)
                       (orElse (adminNote body) (o_adminNote o)) o)
          /\ view = orderView (st_db st') orderId).
Proof.
  intros Hs H.
  destruct (status_update_outcomes _ _ _ _ _ Hs H)
    as [[-> [e ->]] | (o & Ho & _ & -> & Hview)].
  - repeat split; try reflexivity. intros view [=].
  - repeat split; try reflexivity.
    + intros id Hid. cbn. apply lookup_alter_ne. congruence.
    + intros view Hr. exists o. split; [exact Ho|]. split.
      * cbn. rewrite lookup_alter_eq, Ho. reflexivity.
      * exact (Hview _ Hr).
Qed.

Lemma status_update_touches_only_its_order_witness :
  exists view st',
    updateOrderStatus 1 (statusRequest "shipped" None) (mkSt Placed.db None)
    = (Ok view, st')
    /\ products (st_db st') = products Placed.db
    /\ discounts (st_db st') = discounts Placed.db
    /\ (o_status <$> orders (st_db st') !! 1) = Some "shipped".
Proof.
  assert (Hrun : exists view st',
             updateOrderStatus 1 (statusRequest "shipped" None)
                               (mkSt Placed.db None) = (Ok view, st')).
  { vm_compute. eexists _, _. reflexivity. }
  destruct Hrun as (view & st' & Hrun). exists view, st'.
  split; [exact Hrun|].
  destruct (status_update_touches_only_its_order 1
              (statusRequest "shipped" None) (mkSt Placed.db None) _ _
              ltac:(discriminate) Hrun)
    as (Hp & Hd & _ & _ & _ & Hok).
  split; [exact Hp|]. split; [exact Hd|].
  destruct (Hok _ eq_refl) as (o & _ & -> & _). reflexivity.
Defined.

(** X2.  Cancelling an order, setting it back to another status and
    cancelling it again returns the ordered units to stock twice and takes
    two uses off the discount: every product ends with its stock raised by
    twice the ordered quantity. *)
Theorem reopened_order_is_restocked_twice orderId status o (d : DB) :
  orders d !! orderId = Some o ->
  o_status o <> CANCELLED ->
  arrayIncludes validStatuses status = true ->
  status <> CANCELLED ->
  (forall item, In item (itemsOf d orderId) ->
                is_Some (products d !! oi_productId item)) ->
  (truthyInt (o_discountId o) = true ->
   is_Some (discounts d !! default 0 (o_discountId o))) ->
  exists view d3,
    cancelReopenCancel orderId status (mkSt d None) = (Ok view, mkSt d3 None)
    /\ (forall k,
          products d3 !! k
          = set_stockQuantity
              (fun s => s + 2 * orderedQuantity (itemsOf d orderId) k)
            <$> products d !! k)
    /\ (forall did, o_discountId o = Some did -> did <> 0 ->
          d_usedCount <$> discounts d3 !! did
          = (fun n => n - 2) <$> (d_usedCount <$> discounts d !! did)).
Proof.
  intros Ho Hs Hvalid Hne Hp Hd.
  destruct (cancelReopenCancel_unlimited orderId status o d Ho Hs Hvalid Hne
              Hp Hd) as (view & d3 & Hrun & Hprod & Hdisc & _).
  exists view, d3. split; [exact Hrun|]. split.
  - intros k. rewrite Hprod. apply incrementAll_twice.
  - intros did Hdid Hnz. rewrite Hdisc, Hdid. cbn [truthyInt default].
    apply Z.eqb_neq in Hnz. rewrite Hnz. cbn [negb].
    apply alter_usedCount_twice.
Qed.

Lemma reopened_order_is_restocked_twice_witness :
  exists view d3,
    cancelReopenCancel 1 "pending" (mkSt Placed.db None)
    = (Ok view, mkSt d3 None)
    /\ (p_stockQuantity <$> products Sample.db !! 1) = Some 5
    /\ (p_stockQuantity <$> products Placed.db !! 1) = Some 3
    /\ (p_stockQuantity <$> products d3 !! 1) = Some 7.
Proof.
  assert (Ho : exists o, orders Placed.db !! 1 = Some o
                         /\ o_status o = "pending"
                         /\ o_discountId o = Some 7).
  { vm_compute. eexists. repeat split. }
  destruct Ho as (o & Ho & Hst & Hdid).
  destruct (reopened_order_is_restocked_twice 1 "pending" o Placed.db Ho)
    as (view & d3 & Hrun & Hstock & _).
  - rewrite Hst. discriminate.
  - reflexivity.
  - discriminate.
  - intros item Hin. vm_compute in Hin.
    destruct Hin as [<- | [<- | []]]; vm_compute; eexists; reflexivity.
  - intros _. rewrite Hdid. vm_compute. eexists; reflexivity.
  - exists view, d3. split; [exact Hrun|].
    split; [vm_compute; reflexivity|]. split; [vm_compute; reflexivity|].
    rewrite Hstock. vm_compute. reflexivity.
Defined.

(** X3.  A cancellation request for an order that is already cancelled is
    refused with 400 Order is already cancelled (or fails on the
    database), and no table changes: stock is not returned a second
    time. *)
Theorem cancelled_order_is_not_cancelled_again orderId adminNote o st r st' :
  orders (st_db st) !! orderId = Some o ->
  o_status o = CANCELLED ->
  updateOrderStatus orderId (cancelRequest adminNote) st = (r, st') ->
  st_db st' = st_db st
  /\ (r = Err (BadRequestError (Some "Order is already cancelled") None)
      \/ r = Err databaseUnavailable).
Proof. apply cancel_of_cancelled. Qed.

Lemma cancelled_order_is_not_cancelled_again_witness :
  exists d1 view,
    updateOrderStatus 1 (cancelRequest None) (mkSt Placed.db None)
    = (Ok view, mkSt d1 None)
    /\ updateOrderStatus 1 (cancelRequest None) (mkSt d1 None)
       = (Err (BadRequestError (Some "Order is already cancelled") None),
          mkSt d1 None).
Proof.
  assert (Hrun : exists d1 view o,
             updateOrderStatus 1 (cancelRequest None) (mkSt Placed.db None)
             = (Ok view, mkSt d1 None)
             /\ orders d1 !! 1 = Some o
             /\ o_status o = CANCELLED
             /\ exists r,
                  updateOrderStatus 1 (cancelRequest None) (mkSt d1 None)
                  = (r, mkSt d1 None)
                  /\ r <> Err databaseUnavailable).
  { vm_compute. eexists _, _, _. split; [reflexivity|].
    split; [reflexivity|]. split; [reflexivity|].
    eexists. split; [reflexivity | discriminate]. }
  destruct Hrun as (d1 & view & o & Hrun & Ho & Hs & r & Hagain & Hr).
  exists d1, view. split; [exact Hrun|].
  destruct (cancelled_order_is_not_cancelled_again 1 None o (mkSt d1 None)
              r (mkSt d1 None) Ho Hs Hagain) as [_ [-> | ->]].
  - exact Hagain.
  - destruct Hr. reflexivity.
Defined.

(** X4.  [updateOrderStatus] refuses a status outside its list with a 400
    before it consults the database, and a known status for an order that
    does not exist with 404 Order not found; neither changes a table. *)
Theorem updateOrderStatus_refusals orderId body :
  (arrayIncludes validStatuses (status body) = false ->
   forall st, exists msg,
     updateOrderStatus orderId body st
     = (Err (BadRequestError (Some msg) None), st))
  /\ (arrayIncludes validStatuses (status body) = true ->
      forall d, orders d !! orderId = None ->
        updateOrderStatus orderId body (mkSt d None)
        = (Err (NotFoundError (Some "Order not found")), mkSt d None)).
Proof.
  split.
  - intros Hinv st. apply updateOrderStatus_invalid, Hinv.
  - intros Hvalid d Ho. apply updateOrderStatus_unknown; assumption.
Qed.

Lemma updateOrderStatus_refusals_witness :
  (exists msg,
     updateOrderStatus 1 (statusRequest "refunded" None)
                       (mkSt Placed.db (Some O))
     = (Err (BadRequestError (Some msg) None), mkSt Placed.db (Some O)))
  /\ updateOrderStatus 9 (statusRequest "shipped" None) (mkSt Placed.db None)
     = (Err (NotFoundError (Some "Order not found")), mkSt Placed.db None).
Proof.
  split.
  - apply (proj1 (updateOrderStatus_refusals 1 (statusRequest "refunded" None))).
    reflexivity.
  - apply (proj2 (updateOrderStatus_refusals 9 (statusRequest "shipped" None))).
    + reflexivity.
    + vm_compute. reflexivity.
Defined.

(** ** Payment status updates *)

(** X5.  [updatePaymentStatus] either raises and changes no table, or it
    was given one of pending, paid and failed for an order that exists,
    and then the only change is that order's payment status and admin
    note: its status, its amounts, its items, the stock and the discount
    counters stay as they were. *)
Theorem payment_update_touches_only_payment orderId body st r st' :
  updatePaymentStatus orderId body st = (r, st') ->
  (st_db st' = st_db st /\ exists e, r = Err e)
  \/ exists o o',
       orders (st_db st) !! orderId = Some o
       /\ In (ups_paymentStatus body) [ "pending"; "paid"; "failed" ]
       /\ r = Ok (o', itemsOf (st_db st) orderId)
       /\ st_db st' = set_orders (<[orderId := o']>) (st_db st)
       /\ o_paymentStatus o' = ups_paymentStatus body
       /\ o_adminNote o' = orElse (ups_adminNote body) (o_adminNote o)
       /\ o_status o' = o_status o
       /\ o_total o' = o_total o
       /\ set_paymentStatus (o_paymentStatus o) (o_adminNote o) o' = o.
Proof.
  intros H. destruct (updatePaymentStatus_outcomes _ _ _ _ _ H)
    as [Herr | (o & Ho & Hin & Hdb & Hr)]; [left; exact Herr|].
  right. eexists o, _. split; [exact Ho|]. split; [exact Hin|].
  split; [exact Hr|]. split; [exact Hdb|].
  destruct o. repeat split.
Qed.

Lemma payment_update_touches_only_payment_witness :
  exists o' items st',
    updatePaymentStatus 1 (mkUpdatePaymentStatusRequest "paid" None)
                        (mkSt Placed.db None)
    = (Ok (o', items), st')
    /\ o_paymentStatus o' = "paid"
    /\ o_status o' = "pending"
    /\ products (st_db st') = products Placed.db.
Proof.
  assert (Hrun : exists o' items st',
             updatePaymentStatus 1 (mkUpdatePaymentStatusRequest "paid" None)
                                 (mkSt Placed.db None)
             = (Ok (o', items), st')
             /\ o_status o' = "pending").
  { vm_compute. eexists _, _, _. split; reflexivity. }
  destruct Hrun as (o' & items & st' & Hrun & Hst).
  exists o', items, st'. split; [exact Hrun|].
  destruct (payment_update_touches_only_payment _ _ _ _ _ Hrun)
    as [[_ [e [=]]] | (o & o2 & _ & _ & Hr & Hdb & Hps & _)].
  injection Hr as <- _. split; [exact Hps|]. split; [exact Hst|].
  rewrite Hdb. reflexivity.
Defined.

(** ** Checkout *)

(** X6.  A checkout that creates an order lowers the stock of every
    product by exactly the quantity of that product in the user's cart
    and leaves every other field of the product as it was; afterwards the
    cart rows are those of the other users, unchanged, and none of the
    user's own. *)
Theorem checkout_takes_the_cart_out_of_stock {JS : JsStrings}
    now userId body st view st' :
  checkout now userId body st = (Ok view, st') ->
  (forall k,
     products (st_db st') !! k
     = set_stockQuantity
         (fun s => s - cartQuantity (cartOf (st_db st) userId) k)
       <$> products (st_db st) !! k)
  /\ (forall ci,
        In ci (cartItems (st_db st'))
        <-> In ci (cartItems (st_db st)) /\ ci_userId ci <> userId)
  /\ wishlistItems (st_db st') = wishlistItems (st_db st).
Proof.
  intros H. apply checkout_Ok_inv in H as (si & _ & _ & _ & _ & -> & _).
  split; [|split].
  - intros k. cbn [checkoutDb products]. apply decrementAll_lookup.
  - intros ci. cbn [checkoutDb cartItems]. rewrite filter_In.
    rewrite negb_true_iff, Z.eqb_neq. reflexivity.
  - reflexivity.
Qed.

Section StockAfterCheckout.

#[local] Existing Instance asciiStrings.

Lemma checkout_takes_the_cart_out_of_stock_witness :
  exists view st',
    checkout Sample.now 100 (Sample.request "Pokhara" None)
             (mkSt Sample.db None) = (Ok view, st')
    /\ (p_stockQuantity <$> products Sample.db !! 1) = Some 5
    /\ (p_stockQuantity <$> products (st_db st') !! 1) = Some 3
    /\ cartItems (st_db st') = [mkCartItem 3 200 3 1].
Proof.
  assert (Hrun : exists view st',
             checkout Sample.now 100 (Sample.request "Pokhara" None)
                      (mkSt Sample.db None) = (Ok view, st')
             /\ cartItems (st_db st') = [mkCartItem 3 200 3 1]).
  { vm_compute. eexists _, _. split; reflexivity. }
  destruct Hrun as (view & st' & Hrun & Hcart). exists view, st'.
  split; [exact Hrun|]. split; [vm_compute; reflexivity|].
  split; [|exact Hcart].
  destruct (checkout_takes_the_cart_out_of_stock _ _ _ _ _ _ Hrun)
    as (Hstock & _).
  rewrite Hstock. cbn [st_db]. vm_compute. reflexivity.
Defined.

End StockAfterCheckout.

(** X7.  Every order that checkout creates is pending, with a pending
    payment, and pays by one of the four known methods.  A cash on
    delivery order records no transaction number, even when the request
    carried one; an order paid by any other method records the
    transaction number of the request, which is not blank. *)
Theorem checkout_records_the_transaction_number {JS : JsStrings}
    now userId body st v st' :
  checkout now userId body st = (Ok (Some v), st') ->
  o_status (ov_order v) = "pending"
  /\ o_paymentStatus (ov_order v) = "pending"
  /\ o_paymentMethod (ov_order v) = paymentMethod body
  /\ In (paymentMethod body) [ "cod"; "esewa"; "khalti"; "bank_transfer" ]
  /\ (paymentMethod body = "cod" ->
      o_transactionNumber (ov_order v) = None)
  /\ (paymentMethod body <> "cod" ->
      exists t,
        transactionNumber body = Some t
        /\ o_transactionNumber (ov_order v) = Some t
        /\ trim t <> EmptyString).
Proof.
  intros H.
  apply checkout_view in H
    as (si & v' & _ & [= <-] & _ & -> & _ & Hreq & _ & _).
  apply requestAccepted_transactionNumber in Hreq as [Hin Htx].
  split; [reflexivity|]. split; [reflexivity|]. split; [reflexivity|].
  split; [exact Hin|]. split.
  - intros Hcod. unfold plannedOrder, orderData. cbv zeta.
    cbn [o_transactionNumber]. rewrite Hcod. reflexivity.
  - intros Hcod. destruct (Htx Hcod) as (t & Ht & Hne).
    exists t. split; [exact Ht|]. split; [|exact Hne].
    unfold plannedOrder, orderData. cbv zeta. cbn [o_transactionNumber].
    apply String.eqb_neq in Hcod.
    change PaymentConstants.COD with "cod"%string. rewrite Hcod. exact Ht.
Qed.

Section CashOnDelivery.

#[local] Existing Instance asciiStrings.

Lemma checkout_records_the_transaction_number_witness :
  exists v st',
    checkout Sample.now 100
      (mkCheckoutRequest (Some (Sample.address "Pokhara")) "cod"
                         (Some "TXN-1") None None)
      (mkSt Sample.db None) = (Ok (Some v), st')
    /\ o_transactionNumber (ov_order v) = None.
Proof.
  assert (Hrun : exists v st',
             checkout Sample.now 100
               (mkCheckoutRequest (Some (Sample.address "Pokhara")) "cod"
                                  (Some "TXN-1") None None)
               (mkSt Sample.db None) = (Ok (Some v), st')).
  { vm_compute. eexists _, _. reflexivity. }
  destruct Hrun as (v & st' & Hrun). exists v, st'. split; [exact Hrun|].
  destruct (checkout_records_the_transaction_number _ _ _ _ _ _ Hrun)
    as (_ & _ & _ & _ & Hcod & _).
  apply Hcod. reflexivity.
Defined.

End CashOnDelivery.


Section AcceptedAndRefused.

#[local] Existing Instance asciiStrings.


End AcceptedAndRefused.

(** X10.  In every order that checkout creates on tables whose order items
    all belong to an order, the items are the rows of the user's cart:
    each item carries the id of the new order, the name and the price of
    its product as they were at checkout, and as its subtotal the
    double-precision product of price and quantity; the subtotal of the
    order is the double-precision sum of the subtotals of the items,
    added up from 0 in the order of the items. *)
Theorem order_items_add_up_to_the_subtotal {JS : JsStrings}
    now userId body st v st' :
  foreignKeysHold (st_db st) ->
  checkout now userId body st = (Ok (Some v), st') ->
  o_subtotal (ov_order v) = itemsTotal (ov_items v)
  /\ length (ov_items v) = length (cartOf (st_db st) userId)
  /\ (forall item, In item (ov_items v) ->
        oi_orderId item = ov_id v
        /\ oi_subtotal item
           = (oi_price item * ofInt (oi_quantity item))%float
        /\ exists p,
             products (st_db st) !! oi_productId item = Some p
             /\ oi_price item = p_price p
             /\ oi_productName item = p_name p).
Proof.
  intros Hfk H.
  destruct (checkout_items _ _ _ _ _ _ Hfk H) as (_ & Hitems & Hsub).
  rewrite Hitems. split; [|split].
  - rewrite itemsTotal_orderItemOf. exact Hsub.
  - apply length_map.
  - intros item Hin. apply in_map_iff in Hin as (ci & <- & Hin).
    apply cartOf_product in Hin as (Hp & _ & _).
    split; [reflexivity|]. split; [reflexivity|].
    exists ci.2. split; [exact Hp|]. split; reflexivity.
Qed.

Section ItemsOfTheSampleOrder.

#[local] Existing Instance asciiStrings.

Lemma order_items_add_up_to_the_subtotal_witness :
  exists v st',
    checkout Sample.now 100 (Sample.request "Pokhara" None)
             (mkSt Sample.db None) = (Ok (Some v), st')
    /\ o_subtotal (ov_order v) = itemsTotal (ov_items v)
    /\ length (ov_items v) = 2%nat.
Proof.
  assert (Hfk : foreignKeysHold Sample.db) by (intros item []).
  assert (Hrun : exists v st',
             checkout Sample.now 100 (Sample.request "Pokhara" None)
                      (mkSt Sample.db None) = (Ok (Some v), st')).
  { vm_compute. eexists _, _. reflexivity. }
  destruct Hrun as (v & st' & Hrun). exists v, st'. split; [exact Hrun|].
  destruct (order_items_add_up_to_the_subtotal Sample.now 100
              (Sample.request "Pokhara" None) (mkSt Sample.db None) v st'
              Hfk Hrun) as (Hsum & Hlen & _).
  split; [exact Hsum|]. rewrite Hlen. vm_compute. reflexivity.
Defined.

End ItemsOfTheSampleOrder.

(** ** Discount codes *)

(** X11.  When checkouts and cancellations are served one at a time,
    each answered before the next one starts, then in any number and
    order, and whatever each of them answers, they never push the use
    count of a discount above a usage limit other than 0.  (Checkout
    tests the limit before its transaction opens, so nothing is said
    here of requests that the server overlaps.) *)
Theorem discount_usage_stays_within_limit {JS : JsStrings}
    (ops : list Operation) (st : St) :
  usageWithinLimit (st_db st) ->
  usageWithinLimit (st_db (serveInTurn ops st)).
Proof. apply serveInTurn_usageWithinLimit. Qed.

Section OneTimeOffer.

#[local] Existing Instance asciiStrings.

Lemma discount_usage_stays_within_limit_witness :
  usageWithinLimit Limited.db
  /\ usageWithinLimit (st_db (serveInTurn Limited.rush (mkSt Limited.db None)))
  /\ (d_usedCount
        <$> discounts (st_db (serveInTurn Limited.rush (mkSt Limited.db None)))
            !! 9) = Some 1.
Proof.
  assert (Hlim : usageWithinLimit Limited.db).
  { intros id r limit Hr Hl Hnz.
    unfold Limited.db, Sample.db in Hr. cbn [discounts set_discounts] in Hr.
    apply lookup_insert_Some in Hr as [[_ <-] | [_ Hr]].
    { injection Hl as <-. cbn. lia. }
    apply lookup_insert_Some in Hr as [[_ <-] | [_ Hr]]; [discriminate Hl|].
    apply lookup_insert_Some in Hr as [[_ <-] | [_ Hr]]; [discriminate Hl|].
    rewrite lookup_empty in Hr. discriminate Hr. }
  split; [exact Hlim|]. split.
  - exact (discount_usage_stays_within_limit Limited.rush
             (mkSt Limited.db None) Hlim).
  - vm_compute. reflexivity.
Defined.

End OneTimeOffer.

(** X12.  The validate endpoint and the discount block of checkout agree
    on a discount whose minimum purchase amount, when set, is a number:
    when the endpoint answers that a code is valid for a cart subtotal,
    checkout with the same code, subtotal and tables applies that
    discount, and the amount the endpoint shows is [Math.round] of a
    hundred times the applied amount, over 100, in double precision;
    when it answers that the code is not valid, checkout applies no
    discount. *)
Theorem validateCode_agrees_with_checkout {JS : JsStrings}
    show now body st response st' :
  (forall code id r,
     adr_code body = Some code ->
     discountByCode (st_db st) (toUpperCase code) = Some (id, r) ->
     minimumIsNumber r) ->
  validateCode show now body st = (Ok response, st') ->
  exists code subtotal,
    adr_code body = Some code
    /\ adr_cartSubtotal body = Some subtotal
    /\ match response with
       | Valid info =>
           exists amount,
             applyDiscount now subtotal (Some code) (mkSt (st_db st) None)
             = (Ok (amount, Some (di_id info), Some (di_code info)),
                mkSt (st_db st) None)
             /\ di_discountAmount info = roundToCents amount
       | Invalid _ =>
           applyDiscount now subtotal (Some code) (mkSt (st_db st) None)
           = (Ok (0%float, None, None), mkSt (st_db st) None)
       end.
Proof.
  intros Hnum H.
  apply (validateCode_Ok_inv _ _ _ _ _ _ Hnum) in H
    as (code & subtotal & Hc & Hs & Hne & _ & _ & Hresp).
  exists code, subtotal. split; [exact Hc|]. split; [exact Hs|].
  destruct response as [msg | info].
  - apply applyDiscount_of_plan. unfold discountPlan.
    cbn [truthyStr]. rewrite Hne.
    change (default EmptyString (Some code)) with code.
    destruct (discountByCode (st_db st) (toUpperCase code)) as [[id r]|];
      [|reflexivity].
    rewrite Hresp. reflexivity.
  - destruct Hresp as (r & Hf & Hv & ->).
    exists (discountOf subtotal r). split; [|reflexivity].
    apply applyDiscount_of_plan. unfold discountPlan.
    cbn [truthyStr di_id di_code]. rewrite Hne.
    change (default EmptyString (Some code)) with code.
    cbn [di_id] in Hf. rewrite Hf, Hv. reflexivity.
Qed.

(** Ten percent of 33.33 is applied as 3.3329999999999997 and shown as
    3.33. *)
Section ValidateThenApply.

#[local] Existing Instance asciiStrings.

Lemma validateCode_agrees_with_checkout_witness :
  exists info st' amount,
    validateCode (fun _ => EmptyString) Sample.now
      (mkApplyDiscountRequest (Some "save10") (Some 33.33%float))
      (mkSt Sample.db None) = (Ok (Valid info), st')
    /\ applyDiscount Sample.now 33.33%float (Some "save10")
                     (mkSt Sample.db None)
       = (Ok (amount, Some 7, Some "SAVE10"), mkSt Sample.db None)
    /\ di_discountAmount info = roundToCents amount
    /\ amount = 3.3329999999999997%float
    /\ di_discountAmount info = 3.33%float.
Proof.
  assert (Hrun : exists info st',
             validateCode (fun _ => EmptyString) Sample.now
               (mkApplyDiscountRequest (Some "save10") (Some 33.33%float))
               (mkSt Sample.db None) = (Ok (Valid info), st')
             /\ di_id info = 7 /\ di_code info = "SAVE10"
             /\ di_discountAmount info = 3.33%float).
  { vm_compute. eexists _, _. repeat split. }
  destruct Hrun as (info & st' & Hrun & Hid & Hcode & Hshown).
  assert (Hnum : forall code id r,
             adr_code (mkApplyDiscountRequest (Some "save10")
                                              (Some 33.33%float))
             = Some code ->
             discountByCode Sample.db (toUpperCase code) = Some (id, r) ->
             minimumIsNumber r).
  { intros code id r [= <-] Hf. vm_compute in Hf. injection Hf as <- <-.
    intros m Hm. discriminate Hm. }
  destruct (validateCode_agrees_with_checkout (fun _ => EmptyString)
              Sample.now
              (mkApplyDiscountRequest (Some "save10") (Some 33.33%float))
              (mkSt Sample.db None) (Valid info) st' Hnum Hrun)
    as (code & subtotal & [= <-] & [= <-] & amount & Happly & Hamt).
  exists info, st', amount. split; [exact Hrun|].
  rewrite Hid, Hcode in Happly. split; [exact Happly|].
  split; [exact Hamt|]. split; [|exact Hshown].
  assert (Hplan : applyDiscount Sample.now 33.33%float (Some "save10")
                                (mkSt Sample.db None)
                  = (Ok (3.3329999999999997%float, Some 7, Some "SAVE10"),
                     mkSt Sample.db None))
    by (vm_compute; reflexivity).
  cbn [st_db] in Happly. rewrite Hplan in Happly.
  injection Happly as <-. reflexivity.
Defined.

End ValidateThenApply.

(** X13.  The validate endpoint only reads: whatever it answers, no table
    changes, so asking about a code does not count as a use of it. *)
Theorem validateCode_changes_nothing {JS : JsStrings}
    show now body st r st' :
  validateCode show now body st = (r, st') -> st_db st' = st_db st.
Proof. intros H. exact (readOnly_validateCode show now body _ _ _ H). Qed.

Section ValidateOnly.

#[local] Existing Instance asciiStrings.

Lemma validateCode_changes_nothing_witness :
  exists r st',
    validateCode (fun _ => EmptyString) Sample.now
      (mkApplyDiscountRequest (Some "save10") (Some 33.33%float))
      (mkSt Sample.db None) = (r, st')
    /\ st_db st' = Sample.db.
Proof.
  assert (Hrun : exists r st',
             validateCode (fun _ => EmptyString) Sample.now
               (mkApplyDiscountRequest (Some "save10") (Some 33.33%float))
               (mkSt Sample.db None) = (r, st')).
  { vm_compute. eexists _, _. reflexivity. }
  destruct Hrun as (r & st' & Hrun). exists r, st'. split; [exact Hrun|].
  exact (validateCode_changes_nothing _ _ _ _ _ _ Hrun).
Defined.

End ValidateOnly.

(** ** Carts *)

(** X14.  When [addToCart] succeeds on a cart table with unique ids, the
    product exists and is active, the requested quantity (1 when the
    request names none) is at least 1, and the row it answers belongs to
    the user and the product and holds what the user already had of the
    product in the cart plus the requested quantity, which is not more
    than the stock of the product. *)
Theorem addToCart_accumulates userId body st ci st' :
  cartIdsUnique (st_db st) ->
  CartController.addToCart userId body st = (Ok ci, st') ->
  exists productId p,
    CartController.atc_productId body = Some productId
    /\ products (st_db st) !! productId = Some p
    /\ p_isActive p = true
    /\ 1 <= default 1 (CartController.atc_quantity body)
    /\ ci_userId ci = userId
    /\ ci_productId ci = productId
    /\ ci_quantity ci
       = quantityInCart (st_db st) userId productId
         + default 1 (CartController.atc_quantity body)
    /\ ci_quantity ci <= p_stockQuantity p
    /\ In ci (cartItems (st_db st')).
Proof.
  intros Hids H.
  destruct (addToCart_Ok_inv _ _ _ _ _ Hids H)
    as (productId & p & Hid & _ & Hp & Ha & Hq & Hu & Hpid & Hsum & Hle & Hin).
  exists productId, p. repeat split; assumption.
Qed.

Lemma addToCart_accumulates_witness :
  exists ci st',
    CartController.addToCart 100
      (CartController.mkAddToCartRequest (Some 1) (Some 3))
      (mkSt Sample.db None) = (Ok ci, st')
    /\ quantityInCart Sample.db 100 1 = 2
    /\ ci_quantity ci = 5.
Proof.
  assert (Hrun : exists ci st',
             CartController.addToCart 100
               (CartController.mkAddToCartRequest (Some 1) (Some 3))
               (mkSt Sample.db None) = (Ok ci, st')).
  { vm_compute. eexists _, _. reflexivity. }
  destruct Hrun as (ci & st' & Hrun). exists ci, st'.
  split; [exact Hrun|]. split; [reflexivity|].
  destruct (addToCart_accumulates 100 _ (mkSt Sample.db None) ci st'
              Sample_cartIdsUnique Hrun)
    as (productId & p & [= <-] & _ & _ & _ & _ & _ & Hsum & _).
  rewrite Hsum. reflexivity.
Defined.

(** X15.  A cart row of another user can be neither changed nor removed:
    [updateCartItem] and [removeFromCart] answer an error for it (404 Cart
    item not found, unless the quantity is refused first or the database
    fails) and leave every table as it was. *)
Theorem foreign_cart_rows_are_protected userId cartItemId ci st :
  cartRowById (st_db st) cartItemId = Some ci ->
  ci_userId ci <> userId ->
  (forall quantity r st',
     CartController.updateCartItem userId cartItemId quantity st = (r, st') ->
     st_db st' = st_db st
     /\ (r = Err (BadRequestError (Some "Valid quantity is required") None)
         \/ r = Err (NotFoundError (Some "Cart item not found"))
         \/ r = Err databaseUnavailable))
  /\ (forall r st',
        CartController.removeFromCart userId cartItemId st = (r, st') ->
        st_db st' = st_db st
        /\ (r = Err (NotFoundError (Some "Cart item not found"))
            \/ r = Err databaseUnavailable)).
Proof.
  intros Hrow Hown. split.
  - intros quantity r st'. apply (updateCartItem_foreign _ _ _ ci); assumption.
  - intros r st'. apply (removeFromCart_foreign _ _ ci); assumption.
Qed.

Lemma foreign_cart_rows_are_protected_witness :
  exists r1 st1 r2 st2,
    CartController.updateCartItem 200 1 (Some 1) (mkSt Sample.db None)
    = (r1, st1)
    /\ CartController.removeFromCart 200 1 (mkSt Sample.db None) = (r2, st2)
    /\ st_db st1 = Sample.db
    /\ st_db st2 = Sample.db.
Proof.
  assert (Hrun : exists r1 st1 r2 st2,
             CartController.updateCartItem 200 1 (Some 1)
               (mkSt Sample.db None) = (r1, st1)
             /\ CartController.removeFromCart 200 1 (mkSt Sample.db None)
                = (r2, st2)).
  { vm_compute. eexists _, _, _, _. split; reflexivity. }
  destruct Hrun as (r1 & st1 & r2 & st2 & Hupdate & Hremove).
  exists r1, st1, r2, st2. split; [exact Hupdate|]. split; [exact Hremove|].
  destruct (foreign_cart_rows_are_protected 200 1 (mkCartItem 1 100 1 2)
              (mkSt Sample.db None) eq_refl ltac:(discriminate))
    as [Hu Hr].
  split.
  - exact (proj1 (Hu _ _ _ Hupdate)).
  - exact (proj1 (Hr _ _ Hremove)).
Defined.

(** X16.  When the cart endpoints that validate the quantity
    ([addToCart], [updateCartItem], [removeFromCart], [clearCart]),
    checkout and cancellation are served one at a time, each answered
    before the next one starts, then in any number and order, and
    whatever each of them answers, they keep the stock of every product
    at zero or above, keep the cart key of user and product unique and
    keep every quantity in a cart or an order at zero or above.
    (Checkout tests the stock before its transaction opens, so nothing
    is said here of requests that the server overlaps.) *)
Theorem validated_requests_keep_the_shop_sound {JS : JsStrings}
    (reqs : list ShopRequest) (st : St) :
  shopInvariant (st_db st) ->
  shopInvariant (st_db (serveShopInTurn reqs st))
  /\ stockNonNegative (st_db (serveShopInTurn reqs st)).
Proof.
  intros Hinv.
  pose proof (serveShopInTurn_invariant reqs st Hinv) as H.
  split; [exact H | apply H].
Qed.

Section BusyDay.

#[local] Existing Instance asciiStrings.

Lemma validated_requests_keep_the_shop_sound_witness :
  shopInvariant Sample.db
  /\ stockNonNegative (st_db (serveShopInTurn Busy.day (mkSt Sample.db None)))
  /\ (p_stockQuantity
        <$> products (st_db (serveShopInTurn Busy.day (mkSt Sample.db None)))
            !! 2) = Some 1.
Proof.
  split; [exact Sample_invariant|]. split.
  - exact (proj2 (validated_requests_keep_the_shop_sound Busy.day
                    (mkSt Sample.db None) Sample_invariant)).
  - vm_compute. reflexivity.
Defined.

End BusyDay.

(** X18.  Checkout cannot be repeated: after a checkout that created an
    order, a second checkout of the same user with a request that passes
    the validation of its fields is refused with 400 Cart is empty, and
    changes no table. *)
Theorem second_checkout_is_refused {JS : JsStrings}
    now userId body st view st1 now' body' :
  checkout now userId body st = (Ok view, st1) ->
  requestAccepted body' = true ->
  checkout now' userId body' (mkSt (st_db st1) None)
  = (Err (BadRequestError
            (Some "Cart is empty. Add items before checkout.") None),
     mkSt (st_db st1) None).
Proof.
  intros H Hreq. apply checkout_Ok_inv in H as (si & _ & _ & _ & _ & Hdb & _).
  apply checkout_empty_cart; [exact Hreq|].
  rewrite Hdb. apply cartOf_after_checkout.
Qed.

Section SecondCheckout.

#[local] Existing Instance asciiStrings.

Lemma second_checkout_is_refused_witness :
  exists view st1,
    checkout Sample.now 100 (Sample.request "Pokhara" None)
             (mkSt Sample.db None) = (Ok view, st1)
    /\ checkout Sample.now 100 (Sample.request "Pokhara" None)
                (mkSt (st_db st1) None)
       = (Err (BadRequestError
                 (Some "Cart is empty. Add items before checkout.") None),
          mkSt (st_db st1) None).
Proof.
  assert (Hrun : exists view st1,
             checkout Sample.now 100 (Sample.request "Pokhara" None)
                      (mkSt Sample.db None) = (Ok view, st1)).
  { vm_compute. eexists _, _. reflexivity. }
  destruct Hrun as (view & st1 & Hrun). exists view, st1.
  split; [exact Hrun|].
  apply (second_checkout_is_refused Sample.now 100
           (Sample.request "Pokhara" None) (mkSt Sample.db None) view st1
           Sample.now (Sample.request "Pokhara" None) Hrun).
  reflexivity.
Defined.

End SecondCheckout.

(** X19.  When [clearCart] succeeds, the cart rows left are exactly the
    rows of the other users, no other table changes, and the cart page of
    the user then shows no item and totals of zero. *)
Theorem clearCart_empties_only_the_own_cart userId (d : DB) r st' :
  CartController.clearCart userId (mkSt d None) = (r, st') ->
  r = Ok tt
  /\ st_db st'
     = set_cartItems
         (List.filter (fun ci => negb (ci_userId ci =? userId))) d
  /\ (forall ci, In ci (cartItems (st_db st'))
                 <-> In ci (cartItems d) /\ ci_userId ci <> userId)
  /\ CartController.getCart userId st'
     = (Ok (CartController.mkCartSummary [] 0 0%float 0%float), st').
Proof.
  unfold CartController.clearCart, cartItem_deleteMany.
  rewrite stmt_unlimited. intros [= <- <-].
  split; [reflexivity|]. split; [reflexivity|]. split.
  - intros ci. cbn [st_db cartItems set_cartItems]. rewrite filter_In.
    rewrite negb_true_iff, Z.eqb_neq. reflexivity.
  - unfold CartController.getCart, cartItem_findMany.
    rewrite bind_unfold, query_unlimited.
    assert (Hempty : cartOf (set_cartItems
                               (List.filter
                                  (fun ci => negb (ci_userId ci =? userId)))
                               d) userId = []).
    { unfold cartOf. cbn [cartItems set_cartItems products].
      rewrite filter_none; [reflexivity|].
      intros ci Hin. apply filter_In in Hin as [_ Hne].
      apply negb_true_iff in Hne. exact Hne. }
    rewrite Hempty. reflexivity.
Qed.

Lemma clearCart_empties_only_the_own_cart_witness :
  exists st',
    CartController.clearCart 100 (mkSt Sample.db None) = (Ok tt, st')
    /\ cartItems (st_db st') = [mkCartItem 3 200 3 1].
Proof.
  assert (Hrun : exists r st',
             CartController.clearCart 100 (mkSt Sample.db None) = (r, st')).
  { eexists _, _. reflexivity. }
  destruct Hrun as (r & st' & Hrun).
  destruct (clearCart_empties_only_the_own_cart 100 Sample.db r st' Hrun)
    as (-> & Hdb & _).
  exists st'. split; [exact Hrun|]. rewrite Hdb. reflexivity.
Defined.

(** ** Wishlists *)

(** X20.  [moveToCart] is all or nothing.  When it raises, no table has
    changed: the wish is still there and the cart is as before.  When it
    succeeds on a cart table with unique ids, the wish belonged to the
    user and is gone, and the cart row it answers holds what the user
    already had of the product plus the requested quantity (1 when none
    is given), a quantity the stock covered. *)
Theorem moveToCart_is_all_or_nothing userId wishlistItemId quantity st r st' :
  cartIdsUnique (st_db st) ->
  WishlistController.moveToCart userId wishlistItemId quantity st = (r, st') ->
  (st_db st' = st_db st /\ exists e, r = Err e)
  \/ exists ci wi p,
       r = Ok ci
       /\ wishlistRowById (st_db st) wishlistItemId = Some wi
       /\ wi_userId wi = userId
       /\ products (st_db st) !! wi_productId wi = Some p
       /\ default 1 quantity <= p_stockQuantity p
       /\ ci_userId ci = userId
       /\ ci_productId ci = wi_productId wi
       /\ ci_quantity ci
          = quantityInCart (st_db st) userId (wi_productId wi)
            + default 1 quantity
       /\ In ci (cartItems (st_db st'))
       /\ wishlistItems (st_db st')
          = List.filter (fun w => negb (wi_id w =? wishlistItemId))
                        (wishlistItems (st_db st)).
Proof.
  intros Hids H. destruct r as [ci|e].
  - right. destruct (moveToCart_Ok_inv _ _ _ _ _ _ Hids H)
      as (wi & p & Hrest).
    exists ci, wi, p. split; [reflexivity | exact Hrest].
  - left. split; [|eauto]. exact (moveToCart_atomic _ _ _ _ _ _ H).
Qed.

Lemma moveToCart_is_all_or_nothing_witness :
  exists ci st',
    WishlistController.moveToCart 300 1 (Some 2) (mkSt Oversell.shelf None)
    = (Ok ci, st')
    /\ ci_quantity ci = 2
    /\ wishlistItems (st_db st') = [].
Proof.
  assert (Hrun : exists ci st',
             WishlistController.moveToCart 300 1 (Some 2)
               (mkSt Oversell.shelf None) = (Ok ci, st')).
  { vm_compute. eexists _, _. reflexivity. }
  destruct Hrun as (ci & st' & Hrun). exists ci, st'.
  split; [exact Hrun|].
  assert (Hids : cartIdsUnique (st_db (mkSt Oversell.shelf None))).
  { constructor. }
  destruct (moveToCart_is_all_or_nothing 300 1 (Some 2)
              (mkSt Oversell.shelf None) (Ok ci) st' Hids Hrun)
    as [[_ [e [=]]] | (ci' & wi & p & [= <-] & Hrow & _ & _ & _ & _ & Hpid
                       & Hq & _ & Hwish)].
  injection Hrow as <-. split.
  - rewrite Hq. reflexivity.
  - rewrite Hwish. reflexivity.
Defined.

(** X21.  A wish of another user can be neither moved to a cart nor
    removed: [moveToCart] and [removeFromWishlist] answer 404 Wishlist
    item not found for it (or fail on the database) and leave every
    table as it was. *)
Theorem foreign_wishes_are_protected userId wishlistItemId wi st :
  wishlistRowById (st_db st) wishlistItemId = Some wi ->
  wi_userId wi <> userId ->
  (forall quantity r st',
     WishlistController.moveToCart userId wishlistItemId quantity st
     = (r, st') ->
     st_db st' = st_db st
     /\ (r = Err (NotFoundError (Some "Wishlist item not found"))
         \/ r = Err databaseUnavailable))
  /\ (forall r st',
        WishlistController.removeFromWishlist userId wishlistItemId st
        = (r, st') ->
        st_db st' = st_db st
        /\ (r = Err (NotFoundError (Some "Wishlist item not found"))
            \/ r = Err databaseUnavailable)).
Proof.
  intros Hrow Hown. split.
  - intros quantity r st'. apply (moveToCart_foreign _ _ _ wi); assumption.
  - intros r st'. apply (removeFromWishlist_foreign _ _ wi); assumption.
Qed.

Lemma foreign_wishes_are_protected_witness :
  exists r1 st1 r2 st2,
    WishlistController.moveToCart 400 1 None (mkSt Oversell.shelf None)
    = (r1, st1)
    /\ WishlistController.removeFromWishlist 400 1 (mkSt Oversell.shelf None)
       = (r2, st2)
    /\ st_db st1 = Oversell.shelf
    /\ st_db st2 = Oversell.shelf.
Proof.
  assert (Hrun : exists r1 st1 r2 st2,
             WishlistController.moveToCart 400 1 None
               (mkSt Oversell.shelf None) = (r1, st1)
             /\ WishlistController.removeFromWishlist 400 1
                  (mkSt Oversell.shelf None) = (r2, st2)).
  { vm_compute. eexists _, _, _, _. split; reflexivity. }
  destruct Hrun as (r1 & st1 & r2 & st2 & Hmove & Hremove).
  exists r1, st1, r2, st2. split; [exact Hmove|]. split; [exact Hremove|].
  destruct (foreign_wishes_are_protected 400 1 (mkWishlistItem 1 300 1)
              (mkSt Oversell.shelf None) eq_refl ltac:(discriminate))
    as [Hm Hr].
  split.
  - exact (proj1 (Hm _ _ _ Hmove)).
  - exact (proj1 (Hr _ _ Hremove)).
Defined.

(** ** Slugs *)

(** X22.  [generateSlug] answers the empty string or a slug that
    [isValidSlug] accepts: words of lower-case letters and digits joined
    by single hyphens. *)
Theorem generateSlug_is_empty_or_valid (text : string) :
  SlugUtil.generateSlug text = EmptyString
  \/ SlugUtil.isValidSlug (SlugUtil.generateSlug text) = true.
Proof. apply generateSlug_shape. Qed.

(** X23.  [generateSlug] leaves a valid slug as it is, so applying it
    twice gives the same as applying it once. *)
Theorem generateSlug_is_idempotent :
  (forall slug, SlugUtil.isValidSlug slug = true ->
                SlugUtil.generateSlug slug = slug)
  /\ (forall text,
        SlugUtil.generateSlug (SlugUtil.generateSlug text)
        = SlugUtil.generateSlug text).
Proof.
  split; [exact generateSlug_of_valid|].
  intros text. destruct (generateSlug_shape text) as [-> | Hvalid].
  - reflexivity.
  - apply generateSlug_of_valid, Hvalid.
Qed.

Lemma generateSlug_is_idempotent_witness :
  SlugUtil.isValidSlug "neem-soap-100g" = true
  /\ SlugUtil.generateSlug "neem-soap-100g" = "neem-soap-100g"%string
  /\ SlugUtil.generateSlug (SlugUtil.generateSlug "  Neem Soap (100g)! ")
     = SlugUtil.generateSlug "  Neem Soap (100g)! ".
Proof.
  split; [reflexivity|]. split.
  - apply (proj1 generateSlug_is_idempotent). reflexivity.
  - apply (proj2 generateSlug_is_idempotent).
Defined.

(** X24.  The loop of [makeUniqueSlug] ends within as many iterations as
    there are existing slugs, and answers a slug that is not among them:
    the base slug when it is free, and otherwise the base slug with the
    suffix of the least number from 1 on that makes it free. *)
Theorem makeUniqueSlug_finds_the_first_free_slug
    (baseSlug : string) (existingSlugs : list string) :
  exists n,
    (n <= length existingSlugs)%nat
    /\ SlugUtil.makeUniqueSlug baseSlug existingSlugs
       = Some (candidateSlug baseSlug n)
    /\ ~ In (candidateSlug baseSlug n) existingSlugs
    /\ (forall j, (j < n)%nat -> In (candidateSlug baseSlug j) existingSlugs).
Proof.
  unfold SlugUtil.makeUniqueSlug.
  destruct (makeUniqueSlug_loop_spec baseSlug existingSlugs
              (length existingSlugs) 0)
    as (m & Hm & Hrun & Hfree & Hbelow).
  - intros j Hj. lia.
  - lia.
  - exists m. split; [lia|]. split; [exact Hrun|]. split; assumption.
Qed.

(** ** Authentication *)

(** X25.  Whatever goes wrong in [authenticate] (no header, a header
    that does not start with Bearer, no configured secret, a token that
    does not verify) the error it passes on is the same 401 Invalid or
    expired token; it lets a request through only with the claims that
    [jwt.verify] decodes, under the configured secret, from the text
    between Bearer and the next space. *)
Theorem authenticate_answers_one_error jwtSecret jwt_verify authorization :
  match AuthMiddleware.authenticate jwtSecret jwt_verify authorization with
  | Err e =>
      e = UnauthorizedError
            (Some "Invalid or expired token. Please login again.")
      /\ res_status (errorHandler false e) = 401
  | Ok payload =>
      exists rest token pieces secret decoded,
        authorization = Some ("Bearer " +:+ rest)
        /\ AuthMiddleware.split " " rest = token :: pieces
        /\ jwtSecret = Some secret
        /\ nonEmpty secret = true
        /\ jwt_verify token secret = Ok decoded
        /\ payload
           = AuthMiddleware.mkJwtPayload (AuthMiddleware.userId decoded)
               (AuthMiddleware.email decoded) (AuthMiddleware.role decoded)
  end.
Proof.
  destruct (AuthMiddleware.authenticate jwtSecret jwt_verify authorization)
    as [payload|e] eqn:H.
  - exact (authenticate_Ok_inv _ _ _ _ H).
  - rewrite (authenticate_Err_inv _ _ _ _ H). split; reflexivity.
Qed.

(** X26.  The chain of [authenticate] and [isAdmin] in front of the admin
    routes lets a request through exactly when [authenticate] accepts it
    and the role in its claims is admin; it answers 401 when
    [authenticate] refuses and 403 Access denied when the role is another
    one. *)
Theorem admin_routes_let_only_admins_through jwtSecret jwt_verify authorization :
  match AuthMiddleware.authenticateAdmin jwtSecret jwt_verify authorization
  with
  | Ok payload =>
      AuthMiddleware.authenticate jwtSecret jwt_verify authorization
      = Ok payload
      /\ AuthMiddleware.role payload = "admin"
  | Err e =>
      (AuthMiddleware.authenticate jwtSecret jwt_verify authorization = Err e
       /\ res_status (errorHandler false e) = 401)
      \/ (exists payload,
            AuthMiddleware.authenticate jwtSecret jwt_verify authorization
            = Ok payload
            /\ AuthMiddleware.role payload <> "admin"
            /\ e = ForbiddenError
                     (Some "Access denied. Admin privileges required.")
            /\ res_status (errorHandler false e) = 403)
  end.
Proof.
  unfold AuthMiddleware.authenticateAdmin.
  destruct (AuthMiddleware.authenticate jwtSecret jwt_verify authorization)
    as [payload|e] eqn:H.
  - unfold AuthMiddleware.isAdmin.
    destruct (String.eqb (AuthMiddleware.role payload) "admin") eqn:Hrole;
      cbn [negb].
    + apply String.eqb_eq in Hrole. split; [reflexivity | exact Hrole].
    + apply String.eqb_neq in Hrole. right. exists payload.
      repeat split; [exact Hrole].
  - left. rewrite (authenticate_Err_inv _ _ _ _ H). split; reflexivity.
Qed.

(** ** More on cancellation and on cart rows *)

(** X27.  A cancellation request is all or nothing on the tables:
    whatever it answers, the tables are as before, or the order is
    cancelled with the units of every item returned to stock and the use
    of its discount returned.  The second case does not need a success
    answer: when the database fails at the read that follows the
    transaction, the request answers an error although the order is
    cancelled. *)
Theorem cancellation_is_all_or_nothing orderId adminNote st r st' :
  updateOrderStatus orderId (cancelRequest adminNote) st = (r, st') ->
  (st_db st' = st_db st /\ exists e, r = Err e)
  \/ exists o,
       orders (st_db st) !! orderId = Some o
       /\ o_status o <> CANCELLED
       /\ (forall k,
             products (st_db st') !! k
             = set_stockQuantity
                 (fun s => s + orderedQuantity (itemsOf (st_db st) orderId) k)
               <$> products (st_db st) !! k)
       /\ discounts (st_db st')
          = (if truthyInt (o_discountId o)
             then alter (set_usedCount (fun n => n - 1))
                    (default 0 (o_discountId o)) (discounts (st_db st))
             else discounts (st_db st))
       /\ (o_status <$> orders (st_db st') !! orderId) = Some CANCELLED
       /\ orderItems (st_db st') = orderItems (st_db st)
       /\ cartItems (st_db st') = cartItems (st_db st).
Proof.
  intros H.
  apply cancel_outcomes in H as [Hsame | (o & Ho & Hs & -> & _)];
    [left; exact Hsame|].
  right. exists o. split; [exact Ho|]. split; [exact Hs|].
  split; [|split; [reflexivity|split; [|split; reflexivity]]].
  - intros k. cbn [cancelDb products]. apply incrementAll_lookup.
  - rewrite (cancelDb_order _ _ _ adminNote Ho). reflexivity.
Qed.

Lemma cancellation_is_all_or_nothing_witness :
  exists st',
    updateOrderStatus 1 (cancelRequest None) (mkSt Placed.db (Some 5%nat))
    = (Err databaseUnavailable, st')
    /\ (o_status <$> orders Placed.db !! 1) = Some "pending"
    /\ (o_status <$> orders (st_db st') !! 1) = Some CANCELLED
    /\ (p_stockQuantity <$> products Placed.db !! 1) = Some 3
    /\ (p_stockQuantity <$> products (st_db st') !! 1) = Some 5.
Proof.
  assert (Hrun : exists st',
             updateOrderStatus 1 (cancelRequest None)
                               (mkSt Placed.db (Some 5%nat))
             = (Err databaseUnavailable, st')
             /\ st_db st' <> Placed.db).
  { vm_compute. eexists. split; [reflexivity | discriminate]. }
  destruct Hrun as (st' & Hrun & Hchanged). exists st'.
  split; [exact Hrun|]. split; [vm_compute; reflexivity|].
  destruct (cancellation_is_all_or_nothing 1 None
              (mkSt Placed.db (Some 5%nat)) _ st' Hrun)
    as [[Hsame _] | (o & _ & _ & Hstock & _ & Hstatus & _)].
  { destruct (Hchanged Hsame). }
  split; [exact Hstatus|]. split; [vm_compute; reflexivity|].
  rewrite Hstock. vm_compute. reflexivity.
Defined.

(** X28.  On a cart table with unique ids, [updateCartItem] succeeds only
    for a row of the user and a quantity from 1 up to the stock of its
    product; it then sets the quantity of that row to the requested one
    and changes nothing else.  [removeFromCart] succeeds only for a row
    of the user and then removes the rows with that id and nothing
    else. *)
Theorem own_cart_rows_are_updated_and_removed userId cartItemId st :
  cartIdsUnique (st_db st) ->
  (forall quantity ci st',
     CartController.updateCartItem userId cartItemId quantity st
     = (Ok ci, st') ->
     exists q old p,
       quantity = Some q
       /\ cartRowById (st_db st) cartItemId = Some old
       /\ ci_userId old = userId
       /\ products (st_db st) !! ci_productId old = Some p
       /\ 1 <= q <= p_stockQuantity p
       /\ ci = set_quantity q old
       /\ st_db st'
          = set_cartItems
              (map (fun c => if ci_id c =? cartItemId
                             then set_quantity q c else c))
              (st_db st))
  /\ (forall u st',
        CartController.removeFromCart userId cartItemId st = (Ok u, st') ->
        (exists old, cartRowById (st_db st) cartItemId = Some old
                     /\ ci_userId old = userId)
        /\ st_db st'
           = set_cartItems
               (List.filter (fun ci => negb (ci_id ci =? cartItemId)))
               (st_db st)).
Proof.
  intros Hids. split.
  - intros quantity ci st'. apply updateCartItem_Ok_inv, Hids.
  - intros u st' H.
    apply removeFromCart_outcomes in H
      as [(_ & e & [=]) | (_ & Hown & Hdb)].
    split; assumption.
Qed.

Lemma own_cart_rows_are_updated_and_removed_witness :
  exists ci st1 st2,
    CartController.updateCartItem 100 1 (Some 4) (mkSt Sample.db None)
    = (Ok ci, st1)
    /\ CartController.removeFromCart 100 1 (mkSt Sample.db None)
       = (Ok tt, st2)
    /\ ci = mkCartItem 1 100 1 4
    /\ cartItems (st_db st2)
       = [mkCartItem 2 100 2 1; mkCartItem 3 200 3 1].
Proof.
  assert (Hrun : exists ci st1 st2,
             CartController.updateCartItem 100 1 (Some 4)
               (mkSt Sample.db None) = (Ok ci, st1)
             /\ CartController.removeFromCart 100 1 (mkSt Sample.db None)
                = (Ok tt, st2)).
  { vm_compute. eexists _, _, _. split; reflexivity. }
  destruct Hrun as (ci & st1 & st2 & Hupdate & Hremove).
  exists ci, st1, st2. split; [exact Hupdate|]. split; [exact Hremove|].
  destruct (own_cart_rows_are_updated_and_removed 100 1
              (mkSt Sample.db None) Sample_cartIdsUnique) as [Hu Hr].
  destruct (Hu _ _ _ Hupdate) as (q & old & p & [= <-] & Hold & _ & _ & _
                                  & -> & _).
  destruct (Hr _ _ Hremove) as (_ & Hdb).
  injection Hold as <-. split; [reflexivity|]. rewrite Hdb. reflexivity.
Defined.

(** X29.  [removeFromWishlist] succeeds only for a wish of the user and
    then removes the wish with that id; [clearWishlist] removes exactly
    the wishes of the user.  Neither changes another user's wishes or
    any other table, and when either raises nothing has changed. *)
Theorem wishlist_removal_touches_only_own_wishes userId st :
  (forall wishlistItemId r st',
     WishlistController.removeFromWishlist userId wishlistItemId st
     = (r, st') ->
     (st_db st' = st_db st /\ exists e, r = Err e)
     \/ (r = Ok tt
         /\ (exists wi, wishlistRowById (st_db st) wishlistItemId = Some wi
                        /\ wi_userId wi = userId)
         /\ st_db st'
            = set_wishlistItems
                (List.filter (fun wi => negb (wi_id wi =? wishlistItemId)))
                (st_db st)))
  /\ (forall r st',
        WishlistController.clearWishlist userId st = (r, st') ->
        (st_db st' = st_db st /\ r = Err databaseUnavailable)
        \/ (r = Ok tt
            /\ st_db st'
               = set_wishlistItems
                   (List.filter (fun wi => negb (wi_userId wi =? userId)))
                   (st_db st))).
Proof.
  split.
  - intros wishlistItemId r st'. apply removeFromWishlist_outcomes.
  - intros r st'. apply clearWishlist_inv.
Qed.

Lemma wishlist_removal_touches_only_own_wishes_witness :
  exists st1 st2,
    WishlistController.removeFromWishlist 300 1 (mkSt Oversell.shelf None)
    = (Ok tt, st1)
    /\ WishlistController.clearWishlist 400 (mkSt Oversell.shelf None)
       = (Ok tt, st2)
    /\ wishlistItems (st_db st1) = []
    /\ wishlistItems (st_db st2) = [mkWishlistItem 1 300 1].
Proof.
  assert (Hrun : exists st1 st2,
             WishlistController.removeFromWishlist 300 1
               (mkSt Oversell.shelf None) = (Ok tt, st1)
             /\ WishlistController.clearWishlist 400
                  (mkSt Oversell.shelf None) = (Ok tt, st2)).
  { vm_compute. eexists _, _. split; reflexivity. }
  destruct Hrun as (st1 & st2 & Hremove & Hclear). exists st1, st2.
  split; [exact Hremove|]. split; [exact Hclear|].
  destruct (wishlist_removal_touches_only_own_wishes 300
              (mkSt Oversell.shelf None)) as [Hr _].
  destruct (wishlist_removal_touches_only_own_wishes 400
              (mkSt Oversell.shelf None)) as [_ Hc].
  destruct (Hr _ _ _ Hremove) as [(_ & e & [=]) | (_ & _ & ->)].
  destruct (Hc _ _ Hclear) as [(_ & [=]) | (_ & ->)].
  split; reflexivity.
Defined.
